(* ===== verification/_CoqProject ===== *)
-Q . S2P
Prelude.v
PyStr.v
Extract.v
Base64.v
Plot.v
Dataset.v
Executor.v
Concurrent.v
Model.v
Config.v
Agent.v
AskThreads.v
Startup.v
JsonText.v
Server.v
Cors.v
Ui.v
