(* ===== verification/Prelude.v ===== *)
(** * A verification library for titanic-chat-bot

    The program (src/) answers natural-language questions about the Titanic
    data set.  A language model turns each question into a pandas snippet,
    the snippet is executed against the shared data frame, and the text it
    printed plus the chart it drew are returned.

    Parts of the program and how they interact:
    - agent.py, module initialisation (lines 16-40): patches [plt.show] to a
      no-op, loads the data frame (seaborn, with a CSV fallback) and builds
      the fixed [SYSTEM_PROMPT] from the frame's dtypes and first rows.
    - agent.py [call_llm] (45-63): reads the API token from the environment,
      sends a system+user chat request to the remote service, returns the
      first choice's content.
    - agent.py [extract_code] (66-76): two [re.findall] searches for fenced
      code, the [```python] fence first, then any fence.
    - agent.py [run_code] (79-88): redirects [sys.stdout] to a fresh
      [StringIO], [exec]s the snippet with [df]/[pd]/[plt]/[sns] bound, and
      restores [sys.stdout] in a [finally].
    - agent.py [grab_plot] (91-100): if a figure is open, saves the current
      one as PNG, base64-encodes it and closes every figure.  [savefig]
      can raise (an image too large, mathtext it cannot parse), and
      nothing catches it there.
    - agent.py [ask] (103-131): the orchestrator composing all of the above
      and turning the failures of the model call and of the snippet into
      an answer string; [grab_plot] is called outside any [try].
    - main.py: the HTTP layer ([/chat] calls [ask], [/health]) behind
      Starlette's CORS middleware.
    - app.py and streamlit_app.py: the chat UIs, which keep an append-only
      history of messages per session and call [ask] (locally, or through
      HTTP when the back end answers its health check).

    Files of the development, in dependency order:
    - [Prelude] (this file): Python exceptions and results ([PyExc],
      [PyResult]) with a bind notation in [py_scope], string append
      lemmas, the [pystr] rewrite database, the [py] hint database and the
      shared tactics.
    - [PyStr]: the [str] operations the code uses ([strip], [lstrip],
      [rstrip], truthiness) on strings of code points below 256.
    - [Extract]: [extract_code].  The regular expressions
      [```python\s*(.*?)```] and [```\s*(.*?)```] get their backtracking
      semantics ([regex_at]: greedy [\s*], lazy [.*?]) and [re.findall]
      its scanning semantics with fuel.  The theorems show that the
      backtracking matcher equals a direct scan, that the fuel suffices,
      which block is returned, and when nothing is found.
    - [Base64]: [base64.b64encode] (called by [grab_plot]) and
      [base64.b64decode] (called by the UIs), the latter as the loop of
      CPython's non-strict [binascii.a2b_base64] over an explicit state.
      The theorems: the round trip, the payload's length, that decoding
      writes only bytes, that characters outside the alphabet and text
      after the padding are ignored, and the errors at the end of the
      text.
    - [Plot]: the matplotlib figure manager as a record (open figures; the
      active figure is the last), [plt.figure], drawing,
      [plt.close('all')], the [plt.show] patch, [savefig] behind the
      [Rasterizer] interface (which may raise), and [grab_plot]: its
      error path, idempotence, the PNG payload round trip, and
      well-formedness of the figure list.
    - [Dataset]: the data frame, the seaborn / CSV fallback of [load_df]
      behind the [DataSources] interface, [df.head()] and [SYSTEM_PROMPT].
    - [Executor]: the process' streams (a [gmap] from stream ids to
      buffers, [sys.stdout] as a stream id), the statements a snippet can
      execute (print, figure, draw, close, show, replace [df], raise)
      behind the [PyCompiler] interface, and [run_code].  [sys.stdout] is
      restored on every path, the value is the stripped output or the
      snippet's exception, and the streams and figures stay well formed.
    - [Concurrent]: [run_code] as atomic steps of a thread on the shared
      process state, and schedules of several threads, as FastAPI's
      thread pool runs main.py's [def chat].  The theorems:
      - a thread alone ends with exactly [run_code]'s value and world;
      - one interleaving of two printing snippets swaps their captures
        and leaves [sys.stdout] redirected.
    - [AskThreads]: a whole call of [ask] as atomic steps of a thread
      ([AskPc], [ask_thread_step]):
      - [plt.close('all')], the model call, [extract_code];
      - the steps of [run_code];
      - the [except] clause, and [grab_plot].
      The theorems:
      - a thread alone terminates with exactly the value and the process
        of [ask], so the thread steps refine [ask];
      - under one schedule, the [plt.close('all')] that starts a second
        request closes the first request's figure before it is grabbed,
        and the first request answers that there was no output.
    - [Model]: [call_llm] with the environment and the log of sent
      requests behind the [ChatService] interface.  A missing token fails
      before any request.
    - [Config]: python-dotenv's [load_dotenv], app.py's copy of the
      token from [st.secrets], and [API_URL].  The theorems give the
      precedence of the token sources and the request [call_llm] then
      sends.
    - [Agent]: [ask] (Section [Ask]) and its theorems (Section
      [AskFacts]).  These cover:
      - the four terminal shapes of the spec;
      - when the model returns content and the model call and snippets
        raise only [Exception]s, the one exception that escapes [ask] is
        the one [savefig] raises on the active figure; counterexamples
        show the other exceptions that escape;
      - stdout is restored, and figures left open are ignored;
      - the frame keeps the snippet's changes;
      - one request preserves well-formedness, the prompt and the
        environment, and calls the model at most once.
    - [Startup]: the import of agent.py from a fresh process, and the
      environments main.py and app.py import it with.  The import gives
      a well-formed process or the loaders' exception.
    - [JsonText]: the text on the wire.  [dumps] is [json.dumps] in the
      style of Starlette (responses) and of requests (questions), and
      [loads] is [json.loads] (FastAPI's body parsing and
      [resp.json()]): a recursive-descent parser with fuel.  The round
      trip is proved by nested induction on [Json], with the 256
      characters checked by computation.
    - [Server]: main.py's router.  [route] sends [POST /chat] (the body
      parsed and validated as a [ChatRequest]) to [chat], which calls
      [ask], and [GET /health] to a fixed payload.  [server_error] turns
      an exception of [ask] into the 500, and [handle] is the two
      together.  [serve] handles a sequence of requests one at a time.
      The theorems:
      - only a valid chat request touches the agent state;
      - the responses to [POST /chat] have the response type of the
        spec;
      - serving any sequence of requests leaves [sys.stdout] and every
        stream open before untouched, keeps the process well formed, and
        calls the model at most once per valid [POST /chat].
    - [Cors]: main.py's [CORSMiddleware] on its arguments and the whole
      stack [serve_http] (server errors, CORS, router).  The theorems:
      - without an [Origin] header the stack is [handle];
      - a preflight never reaches the router;
      - any other request gets [handle]'s state and response, with the
        CORS headers except on the 500 of a failing [ask].
    - [Ui]: app.py and streamlit_app.py.  One Streamlit run is
      [app_rerun] / [st_rerun], a function of the session state
      ([backend_up], [messages]) and of the agent state the answers come
      from.  A run renders the history first, decoding each stored plot
      outside any [try], and decodes a new answer's plot inside the [try]
      before storing the turn.  The network outcome of each HTTP exchange
      is a [Transport] ([Delivered], [Refused], [TimedOut]).  The
      theorems:
      - refinement: API mode over [handle] and the two JSON texts gives
        the same history and agent state as Local mode over [ask];
      - streamlit_app.py is app.py in Local mode;
      - the back end is checked once per session, and the history is
        append-only;
      - the failure paths of the HTTP exchange;
      - by induction on [reachable]: every assistant turn answers a user
        turn, every stored plot decodes to PNG bytes, and so rendering
        the history never raises;
      - the answer survives the wire;
      - one Local-mode run with a question stores [ask]'s answer when
        [ask] returns, and leaves the question unanswered when it raises
        an [Exception] ([savefig]'s included); in API mode with the
        server down a question is never answered.

    Python values are modelled as follows.  [str] is Rocq [string], one
    [ascii] per code point below 256; the whitespace predicate is
    [str.isspace] on those code points.  Bytes are lists of [Z] in
    [0, 256).  An exception is a record holding the class name, [str(e)]
    and whether the class derives from [Exception] (the code's
    [except Exception] clauses test exactly that).  A Python call that
    may raise is a [PyResult].  Environments and stream tables are
    stdpp [gmap]s.  Library behaviour the repository only calls is a
    typeclass interface: the Python compiler, the remote model,
    matplotlib's PNG writer, pandas' printing and the data sources.
    Each of them may raise, except pandas' printing of a loaded frame.  The
    theorems hold for every instance, and the witnesses use concrete
    instances.

    Fuel: [re.findall] is run with [length text + 1] rounds.  Each round
    either consumes at least one character or stops, so this is enough:
    [findall_fuel_enough] shows that more fuel returns the same list.
    [json.loads] is run with [length text + 1] rounds.  Every value and
    every object member consumes at least one character, and the round
    trip is proved with the fuel [loads] uses.  Every other definition
    is structurally recursive.

    Not modelled:
    - rendering (st.markdown, st.image, st.error) and the sidebar, which
      change no state; of [st.image] only the decoding of its argument is
      modelled, not its own checks of the bytes;
    - a non-string ["answer"] in a response, which the server never
      sends: the model reads it as the default of [result.get];
    - the headers of responses other than the CORS headers, and the
      detail of a 422 body;
    - [${VAR}] interpolation in [.env] values and the search for the
      [.env] file;
    - Streamlit's own export of root-level secrets to the environment;
    - JSON values the program never exchanges (numbers, booleans,
      arrays);
    - the model call and [grab_plot] as one atomic step each: the real
      calls can be preempted inside, which adds interleavings but no
      state the model does not have.  The steps of a thread are coarser
      than the interpreter's switch points, so every schedule of the
      model is one the interpreter can take;
    - Streamlit's own threads: each browser session reruns its script in
      its own thread, and a local-mode [ask] in one session can race with
      another's in the same way; the model has one session.
    Snippets are modelled by the statements they execute, not as
    arbitrary Python. *)

From stdpp Require Import base strings list.
From Stdlib Require Import String Ascii ZArith Lia.

Declare Scope py_scope.
Delimit Scope py_scope with py.

(** ** Python exceptions *)

(** A raised exception: [type(e).__name__], [str(e)], and whether its class
    is a subclass of [Exception] (false for [SystemExit],
    [KeyboardInterrupt], [GeneratorExit]). *)
Record PyExc := mkExc {
  exc_type : string;
  exc_msg : string;
  exc_is_Exception : bool
}.

(** The outcome of a Python call: a value, or an exception that propagates. *)
Inductive PyResult (A : Type) : Type :=
| POk (a : A)
| PRaise (e : PyExc).
Arguments POk {A} a.
Arguments PRaise {A} e.

Definition py_bind {A B} (r : PyResult A) (k : A -> PyResult B) : PyResult B :=
  match r with
  | POk a => k a
  | PRaise e => PRaise e
  end.

Notation "x <- r ;; k" := (py_bind r (fun x => k))
  (at level 100, r at next level, right associativity) : py_scope.

Definition is_ok {A} (r : PyResult A) : bool :=
  match r with POk _ => true | PRaise _ => false end.

(** Exceptions raised by the Python runtime itself. *)
Definition TypeError (msg : string) : PyExc := mkExc "TypeError" msg true.
Definition RuntimeError (msg : string) : PyExc := mkExc "RuntimeError" msg true.
Definition IndexError (msg : string) : PyExc := mkExc "IndexError" msg true.
Definition ValueError (msg : string) : PyExc := mkExc "ValueError" msg true.
Definition AttributeError (msg : string) : PyExc := mkExc "AttributeError" msg true.
Definition SystemExit (msg : string) : PyExc := mkExc "SystemExit" msg false.

(** ** Strings *)

Create Rewrite HintDb pystr.
Create HintDb py discriminated.

(** stdpp makes [append] opaque to [simpl]; this lemma is its step. *)
Lemma append_String (c : ascii) (s1 s2 : string) :
  String c s1 +:+ s2 = String c (s1 +:+ s2).
Proof. reflexivity. Qed.

Lemma append_EmptyString (s : string) : "" +:+ s = s.
Proof. reflexivity. Qed.

Lemma append_nil_r (s : string) : s +:+ "" = s.
Proof. induction s as [|c s IH]; [done | rewrite append_String, IH; done]. Qed.

Lemma append_assoc (s1 s2 s3 : string) : s1 +:+ (s2 +:+ s3) = (s1 +:+ s2) +:+ s3.
Proof. induction s1 as [|c s IH]; [done | rewrite !append_String, IH; done]. Qed.

Lemma length_append (s1 s2 : string) :
  String.length (s1 +:+ s2) = String.length s1 + String.length s2.
Proof. induction s1 as [|c s IH]; [done | rewrite append_String; simpl; lia]. Qed.

#[export] Hint Rewrite append_nil_r append_String append_EmptyString length_append : pystr.
#[export] Hint Rewrite <- append_assoc : pystr.

Lemma py_bind_ok {A B} (a : A) (k : A -> PyResult B) : py_bind (POk a) k = k a.
Proof. done. Qed.

Lemma py_bind_raise {A B} (e : PyExc) (k : A -> PyResult B) :
  py_bind (PRaise e) k = PRaise e.
Proof. done. Qed.

#[export] Hint Rewrite @py_bind_ok @py_bind_raise : pystr.

(** [prefix p s]: [s.startswith(p)]. *)
Lemma prefix_append (p s : string) : String.prefix p (p +:+ s) = true.
Proof.
  induction p as [|c p IH]; [by destruct s|].
  rewrite append_String; simpl.
  destruct (ascii_dec c c); [exact IH | congruence].
Qed.

#[export] Hint Resolve prefix_append : py.

(** Destruct every [match] on a boolean test or an option in the goal,
    keeping the equation, then simplify. *)
Ltac py_cases :=
  repeat match goal with
  | |- context [match ?x with _ => _ end] =>
      lazymatch x with
      | context [match _ with _ => _ end] => fail
      | _ => let E := fresh "E" in destruct x eqn:E
      end
  end; simpl in *.

Ltac py_simp := simpl in *; autorewrite with pystr in *; simpl in *.
