(* ===== verification/PyStr.v ===== *)
(** * Python [str] operations used by agent.py

    [str.isspace] on ASCII characters, [str.lstrip()], [str.rstrip()],
    [str.strip()] (no argument: strip whitespace) and the truthiness of a
    string ([if s:]).  [strip] is used by [extract_code] (agent.py:71,75),
    [run_code] (agent.py:88) and [ask] (agent.py:114). *)

From stdpp Require Import base strings list.
From Stdlib Require Import String Ascii Lia.
From S2P Require Import Prelude.

(** [c.isspace()] for a code point below 256 (an [ascii] is one byte of
    Latin-1): tab, newline, vertical tab, form feed, carriage return
    (9-13), the separators 28-31, space (32), next line (U+0085) and
    no-break space (U+00A0).  This is CPython's [Py_UNICODE_ISSPACE] on
    that range, which both [str.strip] and the regular-expression class
    [\s] of a [str] pattern use. *)
Definition is_space (c : ascii) : bool :=
  let n := nat_of_ascii c in
  ((9 <=? n) && (n <=? 13)) || ((28 <=? n) && (n <=? 32)) || (n =? 133) || (n =? 160).

(** Every character of [s] is whitespace. *)
Fixpoint all_space (s : string) : bool :=
  match s with
  | EmptyString => true
  | String c s' => is_space c && all_space s'
  end.

(** [s.lstrip()] *)
Fixpoint lstrip (s : string) : string :=
  match s with
  | EmptyString => EmptyString
  | String c s' => if is_space c then lstrip s' else s
  end.

(** [s.rstrip()]: a character survives when something that is not
    whitespace follows it, or when it is not whitespace itself. *)
Fixpoint rstrip (s : string) : string :=
  match s with
  | EmptyString => EmptyString
  | String c s' =>
      match rstrip s' with
      | EmptyString => if is_space c then EmptyString else String c EmptyString
      | r => String c r
      end
  end.

(** [s.strip()] *)
Definition strip (s : string) : string := rstrip (lstrip s).

(** [bool(s)] for a [str]: true unless empty. *)
Definition str_truthy (s : string) : bool :=
  match s with EmptyString => false | String _ _ => true end.

(** The first character is not whitespace (or there is none). *)
Definition no_lead_space (s : string) : bool :=
  match s with EmptyString => true | String c _ => negb (is_space c) end.

(** The last character is not whitespace (or there is none). *)
Fixpoint no_trail_space (s : string) : bool :=
  match s with
  | EmptyString => true
  | String c EmptyString => negb (is_space c)
  | String _ s' => no_trail_space s'
  end.

(** ** Lemmas *)

Lemma backtick_not_space : is_space "`"%char = false.
Proof. reflexivity. Qed.

Lemma lstrip_all_space (s : string) : all_space s = true -> lstrip s = "".
Proof.
  induction s as [|c s IH]; simpl; [done|].
  intros [-> ?]%andb_prop. auto.
Qed.

Lemma lstrip_idem (s : string) : lstrip (lstrip s) = lstrip s.
Proof.
  induction s as [|c s IH]; simpl; [done|].
  destruct (is_space c) eqn:E; [done | simpl; by rewrite E].
Qed.

Lemma no_lead_space_lstrip (s : string) : no_lead_space (lstrip s) = true.
Proof.
  induction s as [|c s IH]; simpl; [done|].
  destruct (is_space c) eqn:E; [done | simpl; by rewrite E].
Qed.

Lemma lstrip_append_space (w s : string) :
  all_space w = true -> lstrip (w +:+ s) = lstrip s.
Proof.
  induction w as [|c w IH]; [done|].
  rewrite append_String; simpl. intros [-> ?]%andb_prop. auto.
Qed.

Lemma rstrip_empty_iff (s : string) : rstrip s = "" <-> all_space s = true.
Proof.
  induction s as [|c s IH]; simpl; [done|].
  destruct (rstrip s) eqn:E.
  - destruct (is_space c); simpl; [|done]. rewrite <- IH. done.
  - split; [done|]. intros [_ ?%IH]%andb_prop. done.
Qed.

Lemma all_space_append (w1 w2 : string) :
  all_space (w1 +:+ w2) = all_space w1 && all_space w2.
Proof.
  induction w1 as [|c w IH]; [done|].
  rewrite append_String; simpl. rewrite IH. by rewrite andb_assoc.
Qed.

Lemma rstrip_append_space (s w : string) :
  all_space w = true -> rstrip (s +:+ w) = rstrip s.
Proof.
  intros Hw. induction s as [|c s IH].
  - by apply rstrip_empty_iff.
  - rewrite append_String; simpl. by rewrite IH.
Qed.

Lemma lstrip_empty_iff (s : string) : lstrip s = "" <-> all_space s = true.
Proof.
  split; [|apply lstrip_all_space].
  induction s as [|c s IH]; simpl; [done|].
  destruct (is_space c); simpl; [auto | done].
Qed.

Lemma all_space_no_lead (s : string) :
  no_lead_space s = true -> all_space s = true -> s = "".
Proof. destruct s as [|c s]; simpl; [done|]. destruct (is_space c); done. Qed.

Lemma rstrip_no_trail (s : string) : no_trail_space s = true -> rstrip s = s.
Proof.
  induction s as [|c s IH]; simpl; [done|].
  destruct s as [|c' s'].
  - simpl. by destruct (is_space c).
  - intros H. rewrite (IH H). done.
Qed.

Lemma lstrip_append_r (s w : string) :
  all_space w = true -> rstrip (lstrip (s +:+ w)) = rstrip (lstrip s).
Proof.
  intros Hw. induction s as [|c s IH].
  - rewrite append_EmptyString, lstrip_all_space by done. simpl.
    symmetry. done.
  - rewrite append_String; simpl. destruct (is_space c); [done|].
    apply rstrip_append_space with (s := String c s). done.
Qed.

(** [strip] returns the empty string exactly on whitespace-only input. *)
Lemma strip_empty_iff (s : string) : strip s = "" <-> all_space s = true.
Proof.
  unfold strip. split.
  - intros H. apply lstrip_empty_iff, all_space_no_lead;
      [apply no_lead_space_lstrip | by apply rstrip_empty_iff].
  - intros H. by rewrite (lstrip_all_space s H).
Qed.

(** Whitespace around a string does not change its [strip]. *)
Lemma strip_around (w1 s w2 : string) :
  all_space w1 = true -> all_space w2 = true ->
  strip (w1 +:+ s +:+ w2) = strip s.
Proof.
  intros H1 H2. unfold strip. rewrite lstrip_append_space by done.
  by apply lstrip_append_r.
Qed.

(** A string without whitespace at either end is its own [strip]. *)
Lemma strip_clean (s : string) :
  no_lead_space s = true -> no_trail_space s = true -> strip s = s.
Proof.
  intros H1 H2. unfold strip.
  destruct s as [|c s]; [done|]. simpl in H1 |- *.
  rewrite (proj1 (negb_true_iff _) H1). by apply rstrip_no_trail.
Qed.

#[export] Hint Resolve no_lead_space_lstrip : py.
