(* ===== verification/Extract.v ===== *)
(** * [extract_code] (agent.py:66-76)

    [re.findall(r'```python\s*(.*?)```', text, re.DOTALL)], then the same
    with the generic fence [```], each followed by [matches[0].strip()].

    [regex_at lit] is the backtracking semantics of the pattern
    [lit\s*(.*?)```] anchored at the start of a string, in the order in
    which CPython's [sre] tries the alternatives: [\s*] is greedy (the
    longest run of whitespace first, then shorter ones), [.*?] under
    [DOTALL] is lazy (the shortest group first).  [findall] scans the
    string as [re.findall] does: try a match at the current position; on
    success record the group and continue after the match, otherwise move
    one character on.  [fence_at] and [search] are the direct versions
    the theorems relate them to. *)

From stdpp Require Import base strings list.
From Stdlib Require Import String Ascii Lia.
From S2P Require Import Prelude PyStr.

(** The closing fence and the two opening literals. *)
Definition fence : string := "```".
Definition python_fence : string := "```python".

(** [s[n:]] *)
Fixpoint str_drop (n : nat) (s : string) : string :=
  match n, s with
  | 0, _ => s
  | S _, EmptyString => EmptyString
  | S n', String _ s' => str_drop n' s'
  end.

(** Number of leading whitespace characters: the longest [\s*]. *)
Fixpoint ws_len (s : string) : nat :=
  match s with
  | EmptyString => 0
  | String c s' => if is_space c then S (ws_len s') else 0
  end.

(** [(.*?)```]: the shortest group followed by the closing fence; returns
    the group and what follows the fence. *)
Fixpoint lazy_close (s : string) : option (string * string) :=
  if String.prefix fence s then Some (EmptyString, str_drop 3 s)
  else match s with
       | EmptyString => None
       | String c s' =>
           match lazy_close s' with
           | Some (g, rest) => Some (String c g, rest)
           | None => None
           end
       end.

(** [\s*] with backtracking: [k] whitespace characters consumed, then
    [k - 1], ..., then none, each followed by the lazy group. *)
Fixpoint ws_backtrack (k : nat) (s : string) : option (string * string) :=
  match lazy_close (str_drop k s) with
  | Some r => Some r
  | None => match k with 0 => None | S k' => ws_backtrack k' s end
  end.

(** The pattern [lit\s*(.*?)```] matched at the start of [s]. *)
Definition regex_at (lit : string) (s : string) : option (string * string) :=
  if String.prefix lit s then
    let rest := str_drop (String.length lit) s in
    ws_backtrack (ws_len rest) rest
  else None.

(** [re.findall] for a pattern with one group that never matches the empty
    string.  Each round consumes at least one character, so
    [length s + 1] rounds are enough ([findall_fuel_enough]). *)
Fixpoint findall_fuel (fuel : nat) (m : string -> option (string * string))
    (s : string) : list string :=
  match fuel with
  | 0 => []
  | S fuel' =>
      match m s with
      | Some (g, rest) => g :: findall_fuel fuel' m rest
      | None =>
          match s with
          | EmptyString => []
          | String _ s' => findall_fuel fuel' m s'
          end
      end
  end.

Definition findall (m : string -> option (string * string)) (s : string) : list string :=
  findall_fuel (S (String.length s)) m s.

(** [extract_code(text)] *)
Definition extract_code (text : string) : option string :=
  match findall (regex_at python_fence) text with
  | g :: _ => Some (strip g)
  | [] =>
      match findall (regex_at fence) text with
      | g :: _ => Some (strip g)
      | [] => None
      end
  end.

(** ** Direct versions *)

(** The pattern at the start of [s] without backtracking: skip all leading
    whitespace, then take the shortest group. *)
Definition fence_at (lit : string) (s : string) : option (string * string) :=
  if String.prefix lit s then lazy_close (lstrip (str_drop (String.length lit) s))
  else None.

(** The leftmost match of [m] in [s] ([re.search]). *)
Fixpoint search (m : string -> option (string * string)) (s : string)
    : option (string * string) :=
  match m s with
  | Some r => Some r
  | None =>
      match s with
      | EmptyString => None
      | String _ s' => search m s'
      end
  end.

(** [extract_code] with one leftmost search per fence. *)
Definition extract_code_direct (text : string) : option string :=
  match search (fence_at python_fence) text with
  | Some (g, _) => Some (strip g)
  | None =>
      match search (fence_at fence) text with
      | Some (g, _) => Some (strip g)
      | None => None
      end
  end.

(** [p] occurs in [s] ([p in s]). *)
Fixpoint occurs (p s : string) : bool :=
  String.prefix p s ||
  match s with
  | EmptyString => false
  | String _ s' => occurs p s'
  end.

(** No backquote in [s]. *)
Fixpoint no_backtick (s : string) : bool :=
  match s with
  | EmptyString => true
  | String c s' => negb (Ascii.eqb c "`"%char) && no_backtick s'
  end.

(** Matches consume input: [findall] terminates. *)
Definition consumes (m : string -> option (string * string)) : Prop :=
  forall s g r, m s = Some (g, r) -> String.length r < String.length s.

(** ** Lemmas on the scanners *)

Create HintDb extract discriminated.

Lemma str_drop_append (p s : string) : str_drop (String.length p) (p +:+ s) = s.
Proof. induction p as [|c p IH]; [done | exact IH]. Qed.

Lemma length_str_drop (n : nat) (s : string) :
  String.length (str_drop n s) <= String.length s.
Proof.
  revert s. induction n as [|n IH]; intros [|c s]; simpl; try lia.
  specialize (IH s). lia.
Qed.

(** A string that starts with a character other than a backquote does not
    start with any fence. *)
Lemma prefix_fence_cons (lit s : string) (c : ascii) :
  String.prefix "`" lit = true -> c <> "`"%char -> String.prefix lit (String c s) = false.
Proof.
  destruct lit as [|c' lit]; [done|]. cbn [String.prefix].
  destruct (ascii_dec "`" c') as [<-|]; [|done]. intros _ Hc.
  destruct (ascii_dec "`" c) as [<-|]; [congruence | done].
Qed.

Lemma space_not_backtick (c : ascii) : is_space c = true -> c <> "`"%char.
Proof. intros H ->. done. Qed.

Lemma lazy_close_cons (c : ascii) (s : string) :
  c <> "`"%char ->
  lazy_close (String c s) =
    match lazy_close s with Some (g, r) => Some (String c g, r) | None => None end.
Proof.
  intros Hc.
  transitivity (if String.prefix fence (String c s) then Some (EmptyString, str_drop 3 (String c s))
                else match lazy_close s with Some (g, r) => Some (String c g, r) | None => None end);
    [reflexivity|].
  by rewrite prefix_fence_cons.
Qed.

Lemma str_drop_ws (k : nat) (s : string) :
  k < ws_len s -> exists c, is_space c = true /\ str_drop k s = String c (str_drop (S k) s).
Proof.
  revert k. induction s as [|c s IH]; intros k Hk; simpl in Hk; [lia|].
  destruct (is_space c) eqn:E; [|lia]. destruct k as [|k].
  - by exists c.
  - apply IH. lia.
Qed.

Lemma str_drop_ws_len (s : string) : str_drop (ws_len s) s = lstrip s.
Proof.
  induction s as [|c s IH]; [done|]. simpl. by destruct (is_space c).
Qed.

Lemma ws_backtrack_none (k : nat) (s : string) :
  k <= ws_len s -> lazy_close (str_drop k s) = None -> ws_backtrack k s = None.
Proof.
  induction k as [|k IH]; intros Hk Hn; cbn [ws_backtrack]; rewrite Hn; [done|].
  apply IH; [lia|].
  destruct (str_drop_ws k s) as (c & Hc & ->); [lia|].
  rewrite lazy_close_cons by (by apply space_not_backtick). by rewrite Hn.
Qed.

(** Backtracking over [\s*] never finds a match that the longest run of
    whitespace misses: the whitespace contains no backquote. *)
Lemma ws_backtrack_lstrip (s : string) :
  ws_backtrack (ws_len s) s = lazy_close (lstrip s).
Proof.
  rewrite <- str_drop_ws_len.
  destruct (ws_len s) as [|k] eqn:Hk; cbn [ws_backtrack];
    destruct (lazy_close _) eqn:E; try done.
  apply ws_backtrack_none; [lia|].
  destruct (str_drop_ws k s) as (c & Hc & Hd); [lia|].
  rewrite Hd, lazy_close_cons, E by (by apply space_not_backtick). done.
Qed.

Lemma lazy_close_unfold (s : string) :
  lazy_close s =
    if String.prefix fence s then Some (EmptyString, str_drop 3 s)
    else match s with
         | EmptyString => None
         | String c s' =>
             match lazy_close s' with
             | Some (g, rest) => Some (String c g, rest)
             | None => None
             end
         end.
Proof. by destruct s. Qed.

(** [s.startswith(p)] splits [s] into [p] and the rest. *)
Lemma prefix_split (p s : string) :
  String.prefix p s = true -> s = p +:+ str_drop (String.length p) s.
Proof.
  revert s. induction p as [|c p IH]; intros [|c' s]; cbn [String.prefix]; try done.
  destruct (ascii_dec c c') as [<-|]; [|done]. intros H.
  rewrite append_String. simpl. f_equal. by apply IH.
Qed.

Lemma lazy_close_length (s g r : string) :
  lazy_close s = Some (g, r) -> String.length r < String.length s.
Proof.
  revert g. induction s as [|c s IH]; intros g; rewrite lazy_close_unfold;
    destruct (String.prefix fence _) eqn:P; try done.
  - intros [= _ <-]. apply prefix_split, (f_equal String.length) in P.
    rewrite length_append in P. simpl in P |- *. lia.
  - destruct (lazy_close s) as [[g' r']|]; [|done]. intros [= _ <-].
    specialize (IH _ eq_refl). simpl. lia.
Qed.

Lemma regex_at_consumes (lit : string) : consumes (regex_at lit).
Proof.
  intros s g r. unfold regex_at. destruct (String.prefix lit s); [|done].
  rewrite ws_backtrack_lstrip. intros H%lazy_close_length.
  pose proof (length_str_drop (ws_len (str_drop (String.length lit) s))
                 (str_drop (String.length lit) s)) as H1.
  rewrite str_drop_ws_len in H1.
  pose proof (length_str_drop (String.length lit) s). lia.
Qed.

#[export] Hint Resolve regex_at_consumes : extract.

Lemma findall_fuel_stable (m : string -> option (string * string)) :
  consumes m ->
  forall n1 n2 s, S (String.length s) <= n1 -> S (String.length s) <= n2 ->
  findall_fuel n1 m s = findall_fuel n2 m s.
Proof.
  intros Hm n1. induction n1 as [|n1 IH]; intros [|n2] s H1 H2; try lia.
  cbn [findall_fuel]. destruct (m s) as [[g r]|] eqn:E.
  - f_equal. apply Hm in E. apply IH; lia.
  - destruct s as [|c s]; [done|]. simpl in H1, H2. apply IH; lia.
Qed.

Lemma findall_head (m : string -> option (string * string)) :
  consumes m ->
  forall s n, S (String.length s) <= n -> head (findall_fuel n m s) = option_map fst (search m s).
Proof.
  intros Hm s. induction s as [|c s IH]; intros [|n] Hn; try (simpl in Hn; lia);
    cbn [findall_fuel search]; destruct (m _) as [[g r]|]; try done.
  apply IH. simpl in Hn. lia.
Qed.

Lemma search_ext (m1 m2 : string -> option (string * string)) (s : string) :
  (forall x, m1 x = m2 x) -> search m1 s = search m2 s.
Proof.
  intros H. induction s as [|c s IH]; cbn [search]; rewrite H; [done|].
  by destruct (m2 _).
Qed.

Lemma match_head {A B} (l : list A) (f : A -> B) (d : B) :
  match l with a :: _ => f a | [] => d end =
  match head l with Some a => f a | None => d end.
Proof. by destruct l. Qed.

(** The backtracking matcher of [lit\s*(.*?)```] agrees with the direct
    one. *)
Lemma regex_at_fence_at (lit s : string) : regex_at lit s = fence_at lit s.
Proof.
  unfold regex_at, fence_at. destruct (String.prefix lit s); [|done].
  apply ws_backtrack_lstrip.
Qed.

(** ** Theorems *)

(** [re.findall] terminates: with one round per character plus one,
    the fuelled scan has reached its fixed point, so more fuel gives the
    same list of groups. *)
Theorem findall_fuel_enough (lit : string) (n : nat) (s : string) :
  S (String.length s) <= n ->
  findall_fuel n (regex_at lit) s = findall (regex_at lit) s.
Proof.
  intros Hn. apply findall_fuel_stable; [apply regex_at_consumes | lia | done].
Qed.

Lemma findall_fuel_enough_witness :
  S (String.length "```a``` ```b```") <= 40 /\
  findall_fuel 40 (regex_at fence) "```a``` ```b```" = ["a"; "b"].
Proof. split; [simpl; lia | rewrite findall_fuel_enough; [reflexivity | simpl; lia]]. Defined.

(** [extract_code] as a leftmost search with the direct matcher. *)
Lemma extract_code_search (text : string) :
  extract_code text = extract_code_direct text.
Proof.
  unfold extract_code, extract_code_direct, findall.
  rewrite !(match_head (findall_fuel _ _ _)), !findall_head by auto with extract.
  rewrite !(search_ext (regex_at _) (fence_at _)) by apply regex_at_fence_at.
  destruct (search (fence_at python_fence) text) as [[g r]|]; [done|].
  by destruct (search (fence_at fence) text) as [[g r]|].
Qed.

(** [extract_code], which runs two full [re.findall] scans with the
    backtracking semantics of the patterns and keeps the first group,
    equals a leftmost search with the direct matcher. *)
Theorem extract_code_equiv (text : string) :
  extract_code text = extract_code_direct text.
Proof. apply extract_code_search. Qed.

(** ** Lemmas on prefixes, occurrences and blocks *)

Lemma prefix_append_long (p x y : string) :
  String.length p <= String.length x -> String.prefix p (x +:+ y) = String.prefix p x.
Proof.
  revert x. induction p as [|c p IH]; intros [|c' x] Hl; simpl in Hl; try lia; try (destruct y; reflexivity).
  rewrite append_String. cbn [String.prefix].
  destruct (ascii_dec c c'); [apply IH; lia | done].
Qed.

Lemma prefix_append_short (p x y : string) :
  String.length x <= String.length p -> String.prefix p (x +:+ y) = true ->
  String.prefix x p = true.
Proof.
  revert p. induction x as [|c x IH]; intros [|c' p] Hl; simpl in Hl; try lia; try done.
  rewrite append_String. cbn [String.prefix].
  destruct (ascii_dec c' c) as [<-|]; [|done].
  destruct (ascii_dec c' c') as [_|]; [|done]. apply IH. lia.
Qed.

Lemma occurs_prefix (p s : string) : occurs p s = false -> String.prefix p s = false.
Proof. destruct s; simpl; by intros [? ?]%orb_false_iff. Qed.

Lemma occurs_append_r (p w x : string) : occurs p (w +:+ x) = false -> occurs p x = false.
Proof.
  induction w as [|c w IH]; [done|]. rewrite append_String. simpl.
  intros [_ ?]%orb_false_iff. auto.
Qed.

Lemma lstrip_suffix (s : string) : exists w, s = w +:+ lstrip s.
Proof.
  induction s as [|c s [w Hw]]; [by exists ""|]. simpl.
  destruct (is_space c); [exists (String c w); by rewrite append_String, <- Hw | by exists ""].
Qed.

Lemma lstrip_append_nolead (s t : string) :
  no_lead_space t = true -> lstrip (s +:+ t) = lstrip s +:+ t.
Proof.
  intros Ht. induction s as [|c s IH].
  - destruct t as [|c t]; [done|]. simpl in *. by rewrite (proj1 (negb_true_iff _) Ht).
  - rewrite append_String. simpl. by destruct (is_space c).
Qed.

(** The lazy group of a block whose body holds no closing fence (also not
    one made of the body's last backquotes and the fence's first) is the
    body. *)
Lemma lazy_close_block (code post : string) :
  occurs fence (code +:+ "``") = false ->
  lazy_close (code +:+ fence +:+ post) = Some (code, post).
Proof.
  induction code as [|c code IH]; intros H.
  - by destruct post.
  - rewrite append_String, lazy_close_unfold.
    rewrite append_String in H. cbn [occurs] in H. apply orb_false_iff in H as [H1 H2].
    replace (String c (code +:+ fence +:+ post))
      with (String c (code +:+ "``") +:+ ("`" +:+ post))
      by (rewrite append_String, <- append_assoc; reflexivity).
    rewrite prefix_append_long, H1
      by (simpl; rewrite length_append; simpl; lia).
    rewrite IH by done. reflexivity.
Qed.

Lemma strip_lstrip (s : string) : strip (lstrip s) = strip s.
Proof. unfold strip. by rewrite lstrip_idem. Qed.

(** A fenced block: opening literal, whitespace, body, closing fence. *)
Lemma fence_at_block (lit ws code post : string) :
  all_space ws = true -> occurs fence (code +:+ "``") = false ->
  fence_at lit (lit +:+ ws +:+ code +:+ fence +:+ post) = Some (lstrip code, post).
Proof.
  intros Hws Hc. unfold fence_at. rewrite prefix_append, str_drop_append.
  rewrite lstrip_append_space, lstrip_append_nolead by done.
  apply lazy_close_block. destruct (lstrip_suffix code) as [w Hw].
  apply (occurs_append_r _ w). by rewrite append_assoc, <- Hw.
Qed.

Lemma fence_at_cons (lit s : string) (c : ascii) :
  String.prefix "`" lit = true -> c <> "`"%char -> fence_at lit (String c s) = None.
Proof. intros H Hc. unfold fence_at. by rewrite prefix_fence_cons. Qed.

Lemma search_skip (m : string -> option (string * string)) (pre t : string) :
  (forall c s, c <> "`"%char -> m (String c s) = None) ->
  no_backtick pre = true -> search m (pre +:+ t) = search m t.
Proof.
  intros Hm. induction pre as [|c pre IH]; [done|]. simpl.
  intros [Hc Hp]%andb_prop. rewrite ?append_String. cbn [search].
  rewrite Hm; [auto|]. intros ->. done.
Qed.

Lemma search_absent (lit s : string) : occurs lit s = false -> search (fence_at lit) s = None.
Proof.
  unfold fence_at. induction s as [|c s IH]; simpl; intros [-> H]%orb_false_iff; [done|].
  auto.
Qed.

#[export] Hint Resolve fence_at_cons prefix_append : extract.

Lemma append_inv_l (p a b : string) : p +:+ a = p +:+ b -> a = b.
Proof. induction p as [|c p IH]; [done|]. rewrite !append_String. intros [= ?]. auto. Qed.

(** An occurrence of [```python] cannot start inside text that holds none
    and end inside a following [```python]: its fourth character would
    be a backquote. *)
Lemma python_fence_no_overlap (x rest : string) :
  x <> "" -> occurs python_fence x = false ->
  String.prefix python_fence (x +:+ python_fence +:+ rest) = false.
Proof.
  intros Hx Hocc. destruct (Nat.le_gt_cases 9 (String.length x)) as [Hl|Hl].
  - rewrite prefix_append_long by done. by apply occurs_prefix.
  - destruct (String.prefix python_fence _) eqn:E; [|done].
    apply prefix_append_short in E as Hp; [|simpl; lia].
    apply prefix_correct in Hp. rewrite <- Hp, append_assoc in E.
    rewrite prefix_append_long in E
      by (rewrite length_append; simpl; lia).
    clear Hp Hocc. remember (String.length x) as k eqn:Hk.
    destruct x as [|c x]; [done|]. simpl in Hk.
    do 9 (destruct k as [|k]; [try lia; vm_compute in E; discriminate|]). lia.
Qed.

Lemma search_python_skip (pre t : string) :
  occurs python_fence pre = false ->
  search (fence_at python_fence) (pre +:+ python_fence +:+ t) =
  search (fence_at python_fence) (python_fence +:+ t).
Proof.
  induction pre as [|c pre IH]; [done|]. intros H.
  rewrite append_String. cbn [search].
  assert (Hn : fence_at python_fence (String c (pre +:+ python_fence +:+ t)) = None).
  { unfold fence_at. rewrite <- append_String, python_fence_no_overlap; done. }
  rewrite Hn. apply IH. cbn [occurs] in H. by apply orb_false_iff in H as [_ ?].
Qed.

Lemma search_none_iff (m : string -> option (string * string)) (s : string) :
  search m s = None <-> forall pre x, s = pre +:+ x -> m x = None.
Proof.
  induction s as [|c s IH]; cbn [search]; split.
  - intros Hn [|c' pre] x H.
    + rewrite append_EmptyString in H. subst x. by destruct (m "").
    + rewrite append_String in H. discriminate.
  - intros H. by rewrite (H "" "").
  - destruct (m _) eqn:E; [done|]. intros Hs [|c' pre] x H.
    + rewrite append_EmptyString in H. by subst x.
    + rewrite append_String in H. injection H as <- H. by apply (proj1 IH Hs pre).
  - intros H. rewrite (H "" (String c s)) by done.
    apply IH. intros pre x ->. apply (H (String c pre)). by rewrite append_String.
Qed.

Lemma lazy_close_none_iff (s : string) : lazy_close s = None <-> occurs fence s = false.
Proof.
  induction s as [|c s IH]; rewrite lazy_close_unfold; cbn [occurs];
    destruct (String.prefix fence _); try done.
  simpl. rewrite <- IH. by destruct (lazy_close s) as [[? ?]|].
Qed.

Lemma occurs_fence_lstrip (s : string) : occurs fence (lstrip s) = occurs fence s.
Proof.
  induction s as [|c s IH]; [done|]. simpl lstrip.
  destruct (is_space c) eqn:E; [|done]. rewrite IH. cbn [occurs].
  rewrite prefix_fence_cons; [done | done | by apply space_not_backtick].
Qed.

(** No generic match at [x] exactly when no fence follows an opening one. *)
Lemma fence_at_fence_none (x : string) :
  fence_at fence x = None <-> forall rest, x = fence +:+ rest -> occurs fence rest = false.
Proof.
  unfold fence_at. destruct (String.prefix fence x) eqn:P.
  - apply prefix_split in P. rewrite lazy_close_none_iff, occurs_fence_lstrip.
    split; [intros H rest Hr; rewrite P in Hr; apply append_inv_l in Hr; by subst|].
    intros H. by apply H.
  - split; [|done]. intros _ rest ->. by rewrite prefix_append in P.
Qed.

Lemma search_some (m : string -> option (string * string)) (s : string) r :
  search m s = Some r -> exists pre x, s = pre +:+ x /\ m x = Some r.
Proof.
  induction s as [|c s IH]; cbn [search]; destruct (m _) eqn:E;
    try (intros [= <-]; exists ""; eexists; split; [reflexivity | eassumption]);
    try (intros Hd; discriminate Hd).
  intros (pre & x & -> & Hx)%IH. by exists (String c pre), x.
Qed.

(** Where the python pattern matches, the generic one matches too. *)
Lemma search_python_generic (t : string) :
  search (fence_at fence) t = None -> search (fence_at python_fence) t = None.
Proof.
  intros Hg. destruct (search (fence_at python_fence) t) as [r|] eqn:Hp; [|done].
  apply search_some in Hp as (pre & x & -> & Hx). unfold fence_at in Hx.
  destruct (String.prefix python_fence x) eqn:P; [|done]. apply prefix_split in P.
  pose proof (proj1 (search_none_iff _ _) Hg pre x eq_refl) as Hg'.
  apply (proj1 (fence_at_fence_none _)) with (rest := "python" +:+ str_drop 9 x) in Hg';
    [|exact P].
  apply occurs_append_r in Hg'. rewrite <- occurs_fence_lstrip in Hg'.
  apply lazy_close_none_iff in Hg'. change (String.length python_fence) with 9 in Hx. congruence.
Qed.

Lemma search_hit (m : string -> option (string * string)) (s : string) r :
  m s = Some r -> search m s = Some r.
Proof. intros H. destruct s; cbn [search]; by rewrite H. Qed.

(** ** Theorems on [extract_code] *)

(** C13: the first [```python] block wins: when the prose before it holds
    no [```python] (it may hold generic fenced blocks), the block's body
    holds no closing fence, and any blocks follow, [extract_code] returns
    the body, stripped. *)
Theorem extract_code_python_block (pre ws code post : string) :
  occurs python_fence pre = false -> all_space ws = true ->
  occurs fence (code +:+ "``") = false ->
  extract_code (pre +:+ python_fence +:+ ws +:+ code +:+ fence +:+ post) = Some (strip code).
Proof.
  intros Hpre Hws Hc. rewrite extract_code_search. unfold extract_code_direct.
  rewrite search_python_skip by done.
  rewrite (search_hit _ _ _ (fence_at_block _ _ _ _ Hws Hc)). by rewrite strip_lstrip.
Qed.

Lemma extract_code_python_block_witness :
  occurs python_fence "Sure:
```
df.head()
```
" = false /\ all_space "
" = true /\ occurs fence ("print(df['age'].mean())
" +:+ "``") = false /\
  extract_code ("Sure:
```
df.head()
```
" +:+ python_fence +:+ "
" +:+ "print(df['age'].mean())
" +:+ fence +:+ "
```
x
```") = Some "print(df['age'].mean())".
Proof.
  refine (conj eq_refl (conj eq_refl (conj eq_refl _))).
  rewrite extract_code_python_block by reflexivity. reflexivity.
Defined.

(** C14: without any [```python] in the text, the first generic block is
    returned, its body stripped, and whatever follows the opening fence on
    its line is part of the body: a language tag other than [python]
    ([```py], [```Python], [```python3] is [```python] then [3]) ends up
    in the extracted code. *)
Theorem extract_code_generic_block (pre body post : string) :
  occurs python_fence (pre +:+ fence +:+ body +:+ fence +:+ post) = false ->
  no_backtick pre = true -> occurs fence (body +:+ "``") = false ->
  extract_code (pre +:+ fence +:+ body +:+ fence +:+ post) = Some (strip body).
Proof.
  intros Hpy Hpre Hb. rewrite extract_code_search. unfold extract_code_direct.
  rewrite search_absent by done.
  rewrite search_skip by (done || intros; apply fence_at_cons; done).
  rewrite (search_hit _ _ (lstrip body, post));
    [by rewrite strip_lstrip | exact (fence_at_block fence "" body post eq_refl Hb)].
Qed.

Lemma extract_code_generic_block_witness :
  occurs python_fence ("" +:+ fence +:+ "py
print(1)
" +:+ fence +:+ "") = false /\ no_backtick "" = true /\
  occurs fence ("py
print(1)
" +:+ "``") = false /\
  extract_code ("" +:+ fence +:+ "py
print(1)
" +:+ fence +:+ "") = Some "py
print(1)".
Proof.
  refine (conj eq_refl (conj eq_refl (conj eq_refl _))).
  rewrite extract_code_generic_block by reflexivity. reflexivity.
Defined.

(** C15: [extract_code] finds nothing exactly when no opening fence is
    followed, later in the text, by a closing one. *)
Theorem extract_code_none_iff (text : string) :
  extract_code text = None <->
  forall pre rest, text = pre +:+ fence +:+ rest -> occurs fence rest = false.
Proof.
  rewrite extract_code_search. unfold extract_code_direct.
  assert (Hg : search (fence_at fence) text = None <->
               forall pre rest, text = pre +:+ fence +:+ rest -> occurs fence rest = false).
  { rewrite search_none_iff. split.
    - intros H pre rest ->. by apply (proj1 (fence_at_fence_none _) (H pre _ eq_refl)).
    - intros H pre x ->. apply fence_at_fence_none. intros rest ->. by apply (H pre). }
  rewrite <- Hg. split.
  - destruct (search (fence_at python_fence) text) as [[? ?]|]; [done|].
    by destruct (search (fence_at fence) text) as [[? ?]|].
  - intros Hn. by rewrite search_python_generic, Hn.
Qed.
