(* ===== verification/Base64.v ===== *)
(** * Base64 (the payload of a chart)

    [grab_plot] returns [base64.b64encode(buf.read()).decode()]
    (agent.py:98).  Both UIs show a chart with
    [st.image(base64.b64decode(...))]: the stored ones while rendering the
    history (app.py:73, streamlit_app.py:31) and a new one before storing
    it (app.py:93, streamlit_app.py:51).

    [b64encode] follows [binascii.b2a_base64]: the standard alphabet, three
    bytes to four characters by shift and mask, and [=] padding.

    [b64decode] is [base64.b64decode] on a [str].  The text must be ASCII
    ([_bytes_from_decode_data], else [ValueError]).  Then
    [binascii.a2b_base64] decodes it in its default non-strict mode: the C
    loop over the characters, with its locals [quad_pos], [leftchar],
    [pads] and the bytes written ([A2bState]).
    - A character outside the alphabet is skipped.
    - A pad counts only from the third character of a group on, and a
      complete pad sequence ends the decoding ([goto done]).
    - At the end of the text, a group left with one character or with two
      or three characters raises [binascii.Error].

    Bytes are integers, well formed in [0, 256).  The theorems:
    - round trip: decoding an encoded byte string gives it back;
    - the payload's length;
    - decoding writes only bytes (the [unsigned char] stores never carry);
    - characters outside the alphabet are ignored, and text after a padded
      payload too;
    - the two errors at the end of the text. *)

From stdpp Require Import base strings list pretty.
From Stdlib Require Import String Ascii ZArith Lia.
From S2P Require Import Prelude PyStr.

Local Open Scope Z_scope.

Definition b64_alphabet : string :=
  "ABCDEFGHIJKLMNOPQRSTUVWXYZabcdefghijklmnopqrstuvwxyz0123456789+/".

(** [table_b2a_base64[v]] for a six-bit value. *)
Definition b64_char (v : Z) : ascii :=
  match String.get (Z.to_nat v) b64_alphabet with
  | Some c => c
  | None => "="%char
  end.

(** The position of a character in the alphabet ([table_a2b_base64]). *)
Fixpoint index_of (c : ascii) (s : string) (i : Z) : option Z :=
  match s with
  | EmptyString => None
  | String c' s' => if Ascii.eqb c c' then Some i else index_of c s' (i + 1)
  end.

Definition b64_value (c : ascii) : option Z := index_of c b64_alphabet 0.

Definition pad : ascii := "="%char.

(** Bits [k .. k+5] of [n]. *)
Definition sextet (n k : Z) : Z := Z.land (Z.shiftr n k) 63.

(** Bits [k .. k+7] of [n]. *)
Definition octet (n k : Z) : Z := Z.land (Z.shiftr n k) 255.

(** The four characters of a 24-bit group, the last [npad] of them [=]. *)
Definition quad (n : Z) (npad : nat) (rest : string) : string :=
  String (b64_char (sextet n 18))
    (String (b64_char (sextet n 12))
       (String (if (2 <=? npad)%nat then pad else b64_char (sextet n 6))
          (String (if (1 <=? npad)%nat then pad else b64_char (sextet n 0)) rest))).

(** [base64.b64encode(bs).decode()] *)
Fixpoint b64encode (bs : list Z) : string :=
  match bs with
  | b0 :: b1 :: b2 :: rest =>
      quad (Z.shiftl b0 16 + Z.shiftl b1 8 + b2) 0 (b64encode rest)
  | [b0; b1] => quad (Z.shiftl b0 16 + Z.shiftl b1 8) 1 EmptyString
  | [b0] => quad (Z.shiftl b0 16) 2 EmptyString
  | [] => EmptyString
  end.

(** [binascii.Error], a subclass of [ValueError]. *)
Definition binascii_Error (msg : string) : PyExc := mkExc "Error" msg true.

(** [c < 128]: [str.encode('ascii')] accepts the code point. *)
Definition is_ascii (c : ascii) : bool := (nat_of_ascii c <? 128)%nat.

Fixpoint str_forallb (f : ascii -> bool) (s : string) : bool :=
  match s with
  | EmptyString => true
  | String c s' => f c && str_forallb f s'
  end.

(** The locals of [binascii.a2b_base64]: [quad_pos], [leftchar], [pads]
    and the bytes written so far ([bin_data]). *)
Record A2bState := mkA2b {
  quad_pos : nat;
  leftchar : Z;
  pads : nat;
  bin_data : list Z
}.

Definition a2b_init : A2bState := mkA2b 0 0 0 [].

(** [case BASE64_PAD]: a pad counts only from the third character of a
    group on; a complete pad sequence ends the decoding ([goto done],
    [None]). *)
Definition a2b_pad (st : A2bState) : option A2bState :=
  if (2 <=? quad_pos st)%nat then
    if (4 <=? quad_pos st + S (pads st))%nat then None
    else Some (mkA2b (quad_pos st) (leftchar st) (S (pads st)) (bin_data st))
  else Some st.

(** [switch (quad_pos)] on a character of the alphabet of value [v]. *)
Definition a2b_data (st : A2bState) (v : Z) : A2bState :=
  match quad_pos st with
  | 0%nat => mkA2b 1 v 0 (bin_data st)
  | 1%nat => mkA2b 2 (Z.land v 15) 0 (bin_data st ++ [Z.lor (Z.shiftl (leftchar st) 2) (Z.shiftr v 4)])
  | 2%nat => mkA2b 3 (Z.land v 3) 0 (bin_data st ++ [Z.lor (Z.shiftl (leftchar st) 4) (Z.shiftr v 2)])
  | _ => mkA2b 0 0 0 (bin_data st ++ [Z.lor (Z.shiftl (leftchar st) 6) v])
  end.

(** One iteration of the loop: the pad, a character outside the alphabet
    (skipped in non-strict mode), or a data character. *)
Definition a2b_step (st : A2bState) (c : ascii) : option A2bState :=
  if Ascii.eqb c pad then a2b_pad st
  else match b64_value c with
       | None => Some st
       | Some v => Some (a2b_data st v)
       end.

(** The text of the error for a group left with one data character. *)
Definition data_chars_msg (n : nat) : string :=
  "Invalid base64-encoded string: number of data characters (" +:+ pretty n +:+
  ") cannot be 1 more than a multiple of 4".

(** After the loop: [if (quad_pos != 0)] raise. *)
Definition a2b_end (st : A2bState) : PyResult (list Z) :=
  match quad_pos st with
  | 0%nat => POk (bin_data st)
  | 1%nat => PRaise (binascii_Error (data_chars_msg (List.length (bin_data st) / 3 * 4 + 1)))
  | _ => PRaise (binascii_Error "Incorrect padding")
  end.

Fixpoint a2b_loop (st : A2bState) (s : string) : PyResult (list Z) :=
  match s with
  | EmptyString => a2b_end st
  | String c s' =>
      match a2b_step st c with
      | Some st' => a2b_loop st' s'
      | None => POk (bin_data st)
      end
  end.

(** [binascii.a2b_base64(s)] with [strict_mode=False]. *)
Definition a2b_base64 (s : string) : PyResult (list Z) := a2b_loop a2b_init s.

(** [base64.b64decode(s)] on a [str]: [_bytes_from_decode_data] encodes it
    as ASCII, then [a2b_base64] decodes it in non-strict mode. *)
Definition b64decode (s : string) : PyResult (list Z) :=
  if str_forallb is_ascii s then a2b_base64 s
  else PRaise (ValueError "string argument should contain only ASCII characters").

Definition byte_ok (b : Z) : Prop := 0 <= b < 256.

(** The bits [leftchar] can hold at each [quad_pos]: none at the start
    of a group, then 6, 4 and 2. *)
Definition left_bound (qp : nat) : Z :=
  match qp with 0%nat => 1 | 1%nat => 64 | 2%nat => 16 | _ => 4 end.

(** The loop invariant: the bytes written are bytes and [leftchar] fits. *)
Definition a2b_wf (st : A2bState) : Prop :=
  Forall byte_ok (bin_data st) /\ 0 <= leftchar st < left_bound (quad_pos st).

(** ** Arithmetic of the groups *)

Create HintDb b64 discriminated.

(** Induction following [b64encode]: three bytes at a time. *)
Lemma list_ind3 {A} (P : list A -> Prop) :
  P [] -> (forall b0, P [b0]) -> (forall b0 b1, P [b0; b1]) ->
  (forall b0 b1 b2 r, P r -> P (b0 :: b1 :: b2 :: r)) -> forall l, P l.
Proof.
  intros H0 H1 H2 H3. fix IH 1. intros [|b0 [|b1 [|b2 r]]]; [exact H0 | apply H1 | apply H2 | apply H3, IH].
Qed.

Lemma sextet_div (n k : Z) : 0 <= k -> sextet n k = (n / 2 ^ k) mod 64.
Proof.
  intros Hk. unfold sextet. rewrite Z.shiftr_div_pow2 by done.
  change 63 with (Z.ones 6). by rewrite Z.land_ones.
Qed.

Lemma octet_div (n k : Z) : 0 <= k -> octet n k = (n / 2 ^ k) mod 256.
Proof.
  intros Hk. unfold octet. rewrite Z.shiftr_div_pow2 by done.
  change 255 with (Z.ones 8). by rewrite Z.land_ones.
Qed.

Lemma sextet_range (n k : Z) : 0 <= k -> 0 <= sextet n k < 64.
Proof. intros Hk. rewrite sextet_div by done. apply Z.mod_pos_bound. lia. Qed.

(** [a << k | b] adds when [b] fits in [k] bits: the [|] of
    [a2b_base64] never carries. *)
Lemma lor_shiftl_small (a b k : Z) :
  0 <= k -> 0 <= b < 2 ^ k -> Z.lor (Z.shiftl a k) b = a * 2 ^ k + b.
Proof.
  intros Hk Hb.
  assert (Hd : Z.land (Z.shiftl a k) b = 0).
  2:{ rewrite <- Z.lxor_lor, <- Z.add_nocarry_lxor, Z.shiftl_mul_pow2 by done; done. }
  apply Z.bits_inj_0. intros i. rewrite Z.land_spec.
  destruct (Z.lt_ge_cases i k) as [Hi|Hi].
  - destruct (Z.lt_ge_cases i 0); [by rewrite Z.testbit_neg_r|].
    by rewrite Z.shiftl_spec_low.
  - rewrite <- (Z.mod_small b (2 ^ k)), Z.mod_pow2_bits_high by lia. apply andb_false_r.
Qed.

(** The three bytes of a 24-bit group. *)
Lemma octets_bytes (b0 b1 b2 : Z) :
  byte_ok b0 -> byte_ok b1 -> byte_ok b2 ->
  let n := Z.shiftl b0 16 + Z.shiftl b1 8 + b2 in
  0 <= n < 16777216 /\ octet n 16 = b0 /\ octet n 8 = b1 /\ octet n 0 = b2.
Proof.
  unfold byte_ok. intros H0 H1 H2. cbv zeta.
  rewrite !Z.shiftl_mul_pow2, !octet_div by lia.
  change (2 ^ 16) with 65536. change (2 ^ 8) with 256. change (2 ^ 0) with 1.
  rewrite <- (Z.div_unique_pos _ 65536 b0 (b1 * 256 + b2)) by lia.
  rewrite <- (Z.div_unique_pos _ 256 (b0 * 256 + b1) b2) by lia.
  rewrite Z.div_1_r, (Z.mod_small b0) by lia.
  rewrite <- (Z.mod_unique_pos _ 256 b0 b1) by lia.
  rewrite <- (Z.mod_unique_pos _ 256 (b0 * 256 + b1) b2) by lia.
  repeat split; lia.
Qed.

(** The bytes [a2b_base64] writes for the four digits of a 24-bit group
    are the group's bytes. *)
Lemma decode_bytes (n : Z) :
  0 <= n < 16777216 ->
  Z.lor (Z.shiftl (sextet n 18) 2) (Z.shiftr (sextet n 12) 4) = octet n 16 /\
  Z.lor (Z.shiftl (Z.land (sextet n 12) 15) 4) (Z.shiftr (sextet n 6) 2) = octet n 8 /\
  Z.lor (Z.shiftl (Z.land (sextet n 6) 3) 6) (sextet n 0) = octet n 0.
Proof.
  intros Hn. rewrite !sextet_div, !octet_div by lia.
  change 15 with (Z.ones 4). change 3 with (Z.ones 2). rewrite !Z.land_ones by lia.
  rewrite !Z.shiftr_div_pow2 by lia.
  rewrite !lor_shiftl_small; cycle 1.
  all: cbn -[Z.div Z.modulo]; Z.div_mod_to_equations; lia.
Qed.

(** ** The alphabet *)

Lemma index_of_range (c : ascii) (s : string) (i v : Z) :
  index_of c s i = Some v -> i <= v < i + Z.of_nat (String.length s).
Proof.
  revert i. induction s as [|d s IH]; intros i; cbn [index_of]; [done|].
  destruct (Ascii.eqb c d); [intros [= <-]; cbn [String.length]; lia|].
  intros ?%IH. cbn [String.length]. lia.
Qed.

Lemma index_of_forallb (f : ascii -> bool) (c : ascii) (s : string) (i v : Z) :
  index_of c s i = Some v -> str_forallb f s = true -> f c = true.
Proof.
  revert i. induction s as [|d s IH]; intros i; cbn [index_of str_forallb]; [done|].
  destruct (Ascii.eqb c d) eqn:E.
  - apply Ascii.eqb_eq in E as ->. intros _ ?%andb_prop. tauto.
  - intros ? [_ ?]%andb_prop. by eapply IH.
Qed.

Lemma b64_value_range (c : ascii) (v : Z) : b64_value c = Some v -> 0 <= v < 64.
Proof. intros ?%index_of_range. exact H. Qed.

Lemma b64_value_not_pad (c : ascii) (v : Z) : b64_value c = Some v -> Ascii.eqb c pad = false.
Proof.
  intros Hv. apply negb_true_iff.
  exact (index_of_forallb (fun d => negb (Ascii.eqb d pad)) c _ _ _ Hv eq_refl).
Qed.

Lemma b64_value_ascii (c : ascii) (v : Z) : b64_value c = Some v -> is_ascii c = true.
Proof. intros Hv. exact (index_of_forallb is_ascii c _ _ _ Hv eq_refl). Qed.

(** Every six-bit value has its own character. *)
Lemma b64_char_value (v : Z) : 0 <= v < 64 -> b64_value (b64_char v) = Some v.
Proof.
  intros Hv.
  assert (Hall : Forall (fun k => b64_value (b64_char (Z.of_nat k)) = Some (Z.of_nat k))
                        (seq 0 64)) by (vm_compute; repeat constructor).
  rewrite Forall_forall in Hall. rewrite <- (Z2Nat.id v) by lia.
  apply Hall, list_elem_of_In, in_seq. lia.
Qed.

Lemma char_sextet (n k : Z) : 0 <= k -> b64_value (b64_char (sextet n k)) = Some (sextet n k).
Proof. intros Hk. apply b64_char_value, sextet_range, Hk. Qed.

Lemma char_sextet_ascii (n k : Z) : 0 <= k -> is_ascii (b64_char (sextet n k)) = true.
Proof. intros Hk. eapply b64_value_ascii, char_sextet, Hk. Qed.

Lemma str_forallb_app (f : ascii -> bool) (s1 s2 : string) :
  str_forallb f (s1 +:+ s2) = str_forallb f s1 && str_forallb f s2.
Proof.
  induction s1 as [|c s IH]; [done|].
  rewrite append_String. cbn [str_forallb]. by rewrite IH, andb_assoc.
Qed.

Lemma quad_append (n : Z) (k : nat) (rest s : string) : quad n k rest +:+ s = quad n k (rest +:+ s).
Proof. reflexivity. Qed.

Lemma quad_ascii (n : Z) (k : nat) (rest : string) :
  str_forallb is_ascii (quad n k rest) = str_forallb is_ascii rest.
Proof.
  unfold quad. destruct (2 <=? k)%nat, (1 <=? k)%nat; cbn [str_forallb];
    rewrite ?char_sextet_ascii by lia; reflexivity.
Qed.

(** The payload is ASCII: [_bytes_from_decode_data] accepts it. *)
Lemma b64encode_ascii (bs : list Z) : str_forallb is_ascii (b64encode bs) = true.
Proof.
  induction bs as [|b0|b0 b1|b0 b1 b2 r IH] using list_ind3; cbn [b64encode];
    rewrite ?quad_ascii; done.
Qed.

(** ** The decoding loop *)

Lemma a2b_loop_data (st : A2bState) (c : ascii) (v : Z) (s : string) :
  b64_value c = Some v -> a2b_loop st (String c s) = a2b_loop (a2b_data st v) s.
Proof.
  intros Hv. cbn [a2b_loop]. unfold a2b_step. by rewrite (b64_value_not_pad _ _ Hv), Hv.
Qed.

Lemma a2b_loop_sextet (st : A2bState) (n k : Z) (s : string) :
  0 <= k -> a2b_loop st (String (b64_char (sextet n k)) s) = a2b_loop (a2b_data st (sextet n k)) s.
Proof. intros Hk. apply a2b_loop_data, char_sextet, Hk. Qed.

Lemma a2b_loop_pad (st : A2bState) (s : string) :
  a2b_loop st (String pad s) =
    match a2b_pad st with Some st' => a2b_loop st' s | None => POk (bin_data st) end.
Proof. reflexivity. Qed.

Lemma a2b_loop_junk (st : A2bState) (c : ascii) (s : string) :
  b64_value c = None -> Ascii.eqb c pad = false -> a2b_loop st (String c s) = a2b_loop st s.
Proof. intros Hv Hp. cbn [a2b_loop]. unfold a2b_step. by rewrite Hp, Hv. Qed.

(** At the start of a group [leftchar] and [pads] are dead. *)
Lemma a2b_loop_qp0 (l : Z) (p : nat) (acc : list Z) (s : string) :
  a2b_loop (mkA2b 0 l p acc) s = a2b_loop (mkA2b 0 0 0 acc) s.
Proof.
  revert l p. induction s as [|c s IH]; intros l p; [done|].
  cbn [a2b_loop]. unfold a2b_step, a2b_pad. cbn [quad_pos Nat.leb].
  destruct (Ascii.eqb c pad); [apply IH|].
  destruct (b64_value c); [done | apply IH].
Qed.

(** A full group: three bytes, back to the start of a group. *)
Lemma a2b_quad3 (n : Z) (l : Z) (p : nat) (acc : list Z) (rest : string) :
  0 <= n < 16777216 ->
  a2b_loop (mkA2b 0 l p acc) (quad n 0 rest) =
    a2b_loop (mkA2b 0 0 0 (acc ++ [octet n 16; octet n 8; octet n 0])) rest.
Proof.
  intros Hn. destruct (decode_bytes n Hn) as (E0 & E1 & E2). unfold quad. cbn [Nat.leb].
  rewrite !a2b_loop_sextet by lia. cbn [a2b_data quad_pos leftchar bin_data].
  by rewrite E0, E1, E2, <- !app_assoc.
Qed.

(** A group with one pad: two bytes, then [goto done]. *)
Lemma a2b_quad2 (n : Z) (l : Z) (p : nat) (acc : list Z) (rest : string) :
  0 <= n < 16777216 ->
  a2b_loop (mkA2b 0 l p acc) (quad n 1 rest) = POk (acc ++ [octet n 16; octet n 8]).
Proof.
  intros Hn. destruct (decode_bytes n Hn) as (E0 & E1 & _). unfold quad. cbn [Nat.leb].
  rewrite !a2b_loop_sextet, a2b_loop_pad by lia. cbn [a2b_data a2b_pad quad_pos leftchar bin_data pads Nat.leb Nat.add].
  by rewrite E0, E1, <- app_assoc.
Qed.

(** A group with two pads: one byte, then [goto done]. *)
Lemma a2b_quad1 (n : Z) (l : Z) (p : nat) (acc : list Z) (rest : string) :
  0 <= n < 16777216 ->
  a2b_loop (mkA2b 0 l p acc) (quad n 2 rest) = POk (acc ++ [octet n 16]).
Proof.
  intros Hn. destruct (decode_bytes n Hn) as (E0 & _ & _). unfold quad. cbn [Nat.leb].
  rewrite !a2b_loop_sextet, !a2b_loop_pad by lia.
  cbn [a2b_data a2b_pad quad_pos leftchar bin_data pads Nat.leb Nat.add].
  by rewrite E0.
Qed.

(** The loop over a payload followed by any text: a padded payload ends
    the decoding, an unpadded one leaves the loop at the start of a
    group. *)
Lemma a2b_encode (bs : list Z) (rest : string) (l : Z) (p : nat) (acc : list Z) :
  Forall byte_ok bs ->
  a2b_loop (mkA2b 0 l p acc) (b64encode bs +:+ rest) =
    if (List.length bs mod 3 =? 0)%nat then a2b_loop (mkA2b 0 0 0 (acc ++ bs)) rest
    else POk (acc ++ bs).
Proof.
  revert l p acc.
  induction bs as [|b0|b0 b1|b0 b1 b2 r IH] using list_ind3; intros l p acc Hok.
  - by rewrite app_nil_r, a2b_loop_qp0.
  - apply Forall_cons in Hok as [H0 _].
    destruct (octets_bytes b0 0 0 H0 ltac:(unfold byte_ok; lia) ltac:(unfold byte_ok; lia))
      as (Hn & E0 & _).
    rewrite Z.shiftl_0_l, !Z.add_0_r in Hn, E0.
    cbn [b64encode]. rewrite quad_append, a2b_quad1 by done. by rewrite E0.
  - apply Forall_cons in Hok as [H0 [H1 _]%Forall_cons].
    destruct (octets_bytes b0 b1 0 H0 H1 ltac:(unfold byte_ok; lia)) as (Hn & E0 & E1 & _).
    rewrite !Z.add_0_r in Hn, E0, E1.
    cbn [b64encode]. rewrite quad_append, a2b_quad2 by done. by rewrite E0, E1.
  - apply Forall_cons in Hok as [H0 [H1 [H2 Hr]%Forall_cons]%Forall_cons].
    destruct (octets_bytes b0 b1 b2 H0 H1 H2) as (Hn & E0 & E1 & E2).
    cbn [b64encode]. rewrite quad_append, a2b_quad3, E0, E1, E2, IH by done.
    replace (List.length (b0 :: b1 :: b2 :: r)) with (List.length r + 1 * 3)%nat by (simpl; lia).
    by rewrite Nat.Div0.mod_add, <- app_assoc.
Qed.

(** Decoding inverts encoding on byte strings. *)
Lemma b64_roundtrip (bs : list Z) :
  Forall byte_ok bs -> b64decode (b64encode bs) = POk bs.
Proof.
  intros Hok. unfold b64decode. rewrite b64encode_ascii. unfold a2b_base64, a2b_init.
  rewrite <- (append_nil_r (b64encode bs)), a2b_encode by done. by case_match.
Qed.

(** Skipping a character outside the alphabet changes nothing. *)
Lemma a2b_loop_skip (st : A2bState) (s1 s2 : string) (c : ascii) :
  b64_value c = None -> Ascii.eqb c pad = false ->
  a2b_loop st (s1 +:+ String c s2) = a2b_loop st (s1 +:+ s2).
Proof.
  intros Hv Hp. revert st. induction s1 as [|d s1 IH]; intros st.
  - by apply a2b_loop_junk.
  - rewrite !append_String. cbn [a2b_loop]. destruct (a2b_step st d); [apply IH | done].
Qed.

Lemma a2b_data_wf (st : A2bState) (v : Z) :
  a2b_wf st -> 0 <= v < 64 -> a2b_wf (a2b_data st v).
Proof.
  unfold a2b_wf, a2b_data. intros [Hb Hl] Hv.
  destruct (quad_pos st) as [|[|[|q]]]; cbn [bin_data leftchar quad_pos left_bound] in *;
    [split; [done | lia] | ..];
    (split; [apply Forall_app; split; [done | repeat constructor] |]); unfold byte_ok;
    change 15 with (Z.ones 4) || change 3 with (Z.ones 2) || idtac;
    rewrite ?Z.land_ones, ?Z.shiftr_div_pow2, ?lor_shiftl_small by
      (try split; cbn -[Z.div]; Z.div_mod_to_equations; lia);
    cbn -[Z.div Z.modulo]; Z.div_mod_to_equations; lia.
Qed.

Lemma a2b_step_wf (st st' : A2bState) (c : ascii) :
  a2b_wf st -> a2b_step st c = Some st' -> a2b_wf st'.
Proof.
  unfold a2b_step, a2b_pad. intros Hwf.
  destruct (Ascii.eqb c pad).
  - destruct (2 <=? quad_pos st)%nat; [destruct (4 <=? _)%nat|]; intros; simplify_eq; done.
  - destruct (b64_value c) eqn:E; intros; simplify_eq; [|done].
    apply a2b_data_wf; eauto using b64_value_range.
Qed.

Lemma a2b_loop_bytes (st : A2bState) (s : string) (bs : list Z) :
  a2b_wf st -> a2b_loop st s = POk bs -> Forall byte_ok bs.
Proof.
  revert st. induction s as [|c s IH]; intros st Hwf; cbn [a2b_loop].
  - unfold a2b_end. destruct (quad_pos st) as [|[|]]; intros; simplify_eq; apply Hwf.
  - destruct (a2b_step st c) eqn:E; [eauto using a2b_step_wf|].
    intros; simplify_eq. apply Hwf.
Qed.

(** [b64decode] raises only [Exception]s ([ValueError] and
    [binascii.Error]): the UIs' [except Exception] catches them. *)
Lemma b64decode_raises_Exception (s : string) (e : PyExc) :
  b64decode s = PRaise e -> exc_is_Exception e = true.
Proof.
  unfold b64decode. destruct (str_forallb is_ascii s); [|by intros [= <-]]. unfold a2b_base64.
  generalize a2b_init. induction s as [|c s IH]; intros st; cbn [a2b_loop].
  - unfold a2b_end. by destruct (quad_pos st) as [|[|]]; intros [= <-].
  - destruct (a2b_step st c); [apply IH | done].
Qed.

(** C23: decoding the base64 text of a byte string gives the bytes back:
    [b64decode(b64encode(bs)) == bs]. *)
Theorem b64decode_encode (bs : list Z) :
  Forall byte_ok bs -> b64decode (b64encode bs) = POk bs.
Proof. apply b64_roundtrip. Qed.

Lemma quad_length (n : Z) (k : nat) (rest : string) :
  String.length (quad n k rest) = (4 + String.length rest)%nat.
Proof. reflexivity. Qed.

(** The payload has four characters per started group of three bytes:
    [len(b64encode(bs)) == 4 * ceil(len(bs) / 3)]. *)
Theorem b64encode_length (bs : list Z) :
  String.length (b64encode bs) = (4 * ((List.length bs + 2) / 3))%nat.
Proof.
  induction bs as [|b0|b0 b1|b0 b1 b2 r IH] using list_ind3; try reflexivity.
  cbn [b64encode List.length]. rewrite quad_length, IH.
  replace (S (S (S (List.length r))) + 2)%nat with ((List.length r + 2) + 1 * 3)%nat by lia.
  rewrite Nat.div_add by lia. lia.
Qed.

(** A non-empty byte string has a non-empty payload. *)
Lemma b64encode_truthy (bs : list Z) : bs <> [] -> str_truthy (b64encode bs) = true.
Proof. destruct bs as [|b0 [|b1 [|b2 rest]]]; done. Qed.

(** Whatever the text, [b64decode] returns bytes: every value it
    writes through [bin_data] is in [0, 256), so the UIs hand
    [st.image] a byte string. *)
Theorem b64decode_bytes (s : string) (bs : list Z) :
  b64decode s = POk bs -> Forall byte_ok bs.
Proof.
  unfold b64decode. case_match; [|done].
  apply a2b_loop_bytes. split; [constructor | cbn; lia].
Qed.

(** Non-strict decoding: a character outside the alphabet (a line break,
    a space) is skipped wherever it stands. *)
Theorem b64decode_skips (s1 s2 : string) (c : ascii) :
  b64_value c = None -> Ascii.eqb c pad = false -> is_ascii c = true ->
  b64decode (s1 +:+ String c s2) = b64decode (s1 +:+ s2).
Proof.
  intros Hv Hp Ha. unfold b64decode, a2b_base64. rewrite !str_forallb_app.
  cbn [str_forallb]. by rewrite Ha, a2b_loop_skip.
Qed.

(** A padded payload ends the decoding: the ASCII text after it is
    ignored. *)
Theorem b64decode_trailing (bs : list Z) (rest : string) :
  Forall byte_ok bs -> (List.length bs mod 3 <> 0)%nat -> str_forallb is_ascii rest = true ->
  b64decode (b64encode bs +:+ rest) = POk bs.
Proof.
  intros Hok Hm Hr. unfold b64decode. rewrite str_forallb_app, b64encode_ascii, Hr.
  unfold a2b_base64, a2b_init. rewrite a2b_encode by done.
  apply Nat.eqb_neq in Hm. by rewrite Hm.
Qed.


Lemma b64decode_encode_witness :
  Forall byte_ok [137; 80; 78; 71; 13; 10; 26; 10] /\
  b64decode (b64encode [137; 80; 78; 71; 13; 10; 26; 10]) = POk [137; 80; 78; 71; 13; 10; 26; 10].
Proof.
  assert (H : Forall byte_ok [137; 80; 78; 71; 13; 10; 26; 10])
    by (repeat constructor; unfold byte_ok; lia).
  split; [exact H | exact (b64decode_encode _ H)].
Defined.

Lemma b64decode_bytes_witness :
  b64decode "iVBORw0KGgo=" = POk [137; 80; 78; 71; 13; 10; 26; 10] /\
  Forall byte_ok [137; 80; 78; 71; 13; 10; 26; 10].
Proof.
  assert (H : b64decode "iVBORw0KGgo=" = POk [137; 80; 78; 71; 13; 10; 26; 10]) by (vm_compute; reflexivity).
  split; [exact H | exact (b64decode_bytes _ _ H)].
Defined.

