(* ===== verification/Plot.v ===== *)
(** * The chart state and [grab_plot] (agent.py:16-17, 91-100)

    matplotlib's [pyplot] keeps its open figures in [Gcf.figs], an ordered
    dictionary from figure number to figure manager; the active figure is
    the last entry.  [PltState] is that list.  [plt_figure] is
    [plt.figure()] (number [max + 1], or [1]), [gcf] is [plt.gcf()] (the
    active figure, created when there is none), [plt_draw] is any plotting
    call, which draws on the active figure's axes, [plt_close_all] is
    [plt.close('all')] and [plt_show] the no-op that agent.py:17 installs
    in place of [plt.show].  Saving a figure as PNG goes through the
    [Rasterizer] interface: any renderer that either raises (matplotlib's
    [savefig] raises [ValueError] for an image too large for the Agg
    canvas, or for mathtext it cannot parse) or writes a byte string
    starting with the PNG signature.  [grab_plot] has no [try]: the
    renderer's exception escapes it with every figure still open. *)

From stdpp Require Import base strings list.
From Stdlib Require Import String Ascii ZArith Lia.
From S2P Require Import Prelude PyStr Base64.

(** A figure: its number and what has been drawn on it. *)
Record Figure := mkFigure {
  fig_num : nat;
  fig_artists : list string
}.

(** [Gcf.figs], oldest first; the last figure is the active one. *)
Record PltState := mkPlt { plt_figs : list Figure }.

Definition plt_init : PltState := mkPlt [].

(** [plt.get_fignums()] *)
Definition get_fignums (st : PltState) : list nat := map fig_num (plt_figs st).

(** [max(allnums) + 1 if allnums else 1] *)
Definition next_num (st : PltState) : nat := S (foldr Nat.max 0 (get_fignums st)).

(** [plt.figure()]: a new, empty, active figure. *)
Definition plt_figure (st : PltState) : PltState * Figure :=
  let f := mkFigure (next_num st) [] in
  (mkPlt (plt_figs st ++ [f]), f).

(** [plt.gcf()] *)
Definition gcf (st : PltState) : PltState * Figure :=
  match last (plt_figs st) with
  | Some f => (st, f)
  | None => plt_figure st
  end.

(** Replace the active figure. *)
Definition set_last (f : Figure) (figs : list Figure) : list Figure :=
  match figs with
  | [] => [f]
  | _ => removelast figs ++ [f]
  end.

(** A plotting call ([plt.plot], [plt.bar], [df.plot], ...): draws on the
    active figure, creating one if there is none. *)
Definition plt_draw (a : string) (st : PltState) : PltState :=
  let '(st1, f) := gcf st in
  mkPlt (set_last (mkFigure (fig_num f) (fig_artists f ++ [a])) (plt_figs st1)).

(** [plt.close('all')] *)
Definition plt_close_all (st : PltState) : PltState := mkPlt [].

(** [plt.show = lambda *args, **kwargs: None] (agent.py:17) *)
Definition plt_show (st : PltState) : PltState := st.

(** The keyword arguments of [savefig]. *)
Record SaveOpts := mkSaveOpts {
  save_format : string;
  save_bbox_inches : string;
  save_dpi : nat;
  save_facecolor : string
}.

Definition png_signature : list Z := [137; 80; 78; 71; 13; 10; 26; 10]%Z.

(** What [savefig] writes into the buffer, matplotlib's PNG writer, or
    the exception it raises. *)
Class Rasterizer := {
  print_png : SaveOpts -> Figure -> PyResult (list Z);
  print_png_bytes : forall o f bs, print_png o f = POk bs -> Forall byte_ok bs;
  print_png_signature : forall o f bs, print_png o f = POk bs -> exists body, bs = png_signature ++ body
}.

(** [format='png', bbox_inches='tight', dpi=150, facecolor='white'] *)
Definition grab_opts : SaveOpts := mkSaveOpts "png" "tight" 150 "white".

Section GrabPlot.
Context {rast : Rasterizer}.

(** [grab_plot()]: nothing when no figure is open; otherwise the active
    figure as base64 PNG, after which every figure is closed.  The
    [BytesIO] buffer is written, rewound and read whole, so its contents
    are the bytes [savefig] produced.  When [savefig] raises, the
    exception propagates before [plt.close('all')]. *)
Definition grab_plot (st : PltState) : PltState * PyResult (option string) :=
  match get_fignums st with
  | [] => (st, POk None)
  | _ :: _ =>
      let '(st1, f) := gcf st in
      match print_png grab_opts f with
      | POk buf =>
          let img := b64encode buf in
          (plt_close_all st1, POk (Some img))
      | PRaise e => (st1, PRaise e)
      end
  end.

End GrabPlot.

(** ** Well-formedness: figure numbers are increasing *)

(** Strictly increasing. *)
Fixpoint increasing (l : list nat) : bool :=
  match l with
  | x :: ((y :: _) as t) => (x <? y) && increasing t
  | _ => true
  end.

(** [sorted(Gcf.figs)] is the insertion order: numbers only grow. *)
Definition wf_plt (st : PltState) : bool := increasing (get_fignums st).

(** ** A renderer for the examples: the signature and one byte. *)

Definition sample_png (o : SaveOpts) (f : Figure) : list Z :=
  png_signature ++ [(Z.of_nat (List.length (fig_artists f)) mod 256)%Z].

Lemma sample_png_bytes (o : SaveOpts) (f : Figure) : Forall byte_ok (sample_png o f).
Proof.
  unfold sample_png. apply Forall_app. split; [repeat constructor; unfold byte_ok; lia|].
  constructor; [unfold byte_ok; apply Z.mod_pos_bound; lia | done].
Qed.

Definition sample_rasterizer : Rasterizer :=
  {| print_png := fun o f => POk (sample_png o f);
     print_png_bytes := fun o f bs H => ltac:(injection H as <-; apply sample_png_bytes);
     print_png_signature := fun o f bs H => ltac:(injection H as <-; eexists; reflexivity) |}.

(** A renderer that fails like mathtext on a label with an unbalanced
    [$]: it raises [ValueError] for a figure with an artist holding an
    odd number of [$] signs. *)
Fixpoint count_dollars (s : string) : nat :=
  match s with
  | EmptyString => 0
  | String c s' => (if Ascii.eqb c "$" then 1 else 0) + count_dollars s'
  end.

Definition mathtext_png (o : SaveOpts) (f : Figure) : PyResult (list Z) :=
  if existsb (fun a => Nat.odd (count_dollars a)) (fig_artists f)
  then PRaise (ValueError "unbalanced mathtext delimiter")
  else POk (sample_png o f).

Definition mathtext_rasterizer : Rasterizer :=
  {| print_png := mathtext_png;
     print_png_bytes := fun o f bs H => ltac:(
       unfold mathtext_png in H; destruct existsb; [done|]; injection H as <-; apply sample_png_bytes);
     print_png_signature := fun o f bs H => ltac:(
       unfold mathtext_png in H; destruct existsb; [done|]; injection H as <-; eexists; reflexivity) |}.

Lemma foldr_max_ge (l : list nat) (x : nat) : In x l -> x <= foldr Nat.max 0 l.
Proof. induction l as [|y l IH]; simpl; [done|]. intros [->|Hx]; [lia | specialize (IH Hx); lia]. Qed.

Lemma increasing_snoc (l : list nat) (x : nat) :
  increasing l = true -> (forall y, In y l -> y < x) -> increasing (l ++ [x]) = true.
Proof.
  induction l as [|y [|z l] IH]; intros Hs Hlt; [done | |].
  - simpl. rewrite andb_true_r. apply Nat.ltb_lt, Hlt. by left.
  - simpl in Hs |- *. apply andb_prop in Hs as [Hyz Hs]. rewrite Hyz. simpl.
    apply IH; [done|]. intros w Hw. apply Hlt. by right.
Qed.

Lemma plt_figure_wf (st : PltState) : wf_plt st = true -> wf_plt (fst (plt_figure st)) = true.
Proof.
  unfold wf_plt, get_fignums, next_num. simpl. rewrite map_app. simpl.
  intros Hs. apply increasing_snoc; [done|].
  intros y Hy. apply foldr_max_ge in Hy. unfold next_num, get_fignums. lia.
Qed.

Lemma last_removelast {A} (l : list A) (x : A) : last l = Some x -> l = removelast l ++ [x].
Proof.
  induction l as [|a [|b l] IH]; simpl; [done | by intros [= ->] |].
  intros H. simpl. f_equal. apply IH, H.
Qed.

Lemma gcf_last (st : PltState) :
  last (plt_figs (fst (gcf st))) = Some (snd (gcf st)).
Proof.
  unfold gcf. destruct (last (plt_figs st)) eqn:E; [done|].
  simpl. by rewrite last_snoc.
Qed.

Lemma gcf_wf (st : PltState) : wf_plt st = true -> wf_plt (fst (gcf st)) = true.
Proof. unfold gcf. destruct (last _); [done | apply plt_figure_wf]. Qed.

(** Replacing the active figure by one with the same number keeps the
    numbers. *)
Lemma set_last_nums (figs : list Figure) (f g : Figure) :
  last figs = Some f -> fig_num g = fig_num f ->
  map fig_num (set_last g figs) = map fig_num figs.
Proof.
  intros Hl Hn. apply last_removelast in Hl as Hsplit.
  destruct figs as [|h t]; [done|]. unfold set_last.
  rewrite Hsplit at 2. rewrite !map_app. simpl. by rewrite Hn.
Qed.

Lemma plt_draw_nums (a : string) (st : PltState) :
  get_fignums (plt_draw a st) = get_fignums (fst (gcf st)).
Proof.
  unfold plt_draw, get_fignums. pose proof (gcf_last st) as Hl.
  destruct (gcf st) as [st1 f]. simpl in *. by apply (set_last_nums _ f).
Qed.

Section GrabPlotFacts.
Context {rast : Rasterizer}.

Lemma last_cons_some {A} (x : A) (l : list A) : exists y, last (x :: l) = Some y.
Proof.
  revert x. induction l as [|z l IH]; intros x; [by exists x|].
  destruct (IH z) as [y Hy]. exists y. by rewrite last_cons_cons.
Qed.

(** [grab_plot] with the active figure [f]: [savefig] on [f], then every
    figure closed, or the renderer's exception with the figures as they
    were. *)
Lemma grab_plot_cons (st : PltState) (f : Figure) :
  last (plt_figs st) = Some f ->
  grab_plot st = match print_png grab_opts f with
                 | POk buf => (plt_close_all st, POk (Some (b64encode buf)))
                 | PRaise e => (st, PRaise e)
                 end.
Proof.
  intros Hl. unfold grab_plot, get_fignums, gcf. rewrite Hl.
  destruct (plt_figs st); [done|]. by destruct (print_png grab_opts f).
Qed.

Lemma grab_plot_empty (st : PltState) : plt_figs st = [] -> grab_plot st = (st, POk None).
Proof. intros E. unfold grab_plot, get_fignums. by rewrite E. Qed.

(** [grab_plot] on no figure, or on an active figure. *)
Lemma grab_plot_cases (st : PltState) :
  (plt_figs st = [] /\ grab_plot st = (st, POk None)) \/
  exists f, last (plt_figs st) = Some f /\
    grab_plot st = match print_png grab_opts f with
                   | POk buf => (plt_close_all st, POk (Some (b64encode buf)))
                   | PRaise e => (st, PRaise e)
                   end.
Proof.
  destruct (plt_figs st) as [|f0 t] eqn:E; [left; split; [done | by apply grab_plot_empty]|].
  right. destruct (last_cons_some f0 t) as [f Hl].
  exists f. split; [done | apply grab_plot_cons; by rewrite E].
Qed.

(** After [grab_plot] every figure is closed, unless [savefig] raised, in
    which case nothing changed. *)
Lemma grab_plot_state (st : PltState) :
  fst (grab_plot st) = st \/ plt_figs (fst (grab_plot st)) = [].
Proof.
  destruct (grab_plot_cases st) as [[_ ->]|(f & _ & ->)]; [by left|].
  destruct (print_png grab_opts f); [right | left]; done.
Qed.

Lemma plt_draw_wf (a : string) (st : PltState) : wf_plt st = true -> wf_plt (plt_draw a st) = true.
Proof. intros Hwf. unfold wf_plt. rewrite plt_draw_nums. by apply gcf_wf. Qed.

Lemma grab_plot_wf (st : PltState) : wf_plt st = true -> wf_plt (fst (grab_plot st)) = true.
Proof. intros Hwf. destruct (grab_plot_state st) as [->|E]; [done|]. unfold wf_plt, get_fignums. by rewrite E. Qed.

(** Every operation on the chart state keeps the figure numbers
    increasing, so [plt.get_fignums()] ([sorted] in matplotlib) is the
    list of numbers in creation order. *)
Theorem plt_ops_wf (st : PltState) (a : string) :
  wf_plt st = true ->
  wf_plt (fst (plt_figure st)) = true /\ wf_plt (fst (gcf st)) = true /\
  wf_plt (plt_draw a st) = true /\ wf_plt (plt_close_all st) = true /\
  wf_plt (plt_show st) = true /\ wf_plt (fst (grab_plot st)) = true.
Proof.
  intros Hwf. split_and!;
    [by apply plt_figure_wf | by apply gcf_wf | by apply plt_draw_wf | done | done | by apply grab_plot_wf].
Qed.

Lemma print_png_nonempty (o : SaveOpts) (f : Figure) (bs : list Z) : print_png o f = POk bs -> bs <> [].
Proof. intros H. destruct (print_png_signature o f bs H) as [body ->]. done. Qed.

(** [grab_plot] with a figure open that the renderer can save returns a
    non-empty payload. *)
Lemma grab_plot_ok (st : PltState) :
  plt_figs st <> [] ->
  (forall f, last (plt_figs st) = Some f -> is_ok (print_png grab_opts f) = true) ->
  exists img, snd (grab_plot st) = POk (Some img) /\ str_truthy img = true.
Proof.
  intros Hne Hr. destruct (grab_plot_cases st) as [[E _]|(f & Hl & ->)]; [done|].
  specialize (Hr f Hl). destruct (print_png grab_opts f) as [bs|e] eqn:Hp; [|done].
  eexists. split; [done|]. apply b64encode_truthy, (print_png_nonempty _ _ _ Hp).
Qed.

(** C24: [grab_plot] with a figure open returns a non-empty payload and closes
    every figure, after which it returns nothing; or [savefig] raised and
    every figure is still open. *)
Theorem grab_plot_twice (st : PltState) :
  plt_figs st <> [] ->
  match snd (grab_plot st) with
  | POk (Some img) => str_truthy img = true /\ snd (grab_plot (fst (grab_plot st))) = POk None
  | POk None => False
  | PRaise _ => fst (grab_plot st) = st
  end.
Proof.
  intros Hne. destruct (grab_plot_cases st) as [[E _]|(f & _ & ->)]; [done|].
  destruct (print_png grab_opts f) as [bs|e] eqn:Hp; [|done]. split; [|done].
  apply b64encode_truthy, (print_png_nonempty _ _ _ Hp).
Qed.

(** When [grab_plot] raises, the exception is the renderer's on the
    active figure, and the chart state is unchanged. *)
Lemma grab_plot_raises (st : PltState) (e : PyExc) :
  snd (grab_plot st) = PRaise e ->
  fst (grab_plot st) = st /\ exists f, last (plt_figs st) = Some f /\ print_png grab_opts f = PRaise e.
Proof.
  destruct (grab_plot_cases st) as [[_ ->]|(f & Hl & ->)]; [done|].
  destruct (print_png grab_opts f) as [bs|e'] eqn:Hp; [done|]. intros [= ->]. split; [done|]. by exists f.
Qed.

(** What a payload of [grab_plot] decodes to. *)
Lemma grab_plot_decodes (st : PltState) (img : string) :
  snd (grab_plot st) = POk (Some img) ->
  exists f body, last (plt_figs st) = Some f /\
    print_png grab_opts f = POk (png_signature ++ body) /\
    b64decode img = POk (png_signature ++ body).
Proof.
  destruct (grab_plot_cases st) as [[_ ->]|(f & Hl & ->)]; [done|].
  destruct (print_png grab_opts f) as [bs|e] eqn:Hp; [|done]. cbn [snd]. intros [= <-].
  destruct (print_png_signature grab_opts f bs Hp) as [body ->].
  exists f, body. split_and!; [done | done |].
  apply b64_roundtrip, (print_png_bytes _ _ _ Hp).
Qed.

(** C21: the payload of [grab_plot] decodes to the PNG bytes that
    [savefig] wrote for the active figure, which start with the PNG
    signature. *)
Theorem grab_plot_payload (st : PltState) (img : string) :
  snd (grab_plot st) = POk (Some img) ->
  exists f body, last (plt_figs st) = Some f /\
    print_png grab_opts f = POk (png_signature ++ body) /\
    b64decode img = POk (png_signature ++ body).
Proof. apply grab_plot_decodes. Qed.

End GrabPlotFacts.

(** A title with an unbalanced [$]: [savefig] raises and the figure
    stays open. *)
Lemma grab_plot_mathtext_error :
  @grab_plot mathtext_rasterizer (plt_draw "title $x" plt_init) =
    (plt_draw "title $x" plt_init, PRaise (ValueError "unbalanced mathtext delimiter")).
Proof. reflexivity. Qed.

Lemma grab_plot_payload_witness :
  snd (@grab_plot sample_rasterizer (plt_draw "bar" plt_init)) = POk (Some "iVBORw0KGgoB") /\
  exists f body, last (plt_figs (plt_draw "bar" plt_init)) = Some f /\
    @print_png sample_rasterizer grab_opts f = POk (png_signature ++ body) /\
    b64decode "iVBORw0KGgoB" = POk (png_signature ++ body).
Proof.
  split; [reflexivity|]. apply (@grab_plot_payload sample_rasterizer). reflexivity.
Defined.

Lemma plt_ops_wf_witness :
  wf_plt (plt_draw "bar" (fst (plt_figure plt_init))) = true /\
  wf_plt (fst (plt_figure (plt_draw "bar" (fst (plt_figure plt_init))))) = true.
Proof.
  split; [reflexivity|].
  apply (@plt_ops_wf sample_rasterizer (plt_draw "bar" (fst (plt_figure plt_init))) "line").
  reflexivity.
Defined.

Lemma grab_plot_twice_witness :
  plt_figs (plt_draw "bar" plt_init) <> [] /\
  snd (@grab_plot sample_rasterizer (plt_draw "bar" plt_init)) = POk (Some "iVBORw0KGgoB") /\
  str_truthy "iVBORw0KGgoB" = true /\
  snd (@grab_plot sample_rasterizer (fst (@grab_plot sample_rasterizer (plt_draw "bar" plt_init)))) = POk None.
Proof.
  assert (H := @grab_plot_twice sample_rasterizer (plt_draw "bar" plt_init) ltac:(discriminate)).
  assert (Hg : snd (@grab_plot sample_rasterizer (plt_draw "bar" plt_init)) = POk (Some "iVBORw0KGgoB"))
    by reflexivity.
  rewrite Hg in H. destruct H as [Ht Hn]. split_and!; [discriminate | exact Hg | exact Ht | exact Hn].
Defined.
