(* ===== verification/Dataset.v ===== *)
(** * The data frame and the system prompt (agent.py:19-40)

    The module loads the Titanic frame once at import: seaborn's copy, and
    [titanic.csv] when that raises an [Exception].  [SYSTEM_PROMPT] is the
    f-string of agent.py:26-40, built once from the frame's
    [dtypes.to_string()] and [head(3).to_string()].  The frame is modelled
    by its columns (name and dtype) and rows (cells as text); pandas'
    text rendering and the two loaders are the [FrameFormat] and
    [DataSources] interfaces. *)

From stdpp Require Import base strings list.
From Stdlib Require Import String Ascii Lia.
From S2P Require Import Prelude PyStr.

(** A [pandas.DataFrame]: columns with their dtypes, and rows. *)
Record DataFrame := mkFrame {
  df_columns : list (string * string);
  df_rows : list (list string)
}.

(** [df.head(n)] *)
Definition df_head (n : nat) (d : DataFrame) : DataFrame :=
  mkFrame (df_columns d) (firstn n (df_rows d)).

(** pandas' text rendering. *)
Class FrameFormat := {
  dtypes_to_string : DataFrame -> string;   (** [df.dtypes.to_string()] *)
  frame_to_string : DataFrame -> string     (** [df.to_string()] *)
}.

(** Where the frame comes from. *)
Class DataSources := {
  sns_load_dataset : string -> PyResult DataFrame;  (** [sns.load_dataset(name)] *)
  pd_read_csv : string -> PyResult DataFrame        (** [pd.read_csv(path)] *)
}.

(** agent.py:20-23: [try: df = sns.load_dataset('titanic')
    except Exception: df = pd.read_csv('titanic.csv')]; an exception of the
    fallback, or one that is not an [Exception], aborts the import. *)
Definition load_df `{DataSources} : PyResult DataFrame :=
  match sns_load_dataset "titanic" with
  | POk d => POk d
  | PRaise e => if exc_is_Exception e then pd_read_csv "titanic.csv" else PRaise e
  end.

(** agent.py:26-40, the f-string with its two substitutions. *)
Definition SYSTEM_PROMPT `{FrameFormat} (df : DataFrame) : string :=
  "You are a data analyst. You have a pandas DataFrame called `df` with Titanic data.

Columns and dtypes:
" +:+ dtypes_to_string df +:+ "

First 3 rows:
" +:+ frame_to_string (df_head 3 df) +:+ "

When the user asks a question:
1. Write Python code using pandas to answer it. The df is already loaded.
2. Use print() to output the answer.
3. If the user asks for a chart/plot/visualization, use matplotlib (plt). Call plt.figure() first. Do NOT call plt.show().
4. Keep code short and simple.

IMPORTANT: Only output Python code inside ```python ... ``` block. Nothing else.".

(** agent.py:42 *)
Definition MODEL_ID : string := "Qwen/Qwen2.5-72B-Instruct".
