(* ===== verification/Executor.v ===== *)
(** * Executing a snippet: [run_code] (agent.py:79-88)

    The process state a snippet can touch is a [World]: [sys.stdout] and
    the text streams it may point to (a store of buffers by identity; the
    console is one of them), the chart state of [Plot], and the shared data
    frame [df], which [local_vars] binds by reference, so an in-place
    mutation by a snippet is a mutation of the module's [df].

    A snippet is compiled by [exec] (a [SyntaxError] raises before anything
    runs) into statements whose effects are the ones the prompt asks for:
    [print], [plt.figure()], plotting calls, [plt.close('all')],
    [plt.show()] (a no-op, agent.py:17), in-place updates of [df], and
    raising.  The compiler is the [PyCompiler] interface.  [run_code]
    redirects [sys.stdout] to a fresh [StringIO], runs the snippet, puts
    the old stream back in its [finally] and returns the stripped capture. *)

From stdpp Require Import base strings list gmap.
From Stdlib Require Import String Ascii Lia.
From S2P Require Import Prelude PyStr Plot Dataset.

(** [sys.stdout] and the open text streams. *)
Record Io := mkIo {
  io_stdout : nat;                 (** the stream [sys.stdout] names *)
  io_streams : gmap nat string;    (** contents of each stream *)
  io_next : nat                    (** identity of the next new stream *)
}.

Record World := mkWorld {
  w_io : Io;
  w_plt : PltState;
  w_df : DataFrame
}.

Definition with_io (io : Io) (w : World) : World := mkWorld io (w_plt w) (w_df w).
Definition with_plt (p : PltState) (w : World) : World := mkWorld (w_io w) p (w_df w).

(** The statements of a generated snippet, by their effect. *)
Inductive Stmt :=
| SPrint (s : string)        (** [print(s)] *)
| SFigure                    (** [plt.figure()] *)
| SDraw (artist : string)    (** [plt.bar(...)], [df.plot(...)], ... *)
| SCloseAll                  (** [plt.close('all')] *)
| SShow                      (** [plt.show()] *)
| SSetDf (d : DataFrame)     (** [df.drop(..., inplace=True)], [df['x'] = ...] *)
| SRaise (e : PyExc).        (** any statement that raises *)

Definition newline : string := String (ascii_of_nat 10) EmptyString.

(** [sys.stdout.write(s)] *)
Definition io_write (s : string) (io : Io) : Io :=
  mkIo (io_stdout io) (alter (fun b => b +:+ s) (io_stdout io) (io_streams io)) (io_next io).

Definition exec_stmt (s : Stmt) (w : World) : World * option PyExc :=
  match s with
  | SPrint t => (with_io (io_write (t +:+ newline) (w_io w)) w, None)
  | SFigure => (with_plt (fst (plt_figure (w_plt w))) w, None)
  | SDraw a => (with_plt (plt_draw a (w_plt w)) w, None)
  | SCloseAll => (with_plt (plt_close_all (w_plt w)) w, None)
  | SShow => (with_plt (plt_show (w_plt w)) w, None)
  | SSetDf d => (mkWorld (w_io w) (w_plt w) d, None)
  | SRaise e => (w, Some e)
  end.

(** Statements run in order; the first exception stops the snippet and
    leaves the effects of the statements before it. *)
Fixpoint exec_stmts (ss : list Stmt) (w : World) : World * option PyExc :=
  match ss with
  | [] => (w, None)
  | s :: ss' =>
      match exec_stmt s w with
      | (w', None) => exec_stmts ss' w'
      | (w', Some e) => (w', Some e)
      end
  end.

(** Python's compiler. *)
Class PyCompiler := { py_compile : string -> PyResult (list Stmt) }.

(** [exec(code, local_vars)] *)
Definition py_exec {comp : PyCompiler} (code : string) (w : World) : World * option PyExc :=
  match py_compile code with
  | PRaise e => (w, Some e)
  | POk ss => exec_stmts ss w
  end.

(** [StringIO()]: a new empty stream. *)
Definition stringio_new (io : Io) : Io * nat :=
  (mkIo (io_stdout io) (<[io_next io := ""]> (io_streams io)) (S (io_next io)), io_next io).

(** [sys.stdout = h] *)
Definition set_stdout (h : nat) (io : Io) : Io := mkIo h (io_streams io) (io_next io).

(** [h.getvalue()] *)
Definition getvalue (h : nat) (io : Io) : string := default "" (io_streams io !! h).

(** agent.py:79-88 *)
Definition run_code {comp : PyCompiler} (code : string) (w : World) : World * PyResult string :=
  let old_stdout := io_stdout (w_io w) in
  let '(io1, captured) := stringio_new (w_io w) in
  let w1 := with_io (set_stdout captured io1) w in
  let '(w2, r) := py_exec code w1 in
  let w3 := with_io (set_stdout old_stdout (w_io w2)) w2 in
  match r with
  | None => (w3, POk (strip (getvalue captured (w_io w3))))
  | Some e => (w3, PRaise e)
  end.

(** ** What a snippet does *)

(** The text a snippet prints before its first exception. *)
Fixpoint printed (ss : list Stmt) : string :=
  match ss with
  | [] => ""
  | SPrint t :: ss' => (t +:+ newline) +:+ printed ss'
  | SRaise _ :: _ => ""
  | _ :: ss' => printed ss'
  end.

(** The exception a snippet raises, if any. *)
Fixpoint first_raise (ss : list Stmt) : option PyExc :=
  match ss with
  | [] => None
  | SRaise e :: _ => Some e
  | _ :: ss' => first_raise ss'
  end.

(** The streams are well formed: [sys.stdout] is an open stream and every
    stream's identity is below [io_next]. *)
Definition wf_io (io : Io) : Prop :=
  is_Some (io_streams io !! io_stdout io) /\
  forall h, is_Some (io_streams io !! h) -> h < io_next io.

(** The chart state after a snippet. *)
Fixpoint plt_effect (ss : list Stmt) (p : PltState) : PltState :=
  match ss with
  | [] => p
  | SFigure :: ss' => plt_effect ss' (fst (plt_figure p))
  | SDraw a :: ss' => plt_effect ss' (plt_draw a p)
  | SCloseAll :: ss' => plt_effect ss' (plt_close_all p)
  | SShow :: ss' => plt_effect ss' (plt_show p)
  | SRaise _ :: _ => p
  | _ :: ss' => plt_effect ss' p
  end.

(** The data frame after a snippet. *)
Fixpoint df_effect (ss : list Stmt) (d : DataFrame) : DataFrame :=
  match ss with
  | [] => d
  | SSetDf d' :: ss' => df_effect ss' d'
  | SRaise _ :: _ => d
  | _ :: ss' => df_effect ss' d
  end.

(** What [run_code] returns, by the compiled snippet alone. *)
Definition snippet_outcome {comp : PyCompiler} (code : string) : PyResult string :=
  match py_compile code with
  | PRaise e => PRaise e
  | POk ss =>
      match first_raise ss with
      | Some e => PRaise e
      | None => POk (strip (printed ss))
      end
  end.

(** The world in which the snippet runs: [sys.stdout] is the new stream. *)
Definition redirected (w : World) : World :=
  let cap := io_next (w_io w) in
  with_io (mkIo cap (<[cap := ""]> (io_streams (w_io w))) (S cap)) w.

Create HintDb exec discriminated.

Lemma exec_stmts_io (ss : list Stmt) (w : World) :
  io_stdout (w_io (fst (exec_stmts ss w))) = io_stdout (w_io w) /\
  io_next (w_io (fst (exec_stmts ss w))) = io_next (w_io w) /\
  snd (exec_stmts ss w) = first_raise ss /\
  forall h, io_streams (w_io (fst (exec_stmts ss w))) !! h =
    if decide (h = io_stdout (w_io w))
    then (fun b => b +:+ printed ss) <$> io_streams (w_io w) !! h
    else io_streams (w_io w) !! h.
Proof.
  revert w. induction ss as [|s ss IH]; intros w.
  - cbn [exec_stmts fst snd first_raise printed]. split_and!; [done | done | done |]. intros h.
    case_decide; [|done]. destruct (io_streams (w_io w) !! h); [|done].
    cbn. by rewrite append_nil_r.
  - destruct s; cbn [exec_stmts exec_stmt printed first_raise fst snd]; try exact (IH _).
    + destruct (IH (with_io (io_write (s +:+ newline) (w_io w)) w)) as (H1 & H2 & H3 & H4).
      split_and!; [done | done | done |]. intros h. rewrite H4. simpl.
      case_decide as Hh; subst; simpl.
      * rewrite lookup_alter_eq. destruct (io_streams (w_io w) !! _); cbn; [|done].
        by rewrite <- !append_assoc.
      * by rewrite lookup_alter_ne.
    + split_and!; [done | done | done |]. intros h. case_decide; [|done].
      destruct (io_streams (w_io w) !! h); [|done]. cbn. by rewrite append_nil_r.
Qed.

Lemma exec_stmts_plt_df (ss : list Stmt) (w : World) :
  w_plt (fst (exec_stmts ss w)) = plt_effect ss (w_plt w) /\
  w_df (fst (exec_stmts ss w)) = df_effect ss (w_df w).
Proof.
  revert w. induction ss as [|s ss IH]; intros w; [done|].
  destruct s; cbn [exec_stmts exec_stmt plt_effect df_effect fst]; try exact (IH _). done.
Qed.

Section RunCode.
Context {comp : PyCompiler}.

Ltac exec_io_facts ss w :=
  destruct (exec_stmts_io ss (redirected w)) as (H1 & H2 & H3 & H4).

Lemma run_code_unfold (code : string) (w : World) :
  run_code code w =
    let cap := io_next (w_io w) in
    let w1 := redirected w in
    let w2 := fst (py_exec code w1) in
    let w3 := with_io (set_stdout (io_stdout (w_io w)) (w_io w2)) w2 in
    match snd (py_exec code w1) with
    | None => (w3, POk (strip (getvalue cap (w_io w3))))
    | Some e => (w3, PRaise e)
    end.
Proof. unfold run_code. simpl. by destruct (py_exec code _) as [w2 [e|]]. Qed.

(** [sys.stdout] and the older streams after [run_code]. *)
Lemma run_code_stdout (code : string) (w : World) :
  io_stdout (w_io (fst (run_code code w))) = io_stdout (w_io w) /\
  forall h, h < io_next (w_io w) ->
    io_streams (w_io (fst (run_code code w))) !! h = io_streams (w_io w) !! h.
Proof.
  rewrite run_code_unfold. cbv zeta. unfold py_exec.
  destruct (py_compile code) as [ss|e].
  - exec_io_facts ss w.
    destruct (snd (exec_stmts _ _)); (split; [done|]); intros h Hh; simpl;
      rewrite H4; simpl; rewrite decide_False by lia; by rewrite lookup_insert_ne by lia.
  - split; [done|]. intros h Hh. simpl. by rewrite lookup_insert_ne by lia.
Qed.

(** C18: [run_code] puts [sys.stdout] back on every path, exceptions
    included, and what the snippet printed reaches no stream that was open
    before the call (the console in particular). *)
Theorem run_code_restores_stdout (code : string) (w : World) :
  io_stdout (w_io (fst (run_code code w))) = io_stdout (w_io w) /\
  forall h, h < io_next (w_io w) ->
    io_streams (w_io (fst (run_code code w))) !! h = io_streams (w_io w) !! h.
Proof. apply run_code_stdout. Qed.

(** The value of [run_code]. *)
Lemma run_code_value (code : string) (w : World) :
  snd (run_code code w) = snippet_outcome code.
Proof.
  rewrite run_code_unfold. cbv zeta. unfold py_exec, snippet_outcome.
  destruct (py_compile code) as [ss|e]; [|done].
  exec_io_facts ss w.
  rewrite H3. destruct (first_raise ss); [done|]. simpl.
  unfold getvalue. simpl. rewrite H4. simpl. rewrite decide_True by done.
  by rewrite lookup_insert_eq.
Qed.

(** C19: the value of [run_code] is the exception the snippet raises
    (a [SyntaxError] included), or else everything it printed, stripped;
    it does not depend on the state it runs in. *)
Theorem run_code_result (code : string) (w : World) :
  snd (run_code code w) = snippet_outcome code.
Proof. apply run_code_value. Qed.

(** The streams after [run_code]: one new stream, the capture. *)
Lemma run_code_io (code : string) (w : World) :
  io_next (w_io (fst (run_code code w))) = S (io_next (w_io w)) /\
  is_Some (io_streams (w_io (fst (run_code code w))) !! io_next (w_io w)).
Proof.
  rewrite run_code_unfold. cbv zeta. unfold py_exec.
  destruct (py_compile code) as [ss|e].
  - exec_io_facts ss w.
    destruct (snd (exec_stmts _ _)); simpl; rewrite H4, H2; simpl;
      rewrite decide_True, lookup_insert_eq by done; by eexists.
  - simpl. rewrite lookup_insert_eq. by eexists.
Qed.

(** Well-formed streams stay well formed. *)
Lemma run_code_wf (code : string) (w : World) :
  wf_io (w_io w) -> wf_io (w_io (fst (run_code code w))).
Proof.
  intros [Hout Hlt]. pose proof (run_code_stdout code w) as [Hs Hkeep].
  pose proof (run_code_io code w) as [Hn Hcap]. split.
  - rewrite Hs, Hkeep; [done|]. by apply Hlt.
  - intros h HS. rewrite Hn.
    destruct (Nat.lt_trichotomy h (io_next (w_io w))) as [Hh|[->|Hh]]; [lia | lia |].
    exfalso. destruct (io_streams (w_io (fst (run_code code w))) !! h) eqn:E; [|by destruct HS].
    revert E. rewrite run_code_unfold. cbv zeta. unfold py_exec.
    destruct (py_compile code) as [ss|e].
    + exec_io_facts ss w.
      destruct (snd (exec_stmts _ _)); simpl; rewrite H4; simpl;
        rewrite decide_False, lookup_insert_ne by lia; intros E;
        specialize (Hlt h ltac:(by rewrite E)); lia.
    + simpl. rewrite lookup_insert_ne by lia. intros E.
      specialize (Hlt h ltac:(by rewrite E)). lia.
Qed.

End RunCode.

Section RunCodeEffects.
Context {comp : PyCompiler}.

(** The chart state and the frame after [run_code] are those the snippet
    leaves: the redirection does not touch them. *)
Lemma run_code_plt_df (code : string) (ss : list Stmt) (w : World) :
  py_compile code = POk ss ->
  w_plt (fst (run_code code w)) = plt_effect ss (w_plt w) /\
  w_df (fst (run_code code w)) = df_effect ss (w_df w).
Proof.
  intros Hc. rewrite run_code_unfold. cbv zeta. unfold py_exec. rewrite Hc.
  destruct (exec_stmts_plt_df ss (redirected w)) as [Hp Hd].
  by destruct (snd (exec_stmts ss (redirected w))).
Qed.

(** The figure numbers stay increasing whatever the snippet does. *)
Lemma plt_effect_wf (ss : list Stmt) (p : PltState) :
  wf_plt p = true -> wf_plt (plt_effect ss p) = true.
Proof.
  revert p. induction ss as [|s ss IH]; intros p Hp; [done|].
  destruct s; cbn [plt_effect]; try done; apply IH;
    first [by apply plt_figure_wf | by apply plt_draw_wf | done].
Qed.

Lemma run_code_wf_plt (code : string) (w : World) :
  wf_plt (w_plt w) = true -> wf_plt (w_plt (fst (run_code code w))) = true.
Proof.
  intros Hw. destruct (py_compile code) as [ss|e] eqn:Hc.
  - rewrite (proj1 (run_code_plt_df code ss w Hc)). by apply plt_effect_wf.
  - rewrite run_code_unfold. cbv zeta. unfold py_exec. rewrite Hc. done.
Qed.

Lemma snippet_outcome_ok (code : string) (ss : list Stmt) :
  py_compile code = POk ss -> first_raise ss = None ->
  snippet_outcome code = POk (strip (printed ss)).
Proof. intros Hc Hr. unfold snippet_outcome. by rewrite Hc, Hr. Qed.

End RunCodeEffects.
