(* ===== verification/Concurrent.v ===== *)
(** * Concurrent requests: [run_code] in threads

    main.py's [chat] is a plain [def] endpoint, so FastAPI runs it in a
    worker thread of its thread pool, and two [POST /chat] requests can
    run [ask] at the same time.  The threads share the process:
    [sys.stdout], the streams and the data frame.  The spec (section 5)
    names the hazard: interleaved executions can corrupt each other's
    captured output.

    A thread running [run_code] (agent.py:79-88) is a program counter
    [RcPc], and [rc_step] is one atomic step of it on the shared [World]:
    - lines 81-83: save [sys.stdout], open the capture, redirect;
    - line 85: compile the snippet, then one step per statement;
    - line 87: the [finally], putting the saved stream back;
    - line 88: read the capture.
    The steps are coarser than the interpreter's switch points, so every
    interleaving of [rc_step]s is one the interpreter can take.  A
    schedule is the list of the threads that step, in order
    ([run_sched]). *)

From stdpp Require Import base strings list gmap.
From Stdlib Require Import String Ascii Lia.
From S2P Require Import Prelude PyStr Plot Dataset Executor.

(** ** Threads and schedules *)

Section Scheduler.
(** A thread is its program counter [Th]; the threads share a state [St];
    [step] is one atomic step of a thread, [None] once it has finished. *)
Context {Th St : Type}.
Variable step : Th -> St -> option (Th * St).

(** Thread [i] takes a step, if it exists and has not finished. *)
Definition step_thread (i : nat) (ts : list Th) (s : St) : list Th * St :=
  match ts !! i with
  | Some pc =>
      match step pc s with
      | Some (pc', s') => (<[i := pc']> ts, s')
      | None => (ts, s)
      end
  | None => (ts, s)
  end.

(** The threads after a schedule: the list of the threads that step, in
    order. *)
Fixpoint run_sched (sched : list nat) (ts : list Th) (s : St) : list Th * St :=
  match sched with
  | [] => (ts, s)
  | i :: sched' => let '(ts', s') := step_thread i ts s in run_sched sched' ts' s'
  end.

(** One thread alone for [n] steps. *)
Fixpoint iter (n : nat) (pc : Th) (s : St) : Th * St :=
  match n with
  | 0 => (pc, s)
  | S n' => match step pc s with
            | Some (pc', s') => iter n' pc' s'
            | None => (pc, s)
            end
  end.

(** [c'] is reachable from [c] by steps of one thread. *)
Inductive steps : Th * St -> Th * St -> Prop :=
| steps_refl (c : Th * St) : steps c c
| steps_step (pc pc' : Th) (s s' : St) (c : Th * St) :
    step pc s = Some (pc', s') -> steps (pc', s') c -> steps (pc, s) c.

End Scheduler.

(** Where a thread is in [run_code]. *)
Inductive RcPc :=
| RcStart (code : string)                       (** called with [code] *)
| RcCompile (old cap : nat) (code : string)     (** redirected, before [exec] *)
| RcExec (old cap : nat) (ss : list Stmt)       (** statements still to run *)
| RcFinally (old cap : nat) (r : option PyExc)  (** the [finally] clause *)
| RcReturn (cap : nat)                          (** [return captured.getvalue().strip()] *)
| RcDone (r : PyResult string).                 (** returned or raised *)

Section Steps.
Context {comp : PyCompiler}.

(** One atomic step of a thread; [None] once it has finished. *)
Definition rc_step (pc : RcPc) (w : World) : option (RcPc * World) :=
  match pc with
  | RcStart code =>
      let old := io_stdout (w_io w) in
      let '(io1, cap) := stringio_new (w_io w) in
      Some (RcCompile old cap code, with_io (set_stdout cap io1) w)
  | RcCompile old cap code =>
      match py_compile code with
      | POk ss => Some (RcExec old cap ss, w)
      | PRaise e => Some (RcFinally old cap (Some e), w)
      end
  | RcExec old cap [] => Some (RcFinally old cap None, w)
  | RcExec old cap (s :: ss) =>
      match exec_stmt s w with
      | (w', None) => Some (RcExec old cap ss, w')
      | (w', Some e) => Some (RcFinally old cap (Some e), w')
      end
  | RcFinally old cap r =>
      let w' := with_io (set_stdout old (w_io w)) w in
      match r with
      | None => Some (RcReturn cap, w')
      | Some e => Some (RcDone (PRaise e), w')
      end
  | RcReturn cap => Some (RcDone (POk (strip (getvalue cap (w_io w)))), w)
  | RcDone _ => None
  end.

(** [run_code] in one thread alone. *)
Definition rc_iter (n : nat) (pc : RcPc) (w : World) : RcPc * World := iter rc_step n pc w.

(** The steps a thread needs alone: three around [exec], the compilation,
    and one per statement run. *)
Definition rc_fuel (code : string) : nat :=
  match py_compile code with
  | POk ss => 5 + List.length ss
  | PRaise _ => 4
  end.

(** A schedule in which thread A is preempted right after redirecting
    [sys.stdout]: thread B redirects too, then A runs to the end, then B. *)
Definition racy_schedule : list nat := [0; 1; 0; 0; 0; 0; 0; 1; 1; 1; 1; 1].

End Steps.

(** Two snippets, each printing one line. *)
Definition two_prints : PyCompiler :=
  {| py_compile := fun c =>
       if String.eqb c "print('a')" then POk [SPrint "a"]
       else if String.eqb c "print('b')" then POk [SPrint "b"]
       else PRaise (mkExc "SyntaxError" "invalid syntax" true) |}.

(** A process whose [sys.stdout] is the console, stream 0. *)
Definition console_world : World := mkWorld (mkIo 0 {[0 := ""]} 1) plt_init (mkFrame [] []).

(** ** Theorems *)

Section SchedulerFacts.
Context {Th St : Type}.
Variable step : Th -> St -> option (Th * St).

Lemma iter_stuck (n : nat) (pc : Th) (s : St) : step pc s = None -> iter step n pc s = (pc, s).
Proof. intros E. destruct n; cbn; by rewrite ?E. Qed.

Lemma iter_S (n : nat) (pc pc' : Th) (s s' : St) :
  step pc s = Some (pc', s') -> iter step (S n) pc s = iter step n pc' s'.
Proof. intros E. cbn. by rewrite E. Qed.

(** A schedule naming only thread [i] runs [i] alone. *)
Lemma run_sched_alone (i n : nat) (ts : list Th) (pc : Th) (s : St) :
  ts !! i = Some pc ->
  run_sched step (repeat i n) ts s = (<[i := fst (iter step n pc s)]> ts, snd (iter step n pc s)).
Proof.
  revert ts pc s. induction n as [|n IH]; intros ts pc s Hi.
  - cbn. by rewrite list_insert_id.
  - cbn [repeat run_sched iter]. unfold step_thread. rewrite Hi.
    destruct (step pc s) as [[pc' s']|] eqn:E.
    + rewrite (IH (<[i:=pc']> ts) pc' s') by (apply list_lookup_insert_eq; eauto using lookup_lt_Some).
      by rewrite list_insert_insert_eq.
    + cbn. rewrite (IH ts pc s Hi), iter_stuck by done. cbn. by rewrite list_insert_id.
Qed.

Lemma run_sched_app (s1 s2 : list nat) (ts : list Th) (s : St) :
  run_sched step (s1 ++ s2) ts s =
    run_sched step s2 (fst (run_sched step s1 ts s)) (snd (run_sched step s1 ts s)).
Proof.
  revert ts s. induction s1 as [|i s1 IH]; intros ts s; [done|].
  cbn [app run_sched]. destruct (step_thread step i ts s) as [ts' s']. apply IH.
Qed.

Lemma iter_steps (n : nat) (pc : Th) (s : St) : steps step (pc, s) (iter step n pc s).
Proof.
  revert pc s. induction n as [|n IH]; intros pc s; [constructor|].
  cbn. destruct (step pc s) as [[pc' s']|] eqn:E; [|constructor].
  econstructor; [exact E | apply IH].
Qed.

Lemma steps_trans (c1 c2 c3 : Th * St) : steps step c1 c2 -> steps step c2 c3 -> steps step c1 c3.
Proof. induction 1 as [|pc pc' s s' c E _ IH]; [done|]. intros H23. econstructor; eauto. Qed.

(** A thread that reaches a state where it has finished gets there with
    enough fuel, and stays there with more. *)
Lemma steps_iter (c c' : Th * St) :
  steps step c c' -> step (fst c') (snd c') = None ->
  exists n, forall m, n <= m -> iter step m (fst c) (snd c) = c'.
Proof.
  intros Hs Hstop. induction Hs as [[pc s]|pc pc' s s' c E _ IH].
  - exists 0. intros m _. by apply iter_stuck.
  - destruct (IH Hstop) as [n Hn]. exists (S n). intros [|m] Hm; [lia|].
    cbn [fst snd]. rewrite (iter_S _ _ _ _ _ E). apply Hn. lia.
Qed.

End SchedulerFacts.

Section Facts.
Context {comp : PyCompiler}.

Lemma rc_iter_done (n : nat) (r : PyResult string) (w : World) :
  iter rc_step n (RcDone r) w = (RcDone r, w).
Proof. by apply iter_stuck. Qed.

(** The statements of a snippet, then the [finally] and the return. *)
Lemma rc_iter_exec (old cap : nat) (ss : list Stmt) (w : World) (n : nat) :
  List.length ss + 3 <= n ->
  rc_iter n (RcExec old cap ss) w =
    let w2 := fst (exec_stmts ss w) in
    let w3 := with_io (set_stdout old (w_io w2)) w2 in
    (RcDone (match snd (exec_stmts ss w) with
             | None => POk (strip (getvalue cap (w_io w3)))
             | Some e => PRaise e
             end), w3).
Proof.
  unfold rc_iter. revert w n. induction ss as [|s ss IH]; intros w n Hn.
  - do 3 (destruct n as [|n]; [cbn in Hn; lia|]). cbn. by rewrite ?rc_iter_done.
  - destruct n as [|n]; [cbn in Hn; lia|]. cbn [iter rc_step exec_stmts].
    destruct (exec_stmt s w) as [w' [e|]].
    + do 2 (destruct n as [|n]; [cbn in Hn; lia|]). cbn. by rewrite ?rc_iter_done.
    + apply IH. cbn in Hn. lia.
Qed.

Lemma rc_iter_run_code (code : string) (w : World) :
  rc_iter (rc_fuel code) (RcStart code) w = (RcDone (snd (run_code code w)), fst (run_code code w)).
Proof.
  rewrite run_code_unfold. unfold rc_fuel, py_exec. cbv zeta.
  destruct (py_compile code) as [ss|e] eqn:Hc.
  - replace (5 + List.length ss) with (S (S (List.length ss + 3))) by lia.
    unfold rc_iter. cbn [iter rc_step stringio_new]. rewrite Hc.
    change (with_io (set_stdout _ _) w) with (redirected w).
    fold (rc_iter (List.length ss + 3) (RcExec (io_stdout (w_io w)) (io_next (w_io w)) ss) (redirected w)).
    rewrite rc_iter_exec by lia. by destruct (snd (exec_stmts ss _)).
  - cbn. by rewrite Hc.
Qed.

(** A thread running [run_code] alone terminates within
    [rc_fuel code] steps, with the value and the world of [run_code]: the
    small steps refine the sequential definition. *)
Theorem rc_alone_run_code (code : string) (w : World) :
  rc_iter (rc_fuel code) (RcStart code) w = (RcDone (snd (run_code code w)), fst (run_code code w)).
Proof. apply rc_iter_run_code. Qed.

(** Run one after the other, two threads behave as two calls of
    [run_code] in sequence. *)
Lemma run_sched_sequential (ca cb : string) (w : World) :
  run_sched rc_step (repeat 0 (rc_fuel ca) ++ repeat 1 (rc_fuel cb)) [RcStart ca; RcStart cb] w =
    ([RcDone (snd (run_code ca w)); RcDone (snd (run_code cb (fst (run_code ca w))))],
     fst (run_code cb (fst (run_code ca w)))).
Proof.
  rewrite run_sched_app, (run_sched_alone rc_step 0 _ _ (RcStart ca)) by done.
  fold (rc_iter (rc_fuel ca) (RcStart ca) w). rewrite rc_iter_run_code. cbn [fst snd].
  rewrite (run_sched_alone rc_step 1 _ _ (RcStart cb)) by done.
  fold (rc_iter (rc_fuel cb) (RcStart cb) (fst (run_code ca w))). by rewrite rc_iter_run_code.
Qed.

(** C10: [run_code] is not safe for concurrent requests.  Take any two
    snippets that each print one line, [a] and [b], and the schedule in
    which thread A is preempted right after redirecting [sys.stdout]
    (thread B then redirects to its own capture):
    - A's line lands in B's capture, so A returns nothing and B returns
      A's output;
    - B's line goes to the console;
    - afterwards [sys.stdout] is left on A's capture, not on the
      console, because B's [finally] restores the stream it saw on entry.
    Run one after the other, each gets its own output and [sys.stdout] is
    restored ([run_sched_sequential]). *)
Theorem run_code_interleaved_crosstalk (ca cb a b : string) (w : World) :
  py_compile ca = POk [SPrint a] -> py_compile cb = POk [SPrint b] -> wf_io (w_io w) ->
  fst (run_sched rc_step racy_schedule [RcStart ca; RcStart cb] w) =
    [RcDone (POk ""); RcDone (POk (strip (a +:+ newline)))] /\
  io_stdout (w_io (snd (run_sched rc_step racy_schedule [RcStart ca; RcStart cb] w))) = io_next (w_io w) /\
  io_streams (w_io (snd (run_sched rc_step racy_schedule [RcStart ca; RcStart cb] w))) !! io_stdout (w_io w) =
    (fun c => c +:+ (b +:+ newline)) <$> io_streams (w_io w) !! io_stdout (w_io w).
Proof.
  intros Hca Hcb [Hout Hlt]. destruct w as [[o st n] pl d]. cbn in Hout, Hlt |- *.
  assert (Ho : o < n) by (apply Hlt, Hout).
  unfold racy_schedule. cbn. rewrite Hca. cbn. rewrite Hcb. cbn.
  unfold getvalue, io_write, set_stdout. cbn [io_streams io_stdout].
  rewrite !lookup_alter_ne, !lookup_alter_eq, ?lookup_alter_ne, !lookup_insert_ne, !lookup_insert_eq by lia.
  split_and!; [reflexivity | done | by rewrite !lookup_insert_ne by lia].
Qed.

End Facts.

Lemma console_world_wf : wf_io (w_io console_world).
Proof.
  split; [cbn; rewrite lookup_singleton_eq; by eexists|].
  intros h [v Hv]. cbn in *. destruct (decide (h = 0)) as [->|Hh]; [lia|].
  by rewrite lookup_singleton_ne in Hv.
Qed.

Lemma run_code_interleaved_crosstalk_witness :
  @py_compile two_prints "print('a')" = POk [SPrint "a"] /\
  @py_compile two_prints "print('b')" = POk [SPrint "b"] /\
  wf_io (w_io console_world) /\
  fst (@run_sched _ _ (@rc_step two_prints) racy_schedule [RcStart "print('a')"; RcStart "print('b')"] console_world) =
    [RcDone (POk ""); RcDone (POk (strip ("a" +:+ newline)))].
Proof.
  split_and!; [reflexivity | reflexivity | exact console_world_wf |].
  exact (proj1 (@run_code_interleaved_crosstalk two_prints "print('a')" "print('b')" "a" "b" console_world
                  eq_refl eq_refl console_world_wf)).
Defined.
