(* ===== verification/Model.v ===== *)
(** * The model client: [call_llm] (agent.py:45-63)

    The client reads [HUGGINGFACEHUB_API_TOKEN] from the environment and
    raises [RuntimeError] before building any client when it is missing
    or empty.  Otherwise it sends one chat-completion request (system and
    user messages, the fixed model, temperature 0.1, at most 1024 tokens)
    and returns [response.choices[0].message.content], which the service
    may leave [None], and which raises [IndexError] when there is no
    choice.  The remote service is the [ChatService] interface; [LlmState]
    holds the environment and the log of the requests sent, so that a
    theorem can say that no request left the process. *)

From stdpp Require Import base strings list gmap.
From Stdlib Require Import String Ascii QArith Lia.
From S2P Require Import Prelude PyStr Dataset.

Record ChatMessage := mkMsg {
  msg_role : string;
  msg_content : string
}.

Record ChatRequest := mkReq {
  req_messages : list ChatMessage;
  req_model : string;
  req_temperature : Q;
  req_max_tokens : nat
}.

(** A response: [choices[i].message.content] for each choice. *)
Record ChatOutput := mkOut { out_choices : list (option string) }.

Record LlmState := mkLlm {
  environ : gmap string string;          (** [os.environ] *)
  sent : list (string * ChatRequest)     (** requests sent, with their token *)
}.

(** [InferenceClient(token=token).chat_completion(...)]: the answer may
    depend on the requests sent before. *)
Class ChatService := {
  chat_completion : list (string * ChatRequest) -> string -> ChatRequest -> PyResult ChatOutput
}.

Definition TOKEN_VAR : string := "HUGGINGFACEHUB_API_TOKEN".

Definition missing_token_msg : string :=
  "HUGGINGFACEHUB_API_TOKEN is not set. Add it to your .env file or Streamlit secrets.".

(** The request of agent.py:54-62. *)
Definition chat_request (system_prompt user_message : string) : ChatRequest :=
  mkReq [mkMsg "system" system_prompt; mkMsg "user" user_message] MODEL_ID (1 # 10) 1024.

(** [os.environ.get(TOKEN_VAR, "")] *)
Definition get_token (st : LlmState) : string := default "" (environ st !! TOKEN_VAR).

(** agent.py:45-63 *)
Definition call_llm {svc : ChatService} (system_prompt user_message : string) (st : LlmState)
    : LlmState * PyResult (option string) :=
  let token := get_token st in
  if String.eqb token "" then (st, PRaise (RuntimeError missing_token_msg))
  else
    let req := chat_request system_prompt user_message in
    let st' := mkLlm (environ st) (sent st ++ [(token, req)]) in
    match chat_completion (sent st) token req with
    | PRaise e => (st', PRaise e)
    | POk out =>
        match out_choices out with
        | [] => (st', PRaise (IndexError "list index out of range"))
        | c :: _ => (st', POk c)
        end
    end.

(** ** Theorems *)

Section CallLlm.
Context {svc : ChatService}.

(** C25: with a token, [call_llm] sends exactly one request (the system
    prompt then the question, the fixed model, temperature 0.1, at most
    1024 tokens) and returns the first choice's content, [IndexError]
    when there is none, or the service's exception. *)
Theorem call_llm_request (sys user : string) (st : LlmState) :
  get_token st <> "" ->
  sent (fst (call_llm sys user st)) =
    sent st ++ [(get_token st, mkReq [mkMsg "system" sys; mkMsg "user" user]
                                     "Qwen/Qwen2.5-72B-Instruct" (1 # 10) 1024)] /\
  snd (call_llm sys user st) =
    match chat_completion (sent st) (get_token st) (chat_request sys user) with
    | PRaise e => PRaise e
    | POk out =>
        match out_choices out with
        | [] => PRaise (IndexError "list index out of range")
        | c :: _ => POk c
        end
    end.
Proof.
  intros Ht. unfold call_llm. apply String.eqb_neq in Ht. rewrite Ht.
  destruct (chat_completion _ _ _) as [[[|c cs]]|e]; done.
Qed.

(** The prompt, environment and log after a call: the log grows by at
    most the one request. *)
Lemma call_llm_state (sys user : string) (st : LlmState) :
  environ (fst (call_llm sys user st)) = environ st /\
  exists extra, sent (fst (call_llm sys user st)) = sent st ++ extra /\ (List.length extra <= 1)%nat.
Proof.
  unfold call_llm. destruct (String.eqb _ _).
  - split; [done|]. exists []. rewrite app_nil_r. split; [done | simpl; lia].
  - destruct (chat_completion _ _ _) as [[[|c cs]]|e]; simpl;
      (split; [done | eexists; split; [reflexivity | simpl; lia]]).
Qed.

End CallLlm.

Lemma call_llm_request_witness :
  get_token (mkLlm {[TOKEN_VAR := "hf_token"]} []) <> "" /\
  sent (fst (@call_llm {| chat_completion := fun _ _ _ => POk (mkOut []) |}
               "prompt" "q" (mkLlm {[TOKEN_VAR := "hf_token"]} []))) =
    [("hf_token", mkReq [mkMsg "system" "prompt"; mkMsg "user" "q"]
                        "Qwen/Qwen2.5-72B-Instruct" (1 # 10) 1024)] /\
  snd (@call_llm {| chat_completion := fun _ _ _ => POk (mkOut []) |}
         "prompt" "q" (mkLlm {[TOKEN_VAR := "hf_token"]} [])) =
    PRaise (IndexError "list index out of range").
Proof.
  assert (Ht : get_token (mkLlm {[TOKEN_VAR := "hf_token"]} []) <> "") by discriminate.
  split; [exact Ht|].
  exact (@call_llm_request {| chat_completion := fun _ _ _ => POk (mkOut []) |}
           "prompt" "q" (mkLlm {[TOKEN_VAR := "hf_token"]} []) Ht).
Defined.
