(* ===== verification/Config.v ===== *)
(** * Configuration: [.env], Streamlit secrets and the environment

    Every entry point starts with python-dotenv's [load_dotenv()]
    (agent.py:13-14, main.py:4-6, app.py:6-7, streamlit_app.py:4-6).  The
    [.env] file is given by its parsed bindings, in file order; a key
    written without [=] has no value.  [load_dotenv] builds the file's
    dictionary (a later binding of a key replaces an earlier one) and sets
    each variable that has a value and is not already in [os.environ]:
    the default [override=False].  A missing file is the empty list.

    app.py:10-14 then copies the token from [st.secrets] into
    [os.environ], inside [try ... except Exception: pass].  A missing
    secrets file makes [in st.secrets] raise, and a value that is not a
    string makes the assignment to [os.environ] raise ([TypeError]).
    Both are swallowed.  app.py:20 reads [API_URL] with a default. *)

From stdpp Require Import base strings list gmap.
From Stdlib Require Import String Ascii Lia.
From S2P Require Import Prelude Model.

(** A value of [secrets.toml]: a string, or anything else (a number, a
    table). *)
Inductive TomlVal :=
| TStr (s : string)
| TOther.

(** [dotenv_values()]: the file's bindings as a dictionary. *)
Definition dotenv_dict (b : list (string * option string)) : gmap string (option string) :=
  foldl (fun m kv => <[kv.1 := kv.2]> m) ∅ b.

(** [load_dotenv()]: the variables of the file that have a value and that
    the environment does not set. *)
Definition load_dotenv (b : list (string * option string)) (env : gmap string string)
    : gmap string string :=
  env ∪ omap id (dotenv_dict b).

(** app.py:10-14.  [secrets] is [None] when there is no secrets file. *)
Definition apply_secrets (secrets : option (gmap string TomlVal)) (env : gmap string string)
    : gmap string string :=
  match secrets with
  | None => env
  | Some sec =>
      match sec !! TOKEN_VAR with
      | Some (TStr v) => <[TOKEN_VAR := v]> env
      | Some TOther => env
      | None => env
      end
  end.

(** [os.environ] of the app.py process after lines 6-14. *)
Definition app_env (env0 : gmap string string) (b : list (string * option string))
    (secrets : option (gmap string TomlVal)) : gmap string string :=
  apply_secrets secrets (load_dotenv b env0).

(** app.py:20: [os.getenv("API_URL", "http://localhost:8000")]. *)
Definition API_URL (env : gmap string string) : string :=
  default "http://localhost:8000" (env !! "API_URL").

(** ** Lemmas *)

Lemma lookup_load_dotenv (b : list (string * option string)) (env : gmap string string) (k : string) :
  load_dotenv b env !! k =
    match env !! k with
    | Some v => Some v
    | None => dotenv_dict b !! k ≫= id
    end.
Proof.
  unfold load_dotenv. rewrite lookup_union, lookup_omap.
  destruct (env !! k), (dotenv_dict b !! k ≫= id); reflexivity.
Qed.

(** [load_dotenv] leaves alone an environment that already sets every
    variable the file gives a value to. *)
Lemma load_dotenv_covered (b : list (string * option string)) (env : gmap string string) :
  (forall k, env !! k = None -> dotenv_dict b !! k ≫= id = None) -> load_dotenv b env = env.
Proof.
  intros Hcov. apply map_eq. intros k. rewrite lookup_load_dotenv.
  destruct (env !! k) eqn:E; [done|]. by apply Hcov.
Qed.

(** The secrets only add or replace the token. *)
Lemma apply_secrets_None (sec : option (gmap string TomlVal)) (env : gmap string string) (k : string) :
  apply_secrets sec env !! k = None -> env !! k = None.
Proof.
  unfold apply_secrets. destruct sec as [sec|]; [|done].
  destruct (sec !! TOKEN_VAR) as [[v|]|]; [|done|done].
  by intros [? _]%lookup_insert_None.
Qed.

(** Loading the same file again changes nothing: the second
    [load_dotenv()] of agent.py after that of the entry point, with or
    without the secrets copied in between. *)
Lemma load_dotenv_secrets_again (b : list (string * option string))
    (sec : option (gmap string TomlVal)) (env : gmap string string) :
  load_dotenv b (apply_secrets sec (load_dotenv b env)) = apply_secrets sec (load_dotenv b env).
Proof.
  apply load_dotenv_covered. intros k Hk%apply_secrets_None.
  rewrite lookup_load_dotenv in Hk. by destruct (env !! k).
Qed.

Lemma load_dotenv_again (b : list (string * option string)) (env : gmap string string) :
  load_dotenv b (load_dotenv b env) = load_dotenv b env.
Proof. exact (load_dotenv_secrets_again b None env). Qed.

(** ** Theorems *)

(** C34: the token the model client of app.py finds (after the start-up
    of app.py and the import of agent.py in Local mode) is the secrets'
    string if there is one, else the environment's, else the [.env]
    file's, else empty: secrets override the environment, which overrides
    the file. *)
Theorem app_token_precedence (env0 : gmap string string) (b : list (string * option string))
    (sec : option (gmap string TomlVal)) :
  get_token (mkLlm (load_dotenv b (app_env env0 b sec)) []) =
    match sec ≫= lookup TOKEN_VAR with
    | Some (TStr v) => v
    | _ =>
        match env0 !! TOKEN_VAR with
        | Some v => v
        | None => default "" (dotenv_dict b !! TOKEN_VAR ≫= id)
        end
    end.
Proof.
  unfold app_env. rewrite load_dotenv_secrets_again. unfold get_token, apply_secrets. simpl.
  destruct sec as [sec|]; simpl; [destruct (sec !! TOKEN_VAR) as [[v|]|]|];
    rewrite ?lookup_insert_eq; try done; by rewrite lookup_load_dotenv; destruct (env0 !! TOKEN_VAR).
Qed.

Section Client.
Context {svc : ChatService}.


End Client.

