(* ===== verification/Agent.v ===== *)
(** * The orchestrator: [ask] (agent.py:103-131)

    One request: close every figure, call the model with the fixed system
    prompt, extract the code, run it, grab the chart, choose the answer.
    [Proc] is the state of the process that [ask] reads and writes: the
    [World] of [Executor] (streams, figures, the data frame), the
    [LlmState] of [Model] (environment, requests sent), and the module
    global [SYSTEM_PROMPT].  [ask] returns a [PyResult]: [POk] of the
    result dictionary, or the exception that escapes it, since
    [except Exception] does not catch everything, and the calls to
    [extract_code] and to [grab_plot] are outside any [try]. *)

From stdpp Require Import base strings list gmap.
From Stdlib Require Import String Ascii Lia.
From S2P Require Import Prelude PyStr Extract Base64 Plot Dataset Executor Model.

Record Proc := mkProc {
  p_world : World;
  p_llm : LlmState;
  p_prompt : string        (** [SYSTEM_PROMPT], fixed at import *)
}.

(** [{"answer": ..., "plot": ...}] *)
Record AskResult := mkAsk {
  answer : string;
  plot : option string
}.

(** [f"{type(e).__name__}: {e}"] *)
Definition exc_text (e : PyExc) : string := exc_type e +:+ ": " +:+ exc_msg e.

Definition llm_failed (e : PyExc) : string := "LLM call failed: " +:+ exc_text e.
Definition exec_failed (e : PyExc) : string := "Code execution error: " +:+ exc_text e.
Definition no_response_msg : string := "No response from model. Try rephrasing.".
Definition chart_msg : string := "Here's the chart you asked for.".
Definition no_output_msg : string := "Done, but there was no output. Try rephrasing?".

(** What [re.findall] raises when [extract_code] receives [None]. *)
Definition findall_none_error : PyExc :=
  TypeError "expected string or bytes-like object, got 'NoneType'".

(** [bool(x)] for [x] a [str] or [None]. *)
Definition opt_truthy (o : option string) : bool :=
  match o with Some s => str_truthy s | None => false end.

(** agent.py:124-129 *)
Definition choose_answer (output : string) (plot : option string) : string :=
  if str_truthy output then output
  else if opt_truthy plot then chart_msg
  else no_output_msg.

Section Ask.
Context {svc : ChatService} {comp : PyCompiler} {rast : Rasterizer}.

(** agent.py:103-131 *)
Definition ask (question : string) (p : Proc) : Proc * PyResult AskResult :=
  let w0 := with_plt (plt_close_all (w_plt (p_world p))) (p_world p) in
  let '(llm1, r) := call_llm (p_prompt p) question (p_llm p) in
  match r with
  | PRaise e =>
      if exc_is_Exception e
      then (mkProc w0 llm1 (p_prompt p), POk (mkAsk (llm_failed e) None))
      else (mkProc w0 llm1 (p_prompt p), PRaise e)
  | POk None => (mkProc w0 llm1 (p_prompt p), PRaise findall_none_error)
  | POk (Some raw) =>
      let no_code :=
        (mkProc w0 llm1 (p_prompt p),
         POk (mkAsk (if str_truthy (strip raw) then strip raw else no_response_msg) None)) in
      match extract_code raw with
      | Some c =>
          if str_truthy c then
            let '(w2, out) := run_code c w0 in
            match out with
            | PRaise e =>
                if exc_is_Exception e
                then (mkProc w2 llm1 (p_prompt p), POk (mkAsk (exec_failed e) None))
                else (mkProc w2 llm1 (p_prompt p), PRaise e)
            | POk output =>
                let '(plt3, r) := grab_plot (w_plt w2) in
                (mkProc (with_plt plt3 w2) llm1 (p_prompt p),
                 (img <- r ;; POk (mkAsk (choose_answer output img) img))%py)
            end
          else no_code
      | None => no_code
      end
  end.

End Ask.

(** ** Concrete services, compilers and processes *)

(** A service that always sends the same reply. *)
Definition replying (content : option string) : ChatService :=
  {| chat_completion := fun _ _ _ => POk (mkOut [content]) |}.

(** A service that always raises. *)
Definition failing (e : PyExc) : ChatService :=
  {| chat_completion := fun _ _ _ => PRaise e |}.

(** A compiler that knows one snippet and rejects everything else. *)
Definition knowing (code : string) (ss : list Stmt) : PyCompiler :=
  {| py_compile := fun c =>
       if String.eqb c code then POk ss else PRaise (mkExc "SyntaxError" "invalid syntax" true) |}.

Definition token_env : gmap string string := {[ TOKEN_VAR := "hf_token" ]}.

(** A process after import: console stream 0, no figure, a frame. *)
Definition proc0 (env : gmap string string) : Proc :=
  mkProc (mkWorld (mkIo 0 {[0 := ""]} 1) plt_init (mkFrame [("survived", "int64")] [["1"]; ["0"]]))
         (mkLlm env []) "prompt".

(** The model state after one request. *)
Definition llm_after (q : string) : LlmState :=
  mkLlm token_env [("hf_token", chat_request "prompt" q)].

Definition reply42 : string := "```python
print(42)
```".

(** ** Theorems *)

Section AskFacts.
Context {svc : ChatService} {comp : PyCompiler} {rast : Rasterizer}.

(** The world in which the request runs: every figure closed. *)
Definition closed (w : World) : World := with_plt (plt_close_all (w_plt w)) w.

(** [ask] after the model answered with text. *)
Lemma ask_raw (q : string) (p : Proc) (llm1 : LlmState) (raw : string) :
  call_llm (p_prompt p) q (p_llm p) = (llm1, POk (Some raw)) ->
  ask q p =
    match extract_code raw with
    | Some c =>
        if str_truthy c then
          let '(w2, out) := run_code c (closed (p_world p)) in
          match out with
          | PRaise e =>
              if exc_is_Exception e
              then (mkProc w2 llm1 (p_prompt p), POk (mkAsk (exec_failed e) None))
              else (mkProc w2 llm1 (p_prompt p), PRaise e)
          | POk output =>
              let '(plt3, r) := grab_plot (w_plt w2) in
              (mkProc (with_plt plt3 w2) llm1 (p_prompt p),
               (img <- r ;; POk (mkAsk (choose_answer output img) img))%py)
          end
        else (mkProc (closed (p_world p)) llm1 (p_prompt p),
              POk (mkAsk (if str_truthy (strip raw) then strip raw else no_response_msg) None))
    | None => (mkProc (closed (p_world p)) llm1 (p_prompt p),
               POk (mkAsk (if str_truthy (strip raw) then strip raw else no_response_msg) None))
    end.
Proof. intros Hc. unfold ask. by rewrite Hc. Qed.

(** [ask] once the snippet has been extracted and run. *)
Lemma ask_ran (q : string) (p : Proc) (llm1 : LlmState) (raw c : string) :
  call_llm (p_prompt p) q (p_llm p) = (llm1, POk (Some raw)) ->
  extract_code raw = Some c -> str_truthy c = true ->
  ask q p =
    let w2 := fst (run_code c (closed (p_world p))) in
    match snippet_outcome c with
    | PRaise e =>
        if exc_is_Exception e
        then (mkProc w2 llm1 (p_prompt p), POk (mkAsk (exec_failed e) None))
        else (mkProc w2 llm1 (p_prompt p), PRaise e)
    | POk output =>
        let '(plt3, r) := grab_plot (w_plt w2) in
        (mkProc (with_plt plt3 w2) llm1 (p_prompt p),
         (img <- r ;; POk (mkAsk (choose_answer output img) img))%py)
    end.
Proof.
  intros Hc Hx Ht. rewrite (ask_raw q p llm1 raw Hc), Hx, Ht.
  rewrite <- (run_code_value c (closed (p_world p))).
  by destruct (run_code c (closed (p_world p))).
Qed.

(** C4: when the model call raises an [Exception], [ask] answers
    ["LLM call failed: <type>: <message>"] with no plot. *)
Theorem ask_llm_error (q : string) (p : Proc) (llm1 : LlmState) (e : PyExc) :
  call_llm (p_prompt p) q (p_llm p) = (llm1, PRaise e) -> exc_is_Exception e = true ->
  snd (ask q p) = POk (mkAsk ("LLM call failed: " +:+ exc_type e +:+ ": " +:+ exc_msg e) None).
Proof. intros Hc He. unfold ask. by rewrite Hc, He. Qed.

(** C5: when the reply holds no usable code ([extract_code] finds none,
    or an empty block), the answer is the stripped reply, or the
    fallback message when that is empty, and there is no plot. *)
Theorem ask_no_code (q : string) (p : Proc) (llm1 : LlmState) (raw : string) :
  call_llm (p_prompt p) q (p_llm p) = (llm1, POk (Some raw)) ->
  opt_truthy (extract_code raw) = false ->
  snd (ask q p) =
    POk (mkAsk (if str_truthy (strip raw) then strip raw else no_response_msg) None).
Proof.
  intros Hc Hx. rewrite (ask_raw q p llm1 raw Hc).
  destruct (extract_code raw) as [c|]; [simpl in Hx; by rewrite Hx | done].
Qed.

(** C6: when the snippet raises an [Exception] (a [SyntaxError]
    included), [ask] answers ["Code execution error: <type>: <message>"]
    with no plot. *)
Theorem ask_exec_error (q : string) (p : Proc) (llm1 : LlmState) (raw c : string) (e : PyExc) :
  call_llm (p_prompt p) q (p_llm p) = (llm1, POk (Some raw)) ->
  extract_code raw = Some c -> str_truthy c = true ->
  snippet_outcome c = PRaise e -> exc_is_Exception e = true ->
  snd (ask q p) = POk (mkAsk ("Code execution error: " +:+ exc_type e +:+ ": " +:+ exc_msg e) None).
Proof. intros Hc Hx Ht Ho He. rewrite (ask_ran q p llm1 raw c Hc Hx Ht). by rewrite Ho, He. Qed.

(** C7: a snippet that prints and leaves no figure open gives its
    stripped output as the answer and no plot (for instance
    [{"answer": "42", "plot": None}] for [print(42)]). *)
Theorem ask_text_answer (q : string) (p : Proc) (llm1 : LlmState) (raw c : string)
    (ss : list Stmt) :
  call_llm (p_prompt p) q (p_llm p) = (llm1, POk (Some raw)) ->
  extract_code raw = Some c -> str_truthy c = true ->
  py_compile c = POk ss -> first_raise ss = None ->
  str_truthy (strip (printed ss)) = true -> plt_figs (plt_effect ss plt_init) = [] ->
  snd (ask q p) = POk (mkAsk (strip (printed ss)) None).
Proof.
  intros Hc Hx Ht Hs Hr Hp Hf. rewrite (ask_ran q p llm1 raw c Hc Hx Ht). cbv zeta.
  rewrite (snippet_outcome_ok c ss Hs Hr).
  destruct (run_code_plt_df c ss (closed (p_world p)) Hs) as [Hplt _].
  rewrite Hplt. change (w_plt (closed (p_world p))) with plt_init.
  unfold grab_plot, get_fignums. rewrite Hf. unfold choose_answer. simpl. by rewrite Hp.
Qed.

(** C8: a snippet that prints nothing and leaves a figure open that
    [savefig] can render gives the acknowledgement as the answer and, as
    the plot, a base64 payload that decodes to a PNG image. *)
Theorem ask_chart_answer (q : string) (p : Proc) (llm1 : LlmState) (raw c : string)
    (ss : list Stmt) :
  call_llm (p_prompt p) q (p_llm p) = (llm1, POk (Some raw)) ->
  extract_code raw = Some c -> str_truthy c = true ->
  py_compile c = POk ss -> first_raise ss = None ->
  str_truthy (strip (printed ss)) = false -> plt_figs (plt_effect ss plt_init) <> [] ->
  (forall f, last (plt_figs (plt_effect ss plt_init)) = Some f -> is_ok (print_png grab_opts f) = true) ->
  exists img body, snd (ask q p) = POk (mkAsk "Here's the chart you asked for." (Some img)) /\
    b64decode img = POk (png_signature ++ body).
Proof.
  intros Hc Hx Ht Hs Hr Hp Hf Hsave. rewrite (ask_ran q p llm1 raw c Hc Hx Ht). cbv zeta.
  rewrite (snippet_outcome_ok c ss Hs Hr).
  destruct (run_code_plt_df c ss (closed (p_world p)) Hs) as [Hplt _].
  rewrite Hplt. change (w_plt (closed (p_world p))) with plt_init.
  destruct (grab_plot_ok (plt_effect ss plt_init) Hf Hsave) as (img & Himg & Htr).
  destruct (grab_plot_decodes _ img Himg) as (f & body & _ & _ & Hdec).
  destruct (grab_plot (plt_effect ss plt_init)) as [plt3 o]. simpl in Himg. subst o.
  exists img, body. split; [|done]. unfold choose_answer. simpl. by rewrite Hp, Htr.
Qed.

(** What [ask] can raise when every exception of the model call and of
    the snippets is an [Exception] and the model returns text: only the
    renderer's exception, raised by [grab_plot] on the active figure,
    which then stays open. *)
Lemma ask_raises_savefig (q : string) (p : Proc) :
  (forall e, snd (call_llm (p_prompt p) q (p_llm p)) = PRaise e -> exc_is_Exception e = true) ->
  snd (call_llm (p_prompt p) q (p_llm p)) <> POk None ->
  (forall c e, snippet_outcome c = PRaise e -> exc_is_Exception e = true) ->
  match snd (ask q p) with
  | POk _ => True
  | PRaise e => exists f, last (plt_figs (w_plt (p_world (fst (ask q p))))) = Some f /\
                          print_png grab_opts f = PRaise e
  end.
Proof.
  intros Hllm Hnone Hsnip. destruct (call_llm (p_prompt p) q (p_llm p)) as [llm1 r] eqn:Hc.
  simpl in Hllm, Hnone. destruct r as [[raw|]|e]; [| done |].
  - destruct (extract_code raw) as [c|] eqn:Hx; [destruct (str_truthy c) eqn:Ht|].
    + rewrite (ask_ran q p llm1 raw c Hc Hx Ht). cbv zeta.
      destruct (snippet_outcome c) as [out|e] eqn:Ho; [|by rewrite (Hsnip c e Ho)].
      set (st := w_plt (fst (run_code c (closed (p_world p))))).
      destruct (grab_plot st) as [plt3 [o|e]] eqn:Hg; [done|].
      destruct (grab_plot_raises st e) as [Hst Hf]; [by rewrite Hg|].
      rewrite Hg in Hst. simpl in Hst |- *. by subst plt3.
    + by rewrite (ask_raw q p llm1 raw Hc), Hx, Ht.
    + by rewrite (ask_raw q p llm1 raw Hc), Hx.
  - unfold ask. rewrite Hc. by rewrite (Hllm e eq_refl).
Qed.

(** C1: when the model client raises only [Exception]s, the model
    returns text (not [None]), and snippets raise only [Exception]s,
    every failure of the model call, of the extraction and of the snippet
    becomes an answer.  The one exception that still escapes [ask] is
    the one [savefig] raises inside [grab_plot] (agent.py:96, called at
    line 121 outside any [try]) on the active figure, which is then still
    open in the process. *)
Theorem ask_only_savefig_escapes (q : string) (p : Proc) :
  (forall e, snd (call_llm (p_prompt p) q (p_llm p)) = PRaise e -> exc_is_Exception e = true) ->
  snd (call_llm (p_prompt p) q (p_llm p)) <> POk None ->
  (forall c e, snippet_outcome c = PRaise e -> exc_is_Exception e = true) ->
  match snd (ask q p) with
  | POk _ => True
  | PRaise e => exists f, last (plt_figs (w_plt (p_world (fst (ask q p))))) = Some f /\
                          print_png grab_opts f = PRaise e
  end.
Proof. apply ask_raises_savefig. Qed.

(** C16: a snippet that runs without raising and leaves open a figure
    that [savefig] cannot render: [ask] raises the renderer's exception
    (a [ValueError], an [Exception], which nothing in [ask] catches since
    [grab_plot] is called outside any [try]).  The model has been called,
    and the snippet's figures are still open in the process. *)
Theorem ask_savefig_error (q : string) (p : Proc) (llm1 : LlmState) (raw c : string)
    (ss : list Stmt) (f : Figure) (e : PyExc) :
  call_llm (p_prompt p) q (p_llm p) = (llm1, POk (Some raw)) ->
  extract_code raw = Some c -> str_truthy c = true ->
  py_compile c = POk ss -> first_raise ss = None ->
  last (plt_figs (plt_effect ss plt_init)) = Some f -> print_png grab_opts f = PRaise e ->
  snd (ask q p) = PRaise e /\ w_plt (p_world (fst (ask q p))) = plt_effect ss plt_init /\
  p_llm (fst (ask q p)) = llm1.
Proof.
  intros Hc Hx Ht Hs Hr Hl He. rewrite (ask_ran q p llm1 raw c Hc Hx Ht). cbv zeta.
  rewrite (snippet_outcome_ok c ss Hs Hr).
  destruct (run_code_plt_df c ss (closed (p_world p)) Hs) as [Hplt _].
  rewrite Hplt. change (w_plt (closed (p_world p))) with plt_init.
  rewrite (grab_plot_cons _ f Hl), He. done.
Qed.

(** C2: when the service returns a choice whose content is [None],
    [extract_code(None)] raises [TypeError] outside any [try], and [ask]
    raises instead of answering. *)
Theorem ask_none_content_raises (q : string) (p : Proc) (llm1 : LlmState) :
  call_llm (p_prompt p) q (p_llm p) = (llm1, POk None) ->
  snd (ask q p) = PRaise (TypeError "expected string or bytes-like object, got 'NoneType'").
Proof. intros Hc. unfold ask. by rewrite Hc. Qed.

(** C3: an exception outside the [Exception] hierarchy raised by the
    snippet ([SystemExit] from [exit()], [KeyboardInterrupt]) escapes
    [ask]. *)
Theorem ask_base_exception_escapes (q : string) (p : Proc) (llm1 : LlmState) (raw c : string)
    (e : PyExc) :
  call_llm (p_prompt p) q (p_llm p) = (llm1, POk (Some raw)) ->
  extract_code raw = Some c -> str_truthy c = true ->
  snippet_outcome c = PRaise e -> exc_is_Exception e = false ->
  snd (ask q p) = PRaise e.
Proof. intros Hc Hx Ht Ho He. rewrite (ask_ran q p llm1 raw c Hc Hx Ht). by rewrite Ho, He. Qed.

(** C9: [ask] starts with [plt.close('all')]: figures left open by an
    earlier request (a failed snippet leaves its figures) change nothing
    in the result or the final state. *)
Theorem ask_ignores_leftover_figures (q : string) (p : Proc) (pl : PltState) :
  ask q (mkProc (with_plt pl (p_world p)) (p_llm p) (p_prompt p)) = ask q p.
Proof. reflexivity. Qed.

(** The streams after [ask]: untouched, or those [run_code] left. *)
Lemma ask_io_cases (q : string) (p : Proc) :
  w_io (p_world (fst (ask q p))) = w_io (p_world p) \/
  exists c, w_io (p_world (fst (ask q p))) = w_io (fst (run_code c (closed (p_world p)))).
Proof.
  destruct (call_llm (p_prompt p) q (p_llm p)) as [llm1 r] eqn:Hc.
  destruct r as [[raw|]|e];
    [| left; unfold ask; by rewrite Hc | left; unfold ask; rewrite Hc; by destruct (exc_is_Exception e)].
  destruct (extract_code raw) as [c|] eqn:Hx; [destruct (str_truthy c) eqn:Ht|];
    [| left; by rewrite (ask_raw q p llm1 raw Hc), Hx, Ht | left; by rewrite (ask_raw q p llm1 raw Hc), Hx].
  right. exists c. rewrite (ask_ran q p llm1 raw c Hc Hx Ht). cbv zeta.
  destruct (snippet_outcome c); [destruct (grab_plot _) | destruct (exc_is_Exception _)]; done.
Qed.

(** On every path of [ask], [sys.stdout] ends where it started and
    no stream that was open before the request receives output. *)
Theorem ask_restores_stdout (q : string) (p : Proc) :
  io_stdout (w_io (p_world (fst (ask q p)))) = io_stdout (w_io (p_world p)) /\
  forall h, h < io_next (w_io (p_world p)) ->
    io_streams (w_io (p_world (fst (ask q p)))) !! h = io_streams (w_io (p_world p)) !! h.
Proof.
  destruct (ask_io_cases q p) as [->|[c ->]]; [done|].
  exact (run_code_stdout c (closed (p_world p))).
Qed.

(** [ask] never reuses a stream id. *)
Lemma ask_io_next (q : string) (p : Proc) :
  io_next (w_io (p_world p)) <= io_next (w_io (p_world (fst (ask q p)))).
Proof.
  destruct (ask_io_cases q p) as [->|[c ->]]; [done|].
  rewrite (proj1 (run_code_io c (closed (p_world p)))). simpl. lia.
Qed.

(** C11: without a token [ask] answers with the [RuntimeError] of
    [call_llm], no request is sent (the model state is unchanged), and
    every figure is closed. *)
Theorem ask_missing_token (q : string) (p : Proc) :
  get_token (p_llm p) = "" ->
  ask q p = (mkProc (closed (p_world p)) (p_llm p) (p_prompt p),
             POk (mkAsk ("LLM call failed: RuntimeError: HUGGINGFACEHUB_API_TOKEN is not set. "
                         +:+ "Add it to your .env file or Streamlit secrets.") None)).
Proof. intros Ht. unfold ask, call_llm. by rewrite Ht. Qed.

(** C12: the shared frame after a request is the one the snippet left:
    an in-place mutation by generated code persists into every later
    request (and [SYSTEM_PROMPT] still describes the old frame). *)
Theorem ask_df_effect (q : string) (p : Proc) (llm1 : LlmState) (raw c : string)
    (ss : list Stmt) :
  call_llm (p_prompt p) q (p_llm p) = (llm1, POk (Some raw)) ->
  extract_code raw = Some c -> str_truthy c = true -> py_compile c = POk ss ->
  w_df (p_world (fst (ask q p))) = df_effect ss (w_df (p_world p)) /\
  p_prompt (fst (ask q p)) = p_prompt p.
Proof.
  intros Hc Hx Ht Hs. rewrite (ask_ran q p llm1 raw c Hc Hx Ht). cbv zeta.
  destruct (run_code_plt_df c ss (closed (p_world p)) Hs) as [_ Hdf].
  destruct (snippet_outcome c); [destruct (grab_plot _) | destruct (exc_is_Exception _)];
    exact (conj Hdf eq_refl).
Qed.

(** Any plot [ask] returns is [grab_plot]'s payload, so it decodes to the
    bytes of a PNG image. *)
Lemma ask_plot_png (q : string) (p : Proc) (r : AskResult) (img : string) :
  snd (ask q p) = POk r -> plot r = Some img ->
  exists body, b64decode img = POk (png_signature ++ body).
Proof.
  destruct (call_llm (p_prompt p) q (p_llm p)) as [llm1 [[raw|]|e]] eqn:Hc;
    [| unfold ask; rewrite Hc; done | unfold ask; rewrite Hc; destruct (exc_is_Exception e);
                                      [intros [= <-]; done | done]].
  destruct (extract_code raw) as [c|] eqn:Hx; [destruct (str_truthy c) eqn:Ht|];
    [| rewrite (ask_raw q p llm1 raw Hc), Hx, Ht; by intros [= <-]
     | rewrite (ask_raw q p llm1 raw Hc), Hx; by intros [= <-]].
  rewrite (ask_ran q p llm1 raw c Hc Hx Ht). cbv zeta.
  destruct (snippet_outcome c); [|destruct (exc_is_Exception _); [by intros [= <-] | done]].
  destruct (grab_plot (w_plt (fst (run_code c (closed (p_world p)))))) as [plt3 [o|e]] eqn:Hg; [|done].
  intros [= <-] Ho. simpl in Ho. subst o.
  destruct (grab_plot_decodes _ img ltac:(by rewrite Hg)) as (f & body & _ & _ & Hdec).
  by exists body.
Qed.

(** What one request preserves: the streams and the figure list stay well
    formed, the prompt is the one of the import, and the model is called
    at most once. *)
Lemma ask_preserves (q : string) (p : Proc) :
  wf_io (w_io (p_world p)) -> wf_plt (w_plt (p_world p)) = true ->
  wf_io (w_io (p_world (fst (ask q p)))) /\ wf_plt (w_plt (p_world (fst (ask q p)))) = true /\
  p_prompt (fst (ask q p)) = p_prompt p /\
  environ (p_llm (fst (ask q p))) = environ (p_llm p) /\
  exists extra, sent (p_llm (fst (ask q p))) = sent (p_llm p) ++ extra /\ List.length extra <= 1.
Proof.
  intros Hio _. destruct (call_llm_state (p_prompt p) q (p_llm p)) as [Henv Hsent].
  assert (Hw0 : wf_io (w_io (closed (p_world p))) /\ wf_plt (w_plt (closed (p_world p))) = true)
    by (split; [exact Hio | reflexivity]).
  unfold ask. fold (closed (p_world p)).
  destruct (call_llm (p_prompt p) q (p_llm p)) as [llm1 [[raw|]|e]]; simpl in Henv, Hsent;
    [| split_and!; by apply Hw0 || done
     | destruct (exc_is_Exception e); split_and!; by apply Hw0 || done].
  destruct (extract_code raw) as [c|]; [destruct (str_truthy c)|];
    [| split_and!; by apply Hw0 || done | split_and!; by apply Hw0 || done].
  pose proof (run_code_wf c _ (proj1 Hw0)) as Hio2.
  pose proof (run_code_wf_plt c _ (proj2 Hw0)) as Hplt2.
  destruct (run_code c (closed (p_world p))) as [w2 [out|e]]; simpl in Hio2, Hplt2.
  - pose proof (grab_plot_wf (w_plt w2) Hplt2) as Hg.
    destruct (grab_plot (w_plt w2)) as [plt3 [img|e]]; by split_and!.
  - destruct (exc_is_Exception e); by split_and!.
Qed.

End AskFacts.

Lemma ask_llm_error_witness :
  let svc := failing (mkExc "HfHubHTTPError" "503 Server Error: Service Unavailable" true) in
  @call_llm svc "prompt" "How many survived?" (mkLlm token_env []) =
    (llm_after "How many survived?",
     PRaise (mkExc "HfHubHTTPError" "503 Server Error: Service Unavailable" true)) /\
  snd (@ask svc (knowing "" []) sample_rasterizer "How many survived?" (proc0 token_env)) =
    POk (mkAsk "LLM call failed: HfHubHTTPError: 503 Server Error: Service Unavailable" None).
Proof.
  split; [reflexivity|].
  apply (ask_llm_error "How many survived?" (proc0 token_env) (llm_after "How many survived?")
           (mkExc "HfHubHTTPError" "503 Server Error: Service Unavailable" true)); reflexivity.
Defined.

(** An empty [```python] block is no code: the reply itself, fences and
    all, becomes the answer. *)
Lemma ask_no_code_witness :
  let svc := replying (Some "```python
```") in
  @call_llm svc "prompt" "Plot ages" (mkLlm token_env []) =
    (llm_after "Plot ages", POk (Some "```python
```")) /\
  extract_code "```python
```" = Some "" /\
  snd (@ask svc (knowing "" []) sample_rasterizer "Plot ages" (proc0 token_env)) =
    POk (mkAsk "```python
```" None).
Proof.
  split_and!; [reflexivity | reflexivity |].
  apply (ask_no_code "Plot ages" (proc0 token_env) (llm_after "Plot ages") "```python
```"); reflexivity.
Defined.

(** A snippet the compiler rejects. *)
Lemma ask_exec_error_witness :
  let svc := replying (Some reply42) in
  @call_llm svc "prompt" "q" (mkLlm token_env []) = (llm_after "q", POk (Some reply42)) /\
  extract_code reply42 = Some "print(42)" /\
  @snippet_outcome (knowing "" []) "print(42)" = PRaise (mkExc "SyntaxError" "invalid syntax" true) /\
  snd (@ask svc (knowing "" []) sample_rasterizer "q" (proc0 token_env)) =
    POk (mkAsk "Code execution error: SyntaxError: invalid syntax" None).
Proof.
  split_and!; [reflexivity | reflexivity | reflexivity |].
  apply (ask_exec_error "q" (proc0 token_env) (llm_after "q") reply42 "print(42)"
           (mkExc "SyntaxError" "invalid syntax" true)); reflexivity.
Defined.

Lemma ask_text_answer_witness :
  let svc := replying (Some reply42) in
  let comp := knowing "print(42)" [SPrint "42"] in
  @call_llm svc "prompt" "q" (mkLlm token_env []) = (llm_after "q", POk (Some reply42)) /\
  extract_code reply42 = Some "print(42)" /\
  @py_compile comp "print(42)" = POk [SPrint "42"] /\
  plt_figs (plt_effect [SPrint "42"] plt_init) = [] /\
  snd (@ask svc comp sample_rasterizer "q" (proc0 token_env)) = POk (mkAsk "42" None).
Proof.
  split_and!; [reflexivity | reflexivity | reflexivity | reflexivity |].
  apply (ask_text_answer "q" (proc0 token_env) (llm_after "q") reply42 "print(42)" [SPrint "42"]);
    reflexivity.
Defined.

Lemma ask_chart_answer_witness :
  let svc := replying (Some reply42) in
  let comp := knowing "print(42)" [SFigure; SDraw "bar"] in
  @call_llm svc "prompt" "q" (mkLlm token_env []) = (llm_after "q", POk (Some reply42)) /\
  plt_figs (plt_effect [SFigure; SDraw "bar"] plt_init) <> [] /\
  exists img body,
    snd (@ask svc comp sample_rasterizer "q" (proc0 token_env)) =
      POk (mkAsk "Here's the chart you asked for." (Some img)) /\
    b64decode img = POk (png_signature ++ body).
Proof.
  split_and!; [reflexivity | discriminate |].
  apply (ask_chart_answer "q" (proc0 token_env) (llm_after "q") reply42 "print(42)"
           [SFigure; SDraw "bar"]); (reflexivity || discriminate).
Defined.

(** A chart titled with an unbalanced [$]: [ask] raises the renderer's
    [ValueError], and the figure stays open. *)
Lemma ask_only_savefig_escapes_witness :
  let svc := replying (Some reply42) in
  let comp := knowing "print(42)" [SFigure; SDraw "title $x"] in
  (forall e, snd (@call_llm svc "prompt" "q" (mkLlm token_env [])) = PRaise e ->
             exc_is_Exception e = true) /\
  snd (@call_llm svc "prompt" "q" (mkLlm token_env [])) <> POk None /\
  (forall c e, @snippet_outcome comp c = PRaise e -> exc_is_Exception e = true) /\
  snd (@ask svc comp mathtext_rasterizer "q" (proc0 token_env)) =
    PRaise (ValueError "unbalanced mathtext delimiter") /\
  match snd (@ask svc comp mathtext_rasterizer "q" (proc0 token_env)) with
  | POk _ => True
  | PRaise e =>
      exists f, last (plt_figs (w_plt (p_world (fst (@ask svc comp mathtext_rasterizer "q" (proc0 token_env))))))
                  = Some f /\
                @print_png mathtext_rasterizer grab_opts f = PRaise e
  end.
Proof.
  assert (Hs : forall c e, @snippet_outcome (knowing "print(42)" [SFigure; SDraw "title $x"]) c = PRaise e ->
                           exc_is_Exception e = true).
  { intros c e. unfold snippet_outcome. simpl.
    destruct (String.eqb c "print(42)"); [discriminate | intros [= <-]; reflexivity]. }
  split_and!; [discriminate | discriminate | exact Hs | reflexivity |].
  apply (@ask_only_savefig_escapes (replying (Some reply42)) (knowing "print(42)" [SFigure; SDraw "title $x"])
           mathtext_rasterizer "q" (proc0 token_env)); [discriminate | discriminate | exact Hs].
Defined.

(** A choice with no content. *)
Lemma ask_none_content_raises_witness :
  @call_llm (replying None) "prompt" "q" (mkLlm token_env []) = (llm_after "q", POk None) /\
  snd (@ask (replying None) (knowing "" []) sample_rasterizer "q" (proc0 token_env)) =
    PRaise (TypeError "expected string or bytes-like object, got 'NoneType'").
Proof.
  split; [reflexivity|]. apply (ask_none_content_raises "q" (proc0 token_env) (llm_after "q")).
  reflexivity.
Defined.

(** [exit()] in the snippet. *)
Lemma ask_base_exception_escapes_witness :
  let svc := replying (Some reply42) in
  let comp := knowing "print(42)" [SRaise (SystemExit "")] in
  @snippet_outcome comp "print(42)" = PRaise (SystemExit "") /\
  exc_is_Exception (SystemExit "") = false /\
  snd (@ask svc comp sample_rasterizer "q" (proc0 token_env)) = PRaise (SystemExit "").
Proof.
  split_and!; [reflexivity | reflexivity |].
  apply (ask_base_exception_escapes "q" (proc0 token_env) (llm_after "q") reply42 "print(42)");
    reflexivity.
Defined.

Lemma ask_missing_token_witness :
  get_token (p_llm (proc0 ∅)) = "" /\
  @ask (replying (Some reply42)) (knowing "" []) sample_rasterizer "q" (proc0 ∅) =
    (mkProc (closed (p_world (proc0 ∅))) (p_llm (proc0 ∅)) (p_prompt (proc0 ∅)),
     POk (mkAsk ("LLM call failed: RuntimeError: HUGGINGFACEHUB_API_TOKEN is not set. "
                 +:+ "Add it to your .env file or Streamlit secrets.") None)).
Proof. split; [reflexivity | apply ask_missing_token; reflexivity]. Defined.

(** [df.drop(df.index, inplace=True)] empties the shared frame. *)
Lemma ask_df_effect_witness :
  let comp := knowing "print(42)" [SSetDf (mkFrame [("survived", "int64")] [])] in
  @py_compile comp "print(42)" = POk [SSetDf (mkFrame [("survived", "int64")] [])] /\
  w_df (p_world (fst (@ask (replying (Some reply42)) comp sample_rasterizer "q" (proc0 token_env))))
    = mkFrame [("survived", "int64")] [] /\
  p_prompt (fst (@ask (replying (Some reply42)) comp sample_rasterizer "q" (proc0 token_env)))
    = "prompt".
Proof.
  split; [reflexivity|].
  apply (ask_df_effect "q" (proc0 token_env) (llm_after "q") reply42 "print(42)"
           [SSetDf (mkFrame [("survived", "int64")] [])]); reflexivity.
Defined.

Lemma ask_savefig_error_witness :
  let svc := replying (Some reply42) in
  let comp := knowing "print(42)" [SFigure; SDraw "title $x"] in
  @call_llm svc "prompt" "q" (mkLlm token_env []) = (llm_after "q", POk (Some reply42)) /\
  last (plt_figs (plt_effect [SFigure; SDraw "title $x"] plt_init)) = Some (mkFigure 1 ["title $x"]) /\
  @print_png mathtext_rasterizer grab_opts (mkFigure 1 ["title $x"]) =
    PRaise (ValueError "unbalanced mathtext delimiter") /\
  snd (@ask svc comp mathtext_rasterizer "q" (proc0 token_env)) =
    PRaise (ValueError "unbalanced mathtext delimiter").
Proof.
  split_and!; [reflexivity | reflexivity | reflexivity |].
  apply (@ask_savefig_error (replying (Some reply42)) (knowing "print(42)" [SFigure; SDraw "title $x"])
           mathtext_rasterizer "q" (proc0 token_env) (llm_after "q") reply42 "print(42)"
           [SFigure; SDraw "title $x"] (mkFigure 1 ["title $x"])); reflexivity.
Defined.
