(* ===== verification/AskThreads.v ===== *)
(** * Concurrent requests: [ask] in threads

    The thread pool of main.py (see [Concurrent]) runs whole calls of
    [ask] (agent.py:103-131) side by side.  A thread running [ask] is an
    [AskPc], and one step of it changes the shared process ([Proc]):
    - [plt.close('all')];
    - the model call;
    - [extract_code];
    - the steps of [run_code] ([Concurrent.rc_step]);
    - the [except] clause or the move on to the chart;
    - [grab_plot].
    The figures, [sys.stdout], the streams, the frame and the model
    client are shared by all threads.  The prompt is read-only. *)

From stdpp Require Import base strings list gmap.
From Stdlib Require Import String Ascii Lia.
From S2P Require Import Prelude PyStr Extract Base64 Plot Dataset Executor Concurrent Model Agent.

(** Where a thread is in [ask]. *)
Inductive AskPc :=
| AStart (q : string)                 (** called with the question *)
| ACall (q : string)                  (** figures closed, before [call_llm] *)
| AExtract (raw : string)             (** the model's text, before [extract_code] *)
| ARun (rc : RcPc)                    (** inside [run_code] *)
| AGrab (output : string)             (** [run_code] returned, before [grab_plot] *)
| ADone (r : PyResult AskResult).     (** returned or raised *)

Definition with_world (w : World) (p : Proc) : Proc := mkProc w (p_llm p) (p_prompt p).

Section AskSteps.
Context {svc : ChatService} {comp : PyCompiler} {rast : Rasterizer}.

(** One atomic step of a thread running [ask]. *)
Definition ask_thread_step (pc : AskPc) (p : Proc) : option (AskPc * Proc) :=
  match pc with
  | AStart q => Some (ACall q, with_world (with_plt (plt_close_all (w_plt (p_world p))) (p_world p)) p)
  | ACall q =>
      let '(llm1, r) := call_llm (p_prompt p) q (p_llm p) in
      let p1 := mkProc (p_world p) llm1 (p_prompt p) in
      match r with
      | PRaise e =>
          Some (ADone (if exc_is_Exception e then POk (mkAsk (llm_failed e) None) else PRaise e), p1)
      | POk None => Some (ADone (PRaise findall_none_error), p1)
      | POk (Some raw) => Some (AExtract raw, p1)
      end
  | AExtract raw =>
      let no_code := ADone (POk (mkAsk (if str_truthy (strip raw) then strip raw else no_response_msg) None)) in
      match extract_code raw with
      | Some c => if str_truthy c then Some (ARun (RcStart c), p) else Some (no_code, p)
      | None => Some (no_code, p)
      end
  | ARun (RcDone (POk output)) => Some (AGrab output, p)
  | ARun (RcDone (PRaise e)) =>
      Some (ADone (if exc_is_Exception e then POk (mkAsk (exec_failed e) None) else PRaise e), p)
  | ARun rc =>
      match rc_step rc (p_world p) with
      | Some (rc', w') => Some (ARun rc', with_world w' p)
      | None => None
      end
  | AGrab output =>
      let '(plt3, r) := grab_plot (w_plt (p_world p)) in
      Some (ADone (img <- r ;; POk (mkAsk (choose_answer output img) img))%py,
            with_world (with_plt plt3 (p_world p)) p)
  | ADone _ => None
  end.

(** Thread A is preempted after its snippet has run its statements
    (six steps: [plt.close('all')], the model call, [extract_code], the
    redirection, the compilation, one statement).  Thread B then runs
    its first step, its own [plt.close('all')], and A finishes (five
    steps: the end of the statements, the [finally], the return, the
    move on to the chart, [grab_plot]). *)
Definition chart_race : list nat := repeat 0 6 ++ [1] ++ repeat 0 5.

End AskSteps.

(** ** Theorems *)

(** Runs the steps of an [ask] thread whose model call, extraction and
    compilation are given by the hypotheses, up to the capture read. *)
Ltac ask_run Hc Hx Ht Hs :=
  cbn -[call_llm extract_code str_truthy py_compile]; rewrite Hc;
  cbn -[call_llm extract_code str_truthy py_compile]; rewrite Hx, Ht;
  cbn -[call_llm extract_code str_truthy py_compile]; rewrite Hs;
  cbn -[call_llm extract_code str_truthy py_compile print_png b64encode];
  unfold getvalue; cbn [io_streams set_stdout]; rewrite ?lookup_insert_eq; try reflexivity.

Section AskFacts.
Context {svc : ChatService} {comp : PyCompiler} {rast : Rasterizer}.

Lemma with_world_id (p : Proc) : with_world (p_world p) p = p.
Proof. by destruct p. Qed.

(** The steps of [run_code] are steps of the [ask] thread. *)
Lemma ask_steps_run (rc : RcPc) (r : PyResult string) (w' : World) (p : Proc) :
  steps rc_step (rc, p_world p) (RcDone r, w') ->
  steps ask_thread_step (ARun rc, p) (ARun (RcDone r), with_world w' p).
Proof.
  remember (rc, p_world p) as c eqn:Ec. remember (RcDone r, w') as c' eqn:Ec'.
  intros Hs. revert rc p Ec. induction Hs as [c|pc pc' s s' c E _ IH]; intros rc p Ec; subst.
  - injection Ec as <- ->. rewrite with_world_id. constructor.
  - injection Ec as -> ->.
    apply (steps_step _ _ (ARun pc') _ (with_world s' p)); [|by apply (IH eq_refl pc' (with_world s' p))].
    destruct rc; try done; cbn [ask_thread_step]; by rewrite E.
Qed.

(** [run_code] run to its end by its thread. *)
Lemma rc_steps_run_code (code : string) (w : World) :
  steps rc_step (RcStart code, w) (RcDone (snd (run_code code w)), fst (run_code code w)).
Proof. rewrite <- rc_iter_run_code. apply iter_steps. Qed.

(** One thread alone reaches the result and the process of [ask]. *)
Lemma ask_steps_alone (q : string) (p : Proc) :
  steps ask_thread_step (AStart q, p) (ADone (snd (ask q p)), fst (ask q p)).
Proof.
  set (p0 := with_world (closed (p_world p)) p).
  apply (steps_step _ _ (ACall q) _ p0); [reflexivity|].
  unfold ask. fold (closed (p_world p)).
  destruct (call_llm (p_prompt p) q (p_llm p)) as [llm1 r] eqn:Hc.
  set (p1 := mkProc (closed (p_world p)) llm1 (p_prompt p)).
  destruct r as [[raw|]|e].
  - apply (steps_step _ _ (AExtract raw) _ p1); [cbn; by rewrite Hc|].
    destruct (extract_code raw) as [c|] eqn:Hx; [destruct (str_truthy c) eqn:Ht|].
    + apply (steps_step _ _ (ARun (RcStart c)) _ p1); [cbn; by rewrite Hx, Ht|].
      eapply steps_trans;
        [apply (ask_steps_run _ (snd (run_code c (closed (p_world p)))) (fst (run_code c (closed (p_world p)))) p1),
               rc_steps_run_code|].
      destruct (run_code c (closed (p_world p))) as [w2 [out|e]]; cbn [fst snd].
      * apply (steps_step _ _ (AGrab out) _ (with_world w2 p1)); [reflexivity|].
        destruct (grab_plot (w_plt w2)) as [plt3 img] eqn:Hg.
        eapply steps_step; [cbn [ask_thread_step with_world p_world]; by rewrite Hg|].
        constructor.
      * eapply steps_step; [reflexivity|].
        destruct (exc_is_Exception e); constructor.
    + eapply steps_step; [cbn; by rewrite Hx, Ht|]. constructor.
    + eapply steps_step; [cbn; by rewrite Hx|]. constructor.
  - eapply steps_step; [cbn; by rewrite Hc|]. constructor.
  - eapply steps_step; [cbn; by rewrite Hc|]. destruct (exc_is_Exception e); constructor.
Qed.

(** A thread running [ask] alone, as atomic steps on the shared
    process, terminates: with enough steps it has returned, and from then
    on it is stopped at exactly the value and the process of the
    sequential [ask].  The thread steps refine [ask]. *)
Theorem ask_alone_terminates (q : string) (p : Proc) :
  exists n, forall m, n <= m -> iter ask_thread_step m (AStart q) p = (ADone (snd (ask q p)), fst (ask q p)).
Proof. exact (steps_iter ask_thread_step _ _ (ask_steps_alone q p) eq_refl). Qed.

(** C20: two requests whose first snippet only opens a figure, which
    [savefig] can render.  Thread A alone answers with its chart; under
    [chart_race], the
    [plt.close('all')] with which thread B starts closes A's figure before
    A grabs it, and A answers that there was no output, with no chart. *)
Theorem ask_chart_race (qa qb : string) (p : Proc) (llm1 : LlmState) (raw c : string) :
  call_llm (p_prompt p) qa (p_llm p) = (llm1, POk (Some raw)) ->
  extract_code raw = Some c -> str_truthy c = true -> py_compile c = POk [SFigure] ->
  is_ok (print_png grab_opts (mkFigure 1 [])) = true ->
  (exists img, fst (run_sched ask_thread_step (repeat 0 (List.length chart_race)) [AStart qa; AStart qb] p) !! 0 =
                 Some (ADone (POk (mkAsk chart_msg (Some img))))) /\
  fst (run_sched ask_thread_step chart_race [AStart qa; AStart qb] p) !! 0 =
    Some (ADone (POk (mkAsk no_output_msg None))).
Proof.
  intros Hc Hx Ht Hs Hr. unfold chart_race. split.
  - rewrite (run_sched_alone _ 0 _ _ (AStart qa)) by done.
    ask_run Hc Hx Ht Hs. change (next_num (plt_close_all (w_plt (p_world p)))) with 1.
    destruct (print_png grab_opts (mkFigure 1 [])) as [bs|e] eqn:Hp; [|done].
    eexists. do 3 f_equal. unfold choose_answer. cbn.
    by rewrite b64encode_truthy by apply (print_png_nonempty _ _ _ Hp).
  - rewrite run_sched_app, (run_sched_alone _ 0 6 _ (AStart qa)) by done.
    ask_run Hc Hx Ht Hs.
Qed.

End AskFacts.

Lemma ask_chart_race_witness :
  let svc := replying (Some reply42) in
  let comp := knowing "print(42)" [SFigure] in
  @call_llm svc "prompt" "qa" (mkLlm token_env []) = (llm_after "qa", POk (Some reply42)) /\
  extract_code reply42 = Some "print(42)" /\
  fst (@run_sched _ _ (@ask_thread_step svc comp sample_rasterizer) chart_race
         [AStart "qa"; AStart "qb"] (proc0 token_env)) !! 0 =
    Some (ADone (POk (mkAsk no_output_msg None))).
Proof.
  split_and!; [reflexivity | reflexivity |].
  exact (proj2 (@ask_chart_race (replying (Some reply42)) (knowing "print(42)" [SFigure]) sample_rasterizer
    "qa" "qb" (proc0 token_env) (llm_after "qa") reply42 "print(42)" eq_refl eq_refl eq_refl eq_refl eq_refl)).
Defined.
