(* ===== verification/Startup.v ===== *)
(** * Start-up: the import of agent.py and the entry points

    [import agent] (main.py:8, app.py:37 in Local mode,
    streamlit_app.py:8) runs agent.py:13-40 once:
    - [load_dotenv()];
    - the [plt.show] patch, which changes no state of the model (see
      [Plot.plt_show]);
    - the frame, with its CSV fallback;
    - [SYSTEM_PROMPT], built from that frame.
    The process starts with the console as [sys.stdout] and no figure.
    An exception of the frame loaders aborts the import, and with it the
    entry point.  The entry points differ in the environment the import
    sees: main.py and streamlit_app.py load the [.env] file first
    ([server_start], [streamlit_start]), and app.py also copies the token
    from its secrets ([app_local_start]). *)

From stdpp Require Import base strings list gmap.
From Stdlib Require Import String Ascii Lia.
From S2P Require Import Prelude PyStr Extract Base64 Plot Dataset Executor Model Config Agent.

(** A fresh process: the console is stream 0, no figure is open. *)
Definition fresh_world (df : DataFrame) : World := mkWorld (mkIo 0 {[0 := ""]} 1) plt_init df.

Section AgentImport.
Context {fmt : FrameFormat} {src : DataSources}.

(** agent.py:13-40 with the environment [env] of the importing process. *)
Definition agent_import (b : list (string * option string)) (env : gmap string string) : PyResult Proc :=
  let env1 := load_dotenv b env in
  match load_df with
  | POk df => POk (mkProc (fresh_world df) (mkLlm env1 []) (SYSTEM_PROMPT df))
  | PRaise e => PRaise e
  end.

(** main.py:4-8: [load_dotenv()], then [from agent import ask]. *)
Definition server_start (b : list (string * option string)) (env : gmap string string) : PyResult Proc :=
  agent_import b (load_dotenv b env).

(** streamlit_app.py:4-8: [load_dotenv()], then [from agent import ask]. *)
Definition streamlit_start (b : list (string * option string)) (env : gmap string string) : PyResult Proc :=
  agent_import b (load_dotenv b env).

(** app.py:6-14 and 37 in Local mode: the agent is imported after the
    secrets are copied. *)
Definition app_local_start (b : list (string * option string)) (env : gmap string string)
    (sec : option (gmap string TomlVal)) : PyResult Proc :=
  agent_import b (app_env env b sec).

End AgentImport.

(** ** Theorems *)

Lemma fresh_world_wf (df : DataFrame) :
  wf_io (w_io (fresh_world df)) /\ wf_plt (w_plt (fresh_world df)) = true.
Proof.
  split; [split|done].
  - simpl. rewrite lookup_singleton_eq. by eexists.
  - intros h [v Hv]. simpl in *. destruct (decide (h = 0)) as [->|Hh]; [lia|].
    by rewrite lookup_singleton_ne in Hv.
Qed.

Section ImportFacts.
Context {fmt : FrameFormat} {src : DataSources}.

(** C40: the import either gives a well-formed process (console as
    [sys.stdout], no figure, nothing sent) whose prompt describes the frame
    it loaded and whose environment has the [.env] file loaded, or fails
    with the exception of the loaders: seaborn's, when it is not an
    [Exception], or the CSV reader's after seaborn raised an
    [Exception]. *)
Theorem agent_import_spec (b : list (string * option string)) (env : gmap string string) :
  match agent_import b env with
  | POk p =>
      wf_io (w_io (p_world p)) /\ wf_plt (w_plt (p_world p)) = true /\
      load_df = POk (w_df (p_world p)) /\ p_prompt p = SYSTEM_PROMPT (w_df (p_world p)) /\
      environ (p_llm p) = load_dotenv b env /\ sent (p_llm p) = []
  | PRaise e =>
      (sns_load_dataset "titanic" = PRaise e /\ exc_is_Exception e = false) \/
      (exists e0, sns_load_dataset "titanic" = PRaise e0 /\ exc_is_Exception e0 = true /\
                  pd_read_csv "titanic.csv" = PRaise e)
  end.
Proof.
  unfold agent_import, load_df.
  destruct (sns_load_dataset "titanic") as [d|e0] eqn:Es.
  - by destruct (fresh_world_wf d).
  - destruct (exc_is_Exception e0) eqn:Ee; [|by left].
    destruct (pd_read_csv "titanic.csv") as [d|e] eqn:Ec.
    + by destruct (fresh_world_wf d).
    + right. by exists e0.
Qed.

End ImportFacts.
