(* ===== verification/JsonText.v ===== *)
(** * JSON on the wire: Starlette's rendering and [resp.json()]

    main.py returns a [dict]; Starlette's [JSONResponse] renders it with
    [json.dumps(content, ensure_ascii=False, allow_nan=False, indent=None,
    separators=(",", ":"))].  app.py reads it back with [resp.json()],
    that is [json.loads] (app.py:48).  Both are modelled on text as code
    points: the UTF-8 encoding and decoding around the socket cancel out.

    [dumps] follows [json.encoder]:
    - [encode_basestring] escapes [\], the double quote, [\b], [\f],
      [\n], [\r], [\t], and every other control character as [\u00xx]
      with lowercase hex digits;
    - [_iterencode_dict] writes [{], the members separated by [,], and
      [}], each member as key [:] value.
    [loads] follows [json.decoder] and [json.scanner] (the C scanner of
    CPython): whitespace is space, tab, newline and carriage return.
    [scanstring] is strict, so a raw control character is an error.
    [JSONObject] builds a [dict], so a repeated key keeps its first
    position and takes its last value.  Extra data after the value is an
    error.  JSON that is valid but is not a value of [Json] (numbers,
    booleans, arrays, [\u] escapes above 255) has no parse in the
    model; the program never sends it. *)

From stdpp Require Import base strings list.
From Stdlib Require Import String Ascii Lia.
From S2P Require Import Prelude PyStr Extract.

(** JSON values as the two ends exchange them. *)
Inductive Json :=
| JNull
| JStr (s : string)
| JObj (fields : list (string * Json)).

(** [d.get(k)] on an object. *)
Fixpoint json_field (k : string) (fields : list (string * Json)) : option Json :=
  match fields with
  | [] => None
  | (k', v) :: rest => if String.eqb k k' then Some v else json_field k rest
  end.

(** The arguments of [json.dumps] that differ between the two ends:
    [ensure_ascii], and whether the item and key separators are followed
    by a space ([", "] and [": "] are the defaults of [json.dumps], which
    requests uses; Starlette passes [(",", ":")]). *)
Record JsonStyle := mkStyle {
  ensure_ascii : bool;
  space_after_comma : bool;
  space_after_colon : bool
}.

(** Starlette's [JSONResponse.render] (main.py:28). *)
Definition starlette_style : JsonStyle := mkStyle false false false.

(** [requests.post(..., json=...)] (app.py:42-46). *)
Definition requests_style : JsonStyle := mkStyle true true true.

(** ** Characters *)

Definition dq : ascii := ascii_of_nat 34.
Definition bslash : ascii := ascii_of_nat 92.

(** [\c] *)
Definition esc (c : ascii) : string := String bslash (String c EmptyString).

Definition hex_digit (n : nat) : ascii :=
  if n <? 10 then ascii_of_nat (48 + n) else ascii_of_nat (87 + n).

(** The value of a hexadecimal digit, either case. *)
Definition hex_value (c : ascii) : option nat :=
  let n := nat_of_ascii c in
  if (48 <=? n) && (n <=? 57) then Some (n - 48)
  else if (97 <=? n) && (n <=? 102) then Some (n - 87)
  else if (65 <=? n) && (n <=? 70) then Some (n - 55)
  else None.

Definition hex4 (h1 h2 h3 h4 : ascii) : option nat :=
  match hex_value h1, hex_value h2, hex_value h3, hex_value h4 with
  | Some a, Some b, Some c, Some d => Some (((a * 16 + b) * 16 + c) * 16 + d)
  | _, _, _, _ => None
  end.

(** [ESCAPE_DCT] of [json.encoder]; with [ensure_ascii] every character
    outside [' '..'~'] is written [\u00xx] as well. *)
Definition escape_char (st : JsonStyle) (c : ascii) : string :=
  let n := nat_of_ascii c in
  let u := String bslash ("u00" +:+ String (hex_digit (n / 16)) (String (hex_digit (n mod 16)) EmptyString)) in
  if n =? 34 then esc c
  else if n =? 92 then esc c
  else if n =? 8 then esc "b"
  else if n =? 12 then esc "f"
  else if n =? 10 then esc "n"
  else if n =? 13 then esc "r"
  else if n =? 9 then esc "t"
  else if n <? 32 then u
  else if ensure_ascii st && (127 <=? n) then u
  else String c EmptyString.

Fixpoint escape (st : JsonStyle) (s : string) : string :=
  match s with
  | EmptyString => EmptyString
  | String c s' => escape_char st c +:+ escape st s'
  end.

(** [encode_basestring(s)] or [encode_basestring_ascii(s)]: the quoted
    string. *)
Definition quote (st : JsonStyle) (s : string) : string :=
  String dq (escape st s +:+ String dq EmptyString).

Definition item_separator (st : JsonStyle) : string := if space_after_comma st then ", " else ",".
Definition key_separator (st : JsonStyle) : string := if space_after_colon st then ": " else ":".

(** ** Rendering *)

(** [json.dumps(j)] in style [st]. *)
Fixpoint dumps (st : JsonStyle) (j : Json) : string :=
  match j with
  | JNull => "null"
  | JStr s => quote st s
  | JObj fs =>
      String "{" ((fix members (first : bool) (fs : list (string * Json)) : string :=
         match fs with
         | [] => "}"
         | (k, v) :: rest =>
             (if first then "" else item_separator st) +:+ quote st k +:+ key_separator st +:+
               dumps st v +:+ members false rest
         end) true fs)
  end.

(** The members of an object after its [{]. *)
Fixpoint dumps_members (st : JsonStyle) (first : bool) (fs : list (string * Json)) : string :=
  match fs with
  | [] => "}"
  | (k, v) :: rest =>
      (if first then "" else item_separator st) +:+ quote st k +:+ key_separator st +:+
        dumps st v +:+ dumps_members st false rest
  end.

(** ** Parsing *)

Definition is_json_ws (c : ascii) : bool :=
  let n := nat_of_ascii c in (n =? 32) || (n =? 9) || (n =? 10) || (n =? 13).

Fixpoint skip_ws (s : string) : string :=
  match s with
  | EmptyString => EmptyString
  | String c s' => if is_json_ws c then skip_ws s' else s
  end.

(** The one-character escapes of [scanstring] ([BACKSLASH]). *)
Definition simple_escape (e : ascii) : option ascii :=
  let n := nat_of_ascii e in
  if n =? 34 then Some e
  else if n =? 92 then Some e
  else if n =? 47 then Some e
  else if n =? 98 then Some (ascii_of_nat 8)
  else if n =? 102 then Some (ascii_of_nat 12)
  else if n =? 110 then Some (ascii_of_nat 10)
  else if n =? 114 then Some (ascii_of_nat 13)
  else if n =? 116 then Some (ascii_of_nat 9)
  else None.

Definition cons_fst (c : ascii) (r : option (string * string)) : option (string * string) :=
  match r with Some (s, rest) => Some (String c s, rest) | None => None end.

(** [scanstring] after the opening quote: the content and what follows
    the closing quote. *)
Fixpoint scan_string (s : string) : option (string * string) :=
  match s with
  | EmptyString => None
  | String c s' =>
      let n := nat_of_ascii c in
      if n =? 34 then Some (EmptyString, s')
      else if n =? 92 then
        match s' with
        | EmptyString => None
        | String e rest =>
            if Ascii.eqb e "u" then
              match rest with
              | String h1 (String h2 (String h3 (String h4 rest'))) =>
                  match hex4 h1 h2 h3 h4 with
                  | Some v => if v <? 256 then cons_fst (ascii_of_nat v) (scan_string rest') else None
                  | None => None
                  end
              | _ => None
              end
            else
              match simple_escape e with
              | Some c' => cons_fst c' (scan_string rest)
              | None => None
              end
        end
      else if n <? 32 then None
      else cons_fst c (scan_string s')
  end.

(** [d[k] = v] on the [dict] being built. *)
Fixpoint obj_insert (k : string) (v : Json) (fs : list (string * Json)) : list (string * Json) :=
  match fs with
  | [] => [(k, v)]
  | (k', v') :: rest => if String.eqb k k' then (k', v) :: rest else (k', v') :: obj_insert k v rest
  end.

(** [scan_once] and [JSONObject], with fuel: each round reads at least
    one character. *)
Fixpoint parse_value (fuel : nat) (s : string) : option (Json * string) :=
  match fuel with
  | 0 => None
  | S f =>
      match s with
      | EmptyString => None
      | String c s' =>
          if Ascii.eqb c dq then
            match scan_string s' with Some (r, rest) => Some (JStr r, rest) | None => None end
          else if Ascii.eqb c "{" then
            match skip_ws s' with
            | String c' s'' =>
                if Ascii.eqb c' "}" then Some (JObj [], s'')
                else if Ascii.eqb c' dq then parse_members f [] s''
                else None
            | EmptyString => None
            end
          else if String.prefix "null" s then Some (JNull, str_drop 4 s)
          else None
      end
  end
with parse_members (fuel : nat) (acc : list (string * Json)) (s : string) : option (Json * string) :=
  match fuel with
  | 0 => None
  | S f =>
      match scan_string s with
      | None => None
      | Some (k, r1) =>
          match skip_ws r1 with
          | String c r2 =>
              if Ascii.eqb c ":" then
                match parse_value f (skip_ws r2) with
                | None => None
                | Some (v, r3) =>
                    match skip_ws r3 with
                    | String c' r4 =>
                        if Ascii.eqb c' "}" then Some (JObj (obj_insert k v acc), r4)
                        else if Ascii.eqb c' "," then
                          match skip_ws r4 with
                          | String c'' r5 =>
                              if Ascii.eqb c'' dq then parse_members f (obj_insert k v acc) r5 else None
                          | EmptyString => None
                          end
                        else None
                    | EmptyString => None
                    end
                end
              else None
          | EmptyString => None
          end
      end
  end.

(** [json.loads(s)]: one value between optional whitespace. *)
Definition loads (s : string) : option Json :=
  match parse_value (S (String.length s)) (skip_ws s) with
  | Some (j, rest) => if String.eqb (skip_ws rest) "" then Some j else None
  | None => None
  end.

(** ** Well-formed values: the keys of every object are distinct *)

Fixpoint keys_distinct (ks : list string) : bool :=
  match ks with
  | [] => true
  | k :: ks' => negb (existsb (String.eqb k) ks') && keys_distinct ks'
  end.

Fixpoint json_wf (j : Json) : bool :=
  match j with
  | JObj fs => keys_distinct (map fst fs) && forallb (fun kv => json_wf kv.2) fs
  | _ => true
  end.

(** An answer with a quote, a line break, a control character and a
    non-ASCII character. *)
Definition tricky_answer : Json :=
  JObj [("answer", JStr (String dq ("a" +:+ String (ascii_of_nat 10)
                          (String (ascii_of_nat 1) (String (ascii_of_nat 233) EmptyString)))));
        ("plot", JNull)].

(** [j] parses back from its text in style [st], followed by anything. *)
Definition parses (st : JsonStyle) (j : Json) : Prop :=
  json_wf j = true ->
  forall f t, String.length (dumps st j) <= f -> parse_value f (dumps st j +:+ t) = Some (j, t).

(** ** Lemmas *)

(** Induction on [Json] with the hypothesis for every field of an object
    (the nested principle [Json_ind] does not give). *)
Definition Json_ind' (P : Json -> Prop) (Pnull : P JNull) (Pstr : forall s, P (JStr s))
    (Pobj : forall fs, Forall (fun kv => P kv.2) fs -> P (JObj fs)) : forall j, P j :=
  fix F (j : Json) : P j :=
    match j with
    | JNull => Pnull
    | JStr s => Pstr s
    | JObj fs =>
        Pobj fs ((fix G (fs : list (string * Json)) : Forall (fun kv => P kv.2) fs :=
                    match fs with
                    | [] => Forall_nil_2 _
                    | kv :: fs' => Forall_cons_2 _ kv fs' (F kv.2) (G fs')
                    end) fs)
    end.

Lemma dumps_obj (st : JsonStyle) (fs : list (string * Json)) :
  dumps st (JObj fs) = String "{" (dumps_members st true fs).
Proof.
  cbn [dumps]. f_equal.
  assert (H : forall first,
    (fix members (first : bool) (fs : list (string * Json)) : string :=
       match fs with
       | [] => "}"
       | (k, v) :: rest =>
           (if first then "" else item_separator st) +:+ quote st k +:+ key_separator st +:+
             dumps st v +:+ members false rest
       end) first fs = dumps_members st first fs).
  { induction fs as [|[k v] fs IH]; intros first; [done|]. cbn [dumps_members]. by rewrite IH. }
  apply H.
Qed.

(** Each escaped character scans back to itself: checked on the 256
    characters, in both modes of [ensure_ascii]. *)
Lemma scan_escape_char (st : JsonStyle) (c : ascii) (t : string) :
  scan_string (escape_char st c +:+ t) = cons_fst c (scan_string t).
Proof. destruct st as [[] ? ?]; destruct c as [[] [] [] [] [] [] [] []]; reflexivity. Qed.

Lemma scan_quote (st : JsonStyle) (s t : string) :
  scan_string (escape st s +:+ String dq t) = Some (s, t).
Proof.
  induction s as [|c s IH]; [reflexivity|].
  cbn [escape]. rewrite <- append_assoc, scan_escape_char, IH. reflexivity.
Qed.

(** The delimiters are not whitespace. *)
Lemma skip_ws_String (c : ascii) (s : string) :
  is_json_ws c = false -> skip_ws (String c s) = String c s.
Proof. simpl. by intros ->. Qed.

Lemma ws_dq : is_json_ws dq = false.
Proof. reflexivity. Qed.

Create Rewrite HintDb json.
#[export] Hint Rewrite skip_ws_String using (reflexivity || apply ws_dq) : json.

Lemma skip_ws_dumps (st : JsonStyle) (j : Json) (t : string) :
  skip_ws (dumps st j +:+ t) = dumps st j +:+ t.
Proof. destruct j; [reflexivity | reflexivity | by rewrite dumps_obj]. Qed.

(** The optional space of a separator is skipped. *)
Lemma skip_ws_space (b : bool) (c : ascii) (s : string) :
  is_json_ws c = false -> skip_ws ((if b then " " else "") +:+ String c s) = String c s.
Proof. intros Hc. destruct b; simpl; by rewrite Hc. Qed.

Lemma skip_ws_space_dumps (b : bool) (st : JsonStyle) (j : Json) (t : string) :
  skip_ws ((if b then " " else "") +:+ (dumps st j +:+ t)) = dumps st j +:+ t.
Proof. destruct b; [cbn [append skip_ws]; simpl is_json_ws; cbv iota|]; apply skip_ws_dumps. Qed.

Lemma key_separator_split (st : JsonStyle) (x : string) :
  key_separator st +:+ x = String ":" ((if space_after_colon st then " " else "") +:+ x).
Proof. unfold key_separator. by destruct (space_after_colon st). Qed.

Lemma item_separator_split (st : JsonStyle) (x : string) :
  item_separator st +:+ x = String "," ((if space_after_comma st then " " else "") +:+ x).
Proof. unfold item_separator. by destruct (space_after_comma st). Qed.

Lemma obj_insert_fresh (k : string) (v : Json) (acc : list (string * Json)) :
  existsb (String.eqb k) (map fst acc) = false -> obj_insert k v acc = acc ++ [(k, v)].
Proof.
  induction acc as [|[k' v'] acc IH]; [done|]. cbn [map existsb fst obj_insert].
  intros [Hk Hrest]%orb_false_iff. rewrite Hk, IH by done. done.
Qed.

Lemma keys_distinct_app (l1 l2 : list string) (k : string) :
  keys_distinct (l1 ++ k :: l2) = true -> existsb (String.eqb k) l1 = false.
Proof.
  induction l1 as [|k1 l1 IH]; [done|].
  cbn [app keys_distinct]. intros [Hn Hd]%andb_prop.
  cbn [existsb]. rewrite IH by done. rewrite orb_false_r.
  apply negb_true_iff in Hn. rewrite existsb_app in Hn. apply orb_false_iff in Hn as [_ Hn].
  cbn [existsb] in Hn. apply orb_false_iff in Hn as [Hn _].
  destruct (String.eqb_spec k k1), (String.eqb_spec k1 k); congruence.
Qed.

(** Lengths of concatenations, down to their atoms. *)
Ltac len_simp H :=
  repeat progress (cbn [String.length] in H; rewrite ?length_append, ?key_separator_split,
                     ?item_separator_split in H).

(** The members of an object, from the first key on, given that every
    value parses back. *)
Lemma parse_members_dumps (st : JsonStyle) (fs : list (string * Json)) :
  Forall (fun kv => parses st kv.2) fs ->
  forall acc k v f t,
  parses st v -> json_wf v = true -> forallb (fun kv => json_wf kv.2) fs = true ->
  keys_distinct (map fst acc ++ k :: map fst fs) = true ->
  String.length (dumps st v) + String.length (dumps_members st false fs) < f ->
  parse_members f acc
    (escape st k +:+ String dq (key_separator st +:+ (dumps st v +:+ (dumps_members st false fs +:+ t)))) =
    Some (JObj (acc ++ (k, v) :: fs), t).
Proof.
  induction fs as [|[k2 v2] fs IH]; intros Hall acc k v f t Hv Hwv Hwfs Hkeys Hlen;
    (destruct f as [|f]; [lia|]); cbn [parse_members]; rewrite scan_quote, key_separator_split;
    autorewrite with json; cbn [Ascii.eqb Bool.eqb andb];
    rewrite skip_ws_space_dumps, Hv by (done || lia);
    rewrite (obj_insert_fresh k v acc) by (by apply keys_distinct_app in Hkeys).
  - reflexivity.
  - apply Forall_cons in Hall as [Hv2 Hall]. cbn [forallb] in Hwfs. apply andb_prop in Hwfs as [Hwv2 Hwfs].
    cbn [dumps_members] in Hlen |- *. unfold quote. autorewrite with pystr.
    rewrite item_separator_split. autorewrite with json. cbn [Ascii.eqb Bool.eqb andb].
    rewrite skip_ws_space by apply ws_dq. rewrite Ascii.eqb_refl.
    replace (acc ++ (k, v) :: (k2, v2) :: fs) with ((acc ++ [(k, v)]) ++ (k2, v2) :: fs)
      by (by rewrite <- app_assoc).
    apply IH; try done.
    + by rewrite map_app, <- app_assoc.
    + unfold quote in Hlen. len_simp Hlen. lia.
Qed.

Lemma parse_dumps (st : JsonStyle) (j : Json) : parses st j.
Proof.
  induction j as [| s | fs IH] using Json_ind'; intros Hwf f t Hlen; (destruct f as [|f]; [simpl in Hlen; lia|]).
  - by destruct t.
  - cbn [dumps parse_value]. unfold quote. autorewrite with pystr. cbn [Ascii.eqb Bool.eqb andb dq].
    change (ascii_of_nat 34) with dq. by rewrite scan_quote.
  - rewrite dumps_obj in Hlen |- *. destruct fs as [|[k v] fs]; [reflexivity|].
    cbn [dumps_members] in Hlen |- *. unfold quote in Hlen |- *. autorewrite with pystr in Hlen |- *.
    cbn [json_wf map fst forallb] in Hwf. apply andb_prop in Hwf as [Hkeys Hwfs].
    apply andb_prop in Hwfs as [Hwv Hwfs]. apply Forall_cons in IH as [Hv IH].
    cbn [parse_value]. autorewrite with json. cbn [Ascii.eqb Bool.eqb andb].
    apply (parse_members_dumps st fs IH [] k v f t); try done. len_simp Hlen. lia.
Qed.

Lemma loads_dumps (st : JsonStyle) (j : Json) : json_wf j = true -> loads (dumps st j) = Some j.
Proof.
  intros Hwf. unfold loads.
  pose proof (skip_ws_dumps st j "") as Hs. rewrite append_nil_r in Hs. rewrite Hs.
  pose proof (parse_dumps st j Hwf (S (String.length (dumps st j))) "" ltac:(lia)) as Hp.
  rewrite append_nil_r in Hp. by rewrite Hp.
Qed.

(** ** Theorems *)

(** C37: what [json.loads] makes of the text [json.dumps] renders for a
    value is that value, in the style of Starlette (the responses of
    main.py) as in the style of requests (the questions of app.py), for
    every value whose objects have distinct keys: escapes, control and
    non-ASCII characters and nesting included. *)
Theorem json_roundtrip (st : JsonStyle) (j : Json) : json_wf j = true -> loads (dumps st j) = Some j.
Proof. apply loads_dumps. Qed.

Lemma json_roundtrip_witness :
  json_wf tricky_answer = true /\ loads (dumps requests_style tricky_answer) = Some tricky_answer.
Proof.
  assert (H : json_wf tricky_answer = true) by reflexivity.
  split; [exact H | exact (json_roundtrip requests_style tricky_answer H)].
Defined.
