(* ===== verification/Server.v ===== *)
(** * The HTTP service (main.py)

    FastAPI routes [POST /chat] to [ask(req.question)] and [GET /health]
    to a fixed payload ([route]).  A request body is text: [ChatRequest]
    validation parses it with [json.loads] ([JsonText.loads]) and needs
    an object whose [question] is a string; anything else is 422.  A
    known path with another method is 405, an unknown path 404.  An
    exception escaping [ask] propagates out of the router, and
    [ServerErrorMiddleware] turns it into a 500 ([server_error]).
    [handle] is the application as a client without an [Origin] header
    sees it; the CORS layer between the two is in [Cors].  Responses
    carry a [Json] value, which Starlette renders as text
    ([JsonText.dumps]).  The server holds the agent module's state
    ([Proc]) across requests and handles them one at a time ([serve]).
    The detail of a 422 body is abstracted, and the headers of a response
    are not modelled here. *)

From stdpp Require Import base strings list gmap.
From Stdlib Require Import String Ascii Lia.
From S2P Require Import Prelude PyStr Extract Base64 Plot Dataset Executor Model Agent JsonText.

Inductive Method := GET | POST | OPTIONS.

Record HttpRequest := mkHttpReq {
  req_method : Method;
  req_path : string;
  req_body : option string      (** the text of the body, if any *)
}.

Record HttpResponse := mkHttpResp {
  resp_status : nat;
  resp_json : Json
}.

(** [class ChatRequest(BaseModel): question: str]: the body is parsed
    with [json.loads] and must be an object whose [question] is a
    string. *)
Definition parse_chat_request (body : option string) : option string :=
  match body ≫= loads with
  | Some (JObj fs) =>
      match json_field "question" fs with
      | Some (JStr q) => Some q
      | _ => None
      end
  | _ => None
  end.

(** [str | None] as JSON. *)
Definition opt_json (o : option string) : Json :=
  match o with Some s => JStr s | None => JNull end.

(** The dictionary [ask] returns, as FastAPI serialises it. *)
Definition result_json (r : AskResult) : Json :=
  JObj [("answer", JStr (answer r)); ("plot", opt_json (plot r))].

(** main.py:31-33 *)
Definition health_payload : Json := JObj [("status", JStr "ok")].

Definition internal_error : HttpResponse := mkHttpResp 500 (JStr "Internal Server Error").

(** The question of a request that the router passes on to [chat]: a
    [POST /chat] whose body validates. *)
Definition chat_question (req : HttpRequest) : option string :=
  match req_method req with
  | POST => if String.eqb (req_path req) "/chat" then parse_chat_request (req_body req) else None
  | _ => None
  end.

Section Handle.
Context {svc : ChatService} {comp : PyCompiler} {rast : Rasterizer}.

(** main.py:25-28: [chat(req)] returns [ask(req.question)]; an exception
    of [ask] propagates out of the endpoint. *)
Definition chat (q : string) (p : Proc) : Proc * PyResult HttpResponse :=
  let '(p', r) := ask q p in
  match r with
  | POk res => (p', POk (mkHttpResp 200 (result_json res)))
  | PRaise e => (p', PRaise e)
  end.

(** The router of [app] (main.py:25-33): the two routes, validation of
    the [ChatRequest] body (422), a known path with another method (405),
    an unknown path (404). *)
Definition route (req : HttpRequest) (p : Proc) : Proc * PyResult HttpResponse :=
  let is_chat := String.eqb (req_path req) "/chat" in
  let is_health := String.eqb (req_path req) "/health" in
  match req_method req with
  | POST =>
      if is_chat then
        match parse_chat_request (req_body req) with
        | Some q => chat q p
        | None => (p, POk (mkHttpResp 422 (JObj [("detail", JStr "validation error")])))
        end
      else if is_health then (p, POk (mkHttpResp 405 (JObj [("detail", JStr "Method Not Allowed")])))
      else (p, POk (mkHttpResp 404 (JObj [("detail", JStr "Not Found")])))
  | GET =>
      if is_health then (p, POk (mkHttpResp 200 health_payload))
      else if is_chat then (p, POk (mkHttpResp 405 (JObj [("detail", JStr "Method Not Allowed")])))
      else (p, POk (mkHttpResp 404 (JObj [("detail", JStr "Not Found")])))
  | OPTIONS =>
      if is_chat || is_health then (p, POk (mkHttpResp 405 (JObj [("detail", JStr "Method Not Allowed")])))
      else (p, POk (mkHttpResp 404 (JObj [("detail", JStr "Not Found")])))
  end.

(** Starlette's [ServerErrorMiddleware], the outermost layer: an exception
    escaping the application becomes the plain 500 response. *)
Definition server_error (r : PyResult HttpResponse) : HttpResponse :=
  match r with
  | POk resp => resp
  | PRaise _ => internal_error
  end.

(** The application as a client that sends no [Origin] header sees it
    (the CORS layer is then transparent, [Cors.serve_http_no_origin]). *)
Definition handle (req : HttpRequest) (p : Proc) : Proc * HttpResponse :=
  let '(p', r) := route req p in (p', server_error r).

(** The process serving requests one after the other (one worker), as
    the spec requires: each response is computed on the state the
    previous request left. *)
Fixpoint serve (reqs : list HttpRequest) (p : Proc) : Proc * list HttpResponse :=
  match reqs with
  | [] => (p, [])
  | r :: rs =>
      let '(p1, resp) := handle r p in
      let '(p2, resps) := serve rs p1 in
      (p2, resp :: resps)
  end.

End Handle.

(** The response model of [POST /chat] in the spec:
    [{"answer": str, "plot": str | null}]. *)
Definition chat_response_typed (j : Json) : bool :=
  match j with
  | JObj [(ka, JStr _); (kp, JStr _)] | JObj [(ka, JStr _); (kp, JNull)] =>
      String.eqb ka "answer" && String.eqb kp "plot"
  | _ => false
  end.

(** [body.get("plot")] when it is a string. *)
Definition json_plot (j : Json) : option string :=
  match j with
  | JObj fs => match json_field "plot" fs with Some (JStr s) => Some s | _ => None end
  | _ => None
  end.

Section Routing.
Context {svc : ChatService} {comp : PyCompiler} {rast : Rasterizer}.

(** C33: only a [POST /chat] whose body validates as a [ChatRequest]
    reaches [chat] (and with it the model and the executor); every other
    request, [GET /health] included, leaves the agent state as it was and
    answers [GET /health] with 200 and its fixed payload. *)
Theorem handle_routes (req : HttpRequest) (p : Proc) :
  (exists q, req_method req = POST /\ req_path req = "/chat" /\
     parse_chat_request (req_body req) = Some q /\ route req p = chat q p) \/
  (fst (handle req p) = p /\
   (req_method req = GET -> req_path req = "/health" -> snd (handle req p) = mkHttpResp 200 health_payload)).
Proof.
  unfold handle, route. destruct (req_method req) eqn:Em.
  - right. split; [|intros _ ->; reflexivity].
    by destruct (String.eqb (req_path req) "/health"), (String.eqb (req_path req) "/chat").
  - destruct (String.eqb_spec (req_path req) "/chat") as [Ep|Ep];
      [destruct (parse_chat_request (req_body req)) as [q|] eqn:Eq|].
    + left. by exists q.
    + right. split; [done | discriminate].
    + right. split; [by destruct (String.eqb (req_path req) "/health") | discriminate].
  - right. split; [|discriminate].
    by destruct (String.eqb (req_path req) "/health"), (String.eqb (req_path req) "/chat").
Qed.

End Routing.

Section Serving.
Context {svc : ChatService} {comp : PyCompiler} {rast : Rasterizer}.

(** A request is one call of [ask] on its question when it has one, and
    leaves the state alone otherwise. *)
Lemma handle_state (req : HttpRequest) (p : Proc) :
  fst (handle req p) = match chat_question req with Some q => fst (ask q p) | None => p end.
Proof.
  unfold handle, route, chat_question. cbv zeta.
  destruct (req_method req), (String.eqb (req_path req) "/health"), (String.eqb (req_path req) "/chat");
    try reflexivity.
  all: destruct (parse_chat_request (req_body req)) as [q|]; [|reflexivity].
  all: unfold chat; by destruct (ask q p) as [? []].
Qed.

(** C36: every response main.py gives to [POST /chat] is a validation
    error (422), a server error (500), or a 200 whose body has the type of
    the spec, [{"answer": str, "plot": str | null}], with a plot that
    decodes to the bytes of a PNG image. *)
Theorem handle_chat_typed (req : HttpRequest) (p : Proc) :
  req_method req = POST -> req_path req = "/chat" ->
  (resp_status (snd (handle req p)) = 200 /\
   chat_response_typed (resp_json (snd (handle req p))) = true /\
   forall img, json_plot (resp_json (snd (handle req p))) = Some img ->
     exists body, b64decode img = POk (png_signature ++ body)) \/
  resp_status (snd (handle req p)) = 422 \/ resp_status (snd (handle req p)) = 500.
Proof.
  intros Hm Hp. unfold handle, route. cbv zeta. rewrite Hm, Hp. cbn [String.eqb Ascii.eqb Bool.eqb andb].
  destruct (parse_chat_request (req_body req)) as [q|]; [|by right; left].
  unfold chat. destruct (ask q p) as [p' [r|e]] eqn:Ha; [left | by right; right].
  split_and!; [done | by destruct r as [a [img|]] |].
  intros img Himg. apply (ask_plot_png q p r img); [by rewrite Ha|].
  destruct r as [a [s|]]; vm_compute in Himg; simpl; congruence.
Qed.

(** What a run of requests may do to the process: the streams and the
    figure list stay well formed, [sys.stdout] and every stream that was
    open before keep their value, stream ids are not reused, the prompt
    and the environment are fixed, and at most [n] model requests are
    added to the log. *)
Definition step_ok (p p' : Proc) (n : nat) : Prop :=
  wf_io (w_io (p_world p')) /\ wf_plt (w_plt (p_world p')) = true /\
  io_stdout (w_io (p_world p')) = io_stdout (w_io (p_world p)) /\
  (forall h, h < io_next (w_io (p_world p)) ->
     io_streams (w_io (p_world p')) !! h = io_streams (w_io (p_world p)) !! h) /\
  io_next (w_io (p_world p)) <= io_next (w_io (p_world p')) /\
  p_prompt p' = p_prompt p /\ environ (p_llm p') = environ (p_llm p) /\
  exists extra, sent (p_llm p') = sent (p_llm p) ++ extra /\ List.length extra <= n.

Lemma step_ok_refl (p : Proc) :
  wf_io (w_io (p_world p)) -> wf_plt (w_plt (p_world p)) = true -> step_ok p p 0.
Proof. intros Hio Hplt. split_and!; try done. exists []. by rewrite app_nil_r. Qed.

Lemma step_ok_trans (p1 p2 p3 : Proc) (n1 n2 : nat) :
  step_ok p1 p2 n1 -> step_ok p2 p3 n2 -> step_ok p1 p3 (n1 + n2).
Proof.
  intros (A1 & B1 & C1 & D1 & E1 & F1 & G1 & x1 & H1 & I1) (A2 & B2 & C2 & D2 & E2 & F2 & G2 & x2 & H2 & I2).
  split_and!; [done | done | congruence | | lia | congruence | congruence |].
  - intros h Hh. rewrite D2 by lia. by apply D1.
  - exists (x1 ++ x2). rewrite H2, H1, app_assoc, length_app. split; [done | lia].
Qed.

(** One request: [ask] once when the router passes a question on. *)
Lemma handle_step_ok (r : HttpRequest) (p : Proc) :
  wf_io (w_io (p_world p)) -> wf_plt (w_plt (p_world p)) = true ->
  step_ok p (fst (handle r p)) (List.length (omap chat_question [r])).
Proof.
  intros Hio Hplt. rewrite handle_state.
  assert (Hl : List.length (omap chat_question [r]) = match chat_question r with Some _ => 1 | None => 0 end)
    by (cbn; by destruct (chat_question r)).
  rewrite Hl. destruct (chat_question r) as [q|]; [|by apply step_ok_refl].
  destruct (ask_preserves q p Hio Hplt) as (H1 & H2 & H3 & H4 & H5).
  destruct (ask_restores_stdout q p) as [S1 S2].
  pose proof (ask_io_next q p). by split_and!.
Qed.

Lemma omap_cons_length {A B} (f : A -> option B) (x : A) (l : list A) :
  List.length (omap f (x :: l)) = List.length (omap f [x]) + List.length (omap f l).
Proof. cbn. by destruct (f x). Qed.

Lemma serve_step_ok (reqs : list HttpRequest) (p : Proc) :
  wf_io (w_io (p_world p)) -> wf_plt (w_plt (p_world p)) = true ->
  step_ok p (fst (serve reqs p)) (List.length (omap chat_question reqs)).
Proof.
  revert p. induction reqs as [|r rs IH]; intros p Hio Hplt; [by apply step_ok_refl|].
  rewrite omap_cons_length. cbn [serve].
  pose proof (handle_step_ok r p Hio Hplt) as Hr.
  destruct (handle r p) as [p1 resp]. cbn [fst] in Hr.
  pose proof (IH p1 (proj1 Hr) (proj1 (proj2 Hr))) as Hs.
  destruct (serve rs p1) as [p2 resps]. exact (step_ok_trans _ _ _ _ _ Hr Hs).
Qed.

(** C39: serving any sequence of requests one at a time keeps the
    streams and the figure list well formed; [sys.stdout] stays the
    stream it was and no stream open before receives any output (the
    console of the server never gets a snippet's prints, whatever
    snippets raise); stream ids are never reused; the prompt and the
    environment never change; and the model is called at most once per
    request that the router passes on to [chat] (a valid [POST /chat]),
    never for any other request. *)
Theorem serve_invariant (reqs : list HttpRequest) (p : Proc) :
  wf_io (w_io (p_world p)) -> wf_plt (w_plt (p_world p)) = true ->
  wf_io (w_io (p_world (fst (serve reqs p)))) /\ wf_plt (w_plt (p_world (fst (serve reqs p)))) = true /\
  io_stdout (w_io (p_world (fst (serve reqs p)))) = io_stdout (w_io (p_world p)) /\
  (forall h, h < io_next (w_io (p_world p)) ->
     io_streams (w_io (p_world (fst (serve reqs p)))) !! h = io_streams (w_io (p_world p)) !! h) /\
  io_next (w_io (p_world p)) <= io_next (w_io (p_world (fst (serve reqs p)))) /\
  p_prompt (fst (serve reqs p)) = p_prompt p /\
  environ (p_llm (fst (serve reqs p))) = environ (p_llm p) /\
  exists extra, sent (p_llm (fst (serve reqs p))) = sent (p_llm p) ++ extra /\
                List.length extra <= List.length (omap chat_question reqs).
Proof. apply serve_step_ok. Qed.

End Serving.

Lemma handle_chat_typed_witness :
  req_method (mkHttpReq POST "/chat" (Some (dumps requests_style (JObj [("question", JStr "q")])))) = POST /\
  req_path (mkHttpReq POST "/chat" (Some (dumps requests_style (JObj [("question", JStr "q")])))) = "/chat" /\
  resp_status (snd (@handle (replying (Some "42")) (knowing "" []) sample_rasterizer
    (mkHttpReq POST "/chat" (Some (dumps requests_style (JObj [("question", JStr "q")])))) (proc0 token_env))) = 200.
Proof.
  split_and!; [reflexivity | reflexivity |].
  destruct (@handle_chat_typed (replying (Some "42")) (knowing "" []) sample_rasterizer
    (mkHttpReq POST "/chat" (Some (dumps requests_style (JObj [("question", JStr "q")])))) (proc0 token_env) eq_refl eq_refl)
    as [[H _]|[H|H]]; [exact H | discriminate H | discriminate H].
Defined.

(** A health check, then a question whose snippet prints and then
    raises: the console (stream 0) still holds nothing. *)
Lemma serve_invariant_witness :
  let svc := replying (Some reply42) in
  let comp := knowing "print(42)" [SPrint "x"; SRaise (ValueError "boom")] in
  let reqs := [mkHttpReq GET "/health" None;
               mkHttpReq POST "/chat" (Some (dumps requests_style (JObj [("question", JStr "q")])))] in
  wf_io (w_io (p_world (proc0 token_env))) /\ wf_plt (w_plt (p_world (proc0 token_env))) = true /\
  io_streams (w_io (p_world (fst (@serve svc comp sample_rasterizer reqs (proc0 token_env))))) !! 0 = Some "".
Proof.
  cbv zeta.
  assert (Hio : wf_io (w_io (p_world (proc0 token_env)))).
  { split; [simpl; rewrite lookup_singleton_eq; by eexists|].
    intros h [v Hv]. simpl in *. destruct (decide (h = 0)) as [->|Hh]; [lia|].
    by rewrite lookup_singleton_ne in Hv. }
  split_and!; [exact Hio | reflexivity |].
  rewrite (proj1 (proj2 (proj2 (proj2 (@serve_invariant (replying (Some reply42))
    (knowing "print(42)" [SPrint "x"; SRaise (ValueError "boom")]) sample_rasterizer
    [mkHttpReq GET "/health" None; mkHttpReq POST "/chat" (Some (dumps requests_style (JObj [("question", JStr "q")])))]
    (proc0 token_env) Hio eq_refl)))) 0 ltac:(simpl; lia)).
  reflexivity.
Defined.
