(* ===== verification/Cors.v ===== *)
(** * The CORS middleware and the full stack of main.py

    main.py:12-18 wraps the application in Starlette's [CORSMiddleware]
    with [allow_origins=["*"]], [allow_methods=["*"]] and
    [allow_headers=["*"]].  The rest keeps the defaults
    ([allow_credentials=False], no exposed headers, [max_age=600]).
    [__init__] turns these arguments into fixed settings:
    - every origin is allowed;
    - ["*"] among the methods means [ALL_METHODS];
    - the requested headers of a preflight are mirrored back;
    - the header tables are [simple_headers] and [preflight_headers].
    The definitions below are the middleware's methods on those settings.

    The stack is [ServerErrorMiddleware(CORSMiddleware(router))]: the
    500 of an exception escaping [ask] is produced outside the CORS
    layer.  Only the request headers the middleware reads are modelled
    ([CorsHeaders]).  Of a response, only the headers the middleware sets
    are modelled, as a list in the order they are set. *)

From stdpp Require Import base strings list.
From Stdlib Require Import String Ascii Lia.
From S2P Require Import Prelude Plot Executor Model Agent JsonText Server.

(** The request headers [CORSMiddleware] reads. *)
Record CorsHeaders := mkCorsHeaders {
  h_origin : option string;            (** [Origin] *)
  h_request_method : option string;    (** [Access-Control-Request-Method] *)
  h_request_headers : option string;   (** [Access-Control-Request-Headers] *)
  h_cookie : bool                      (** a [Cookie] header is present *)
}.

(** The headers of a request sent by [requests] (app.py): none of them. *)
Definition no_cors_headers : CorsHeaders := mkCorsHeaders None None None false.

(** [starlette.middleware.cors.ALL_METHODS], what [allow_methods=["*"]]
    becomes. *)
Definition ALL_METHODS : list string := ["DELETE"; "GET"; "HEAD"; "OPTIONS"; "PATCH"; "POST"; "PUT"].

(** [self.simple_headers] for [allow_origins=["*"]] without credentials. *)
Definition simple_headers : list (string * string) := [("Access-Control-Allow-Origin", "*")].

(** [self.preflight_headers]: all origins and no credentials, so the
    origin is answered with ["*"].  With [allow_headers=["*"]] there is
    no fixed [Access-Control-Allow-Headers]. *)
Definition preflight_headers : list (string * string) :=
  [("Access-Control-Allow-Origin", "*");
   ("Access-Control-Allow-Methods", String.concat ", " ALL_METHODS);
   ("Access-Control-Max-Age", "600")].

(** [preflight_response]: the origin is always allowed.  The requested
    method must be one of the allowed methods.  The requested headers are
    mirrored back because every header is allowed. *)
Definition preflight_response (requested_method : string) (requested_headers : option string)
    : HttpResponse * list (string * string) :=
  let headers := match requested_headers with
                 | Some rh => preflight_headers ++ [("Access-Control-Allow-Headers", rh)]
                 | None => preflight_headers
                 end in
  if existsb (String.eqb requested_method) ALL_METHODS
  then (mkHttpResp 200 (JStr "OK"), headers)
  else (mkHttpResp 400 (JStr "Disallowed CORS method"), headers).

(** [send] on [http.response.start]: the simple headers.  With a cookie
    and all origins allowed, [allow_explicit_origin] answers with the
    request's origin and adds [Vary: Origin]. *)
Definition simple_response_headers (h : CorsHeaders) (origin : string) : list (string * string) :=
  if h_cookie h then [("Access-Control-Allow-Origin", origin); ("Vary", "Origin")]
  else simple_headers.

Section Stack.
Context {svc : ChatService} {comp : PyCompiler} {rast : Rasterizer}.

(** [CORSMiddleware.__call__]: no [Origin] passes straight through; an
    [OPTIONS] with [Access-Control-Request-Method] is a preflight,
    answered without calling the application; anything else is a simple
    response, whose start message gets the CORS headers.  An exception of
    the application propagates before any message is sent. *)
Definition cors (h : CorsHeaders) (req : HttpRequest) (p : Proc)
    : Proc * PyResult (HttpResponse * list (string * string)) :=
  match h_origin h with
  | None =>
      let '(p', r) := route req p in
      (p', (resp <- r ;; POk (resp, []))%py)
  | Some origin =>
      match req_method req, h_request_method h with
      | OPTIONS, Some m => (p, POk (preflight_response m (h_request_headers h)))
      | _, _ =>
          let '(p', r) := route req p in
          (p', (resp <- r ;; POk (resp, simple_response_headers h origin))%py)
      end
  end.

(** The whole application of main.py: [ServerErrorMiddleware] around the
    CORS layer around the router. *)
Definition serve_http (h : CorsHeaders) (req : HttpRequest) (p : Proc)
    : Proc * (HttpResponse * list (string * string)) :=
  let '(p', r) := cors h req p in
  (p', match r with POk rh => rh | PRaise _ => (internal_error, []) end).

End Stack.

(** ** Theorems *)

Section StackFacts.
Context {svc : ChatService} {comp : PyCompiler} {rast : Rasterizer}.

(** Without an [Origin] header the middleware is transparent: the whole
    stack is [handle], with no CORS header.  This covers the requests of
    app.py, which [requests] sends from the Streamlit process without an
    [Origin]; the UI model calls [handle]. *)
Lemma serve_http_no_origin (h : CorsHeaders) (req : HttpRequest) (p : Proc) :
  h_origin h = None -> serve_http h req p = (fst (handle req p), (snd (handle req p), [])).
Proof.
  intros Ho. unfold serve_http, cors, handle. rewrite Ho.
  by destruct (route req p) as [p' [resp|e]].
Qed.

(** C35: with an [Origin] header, a CORS preflight ([OPTIONS] with
    [Access-Control-Request-Method]) never reaches the router: the agent
    state is unchanged, the status is 200 for a standard method and 400
    otherwise, and every origin is allowed.  Any other request gets
    exactly the state change and the response of [handle], with the CORS
    headers ([*], or the origin itself when a cookie is sent) unless the
    router raised: the 500 of [ServerErrorMiddleware] has no CORS
    header. *)
Theorem serve_http_cors (h : CorsHeaders) (origin : string) (req : HttpRequest) (p : Proc) :
  h_origin h = Some origin ->
  (forall m, req_method req = OPTIONS -> h_request_method h = Some m ->
     fst (serve_http h req p) = p /\
     resp_status (fst (snd (serve_http h req p))) =
       (if existsb (String.eqb m) ALL_METHODS then 200 else 400) /\
     hd_error (snd (snd (serve_http h req p))) = Some ("Access-Control-Allow-Origin", "*")) /\
  (req_method req <> OPTIONS \/ h_request_method h = None ->
     fst (serve_http h req p) = fst (handle req p) /\
     fst (snd (serve_http h req p)) = snd (handle req p) /\
     snd (snd (serve_http h req p)) =
       match snd (route req p) with
       | POk _ => simple_response_headers h origin
       | PRaise _ => []
       end).
Proof.
  intros Ho. unfold serve_http, cors, handle. rewrite Ho. split.
  - intros m -> ->. unfold preflight_response.
    by destruct (h_request_headers h), (existsb (String.eqb m) ALL_METHODS).
  - intros Hpre.
    assert (Hsimple : match req_method req, h_request_method h with
                      | OPTIONS, Some m => (p, POk (preflight_response m (h_request_headers h)))
                      | _, _ => let '(p', r) := route req p in
                                (p', (resp <- r ;; POk (resp, simple_response_headers h origin))%py)
                      end = let '(p', r) := route req p in
                            (p', (resp <- r ;; POk (resp, simple_response_headers h origin))%py)).
    { destruct (req_method req), (h_request_method h); try reflexivity.
      destruct Hpre as [Hm|Hm]; done. }
    rewrite Hsimple. by destruct (route req p) as [p' [resp|e]].
Qed.

End StackFacts.

(** A browser's preflight for [POST /chat]. *)
Definition preflight_chat : HttpRequest := mkHttpReq OPTIONS "/chat" None.

Definition browser_headers : CorsHeaders :=
  mkCorsHeaders (Some "http://localhost:8501") (Some "POST") (Some "content-type") false.

Lemma serve_http_cors_witness :
  h_origin browser_headers = Some "http://localhost:8501" /\
  req_method preflight_chat = OPTIONS /\ h_request_method browser_headers = Some "POST" /\
  resp_status (fst (snd (@serve_http (replying (Some "42")) (knowing "" []) sample_rasterizer
                          browser_headers preflight_chat (proc0 token_env)))) = 200.
Proof.
  split_and!; [reflexivity | reflexivity | reflexivity |].
  exact (proj1 (proj2 (proj1 (@serve_http_cors (replying (Some "42")) (knowing "" []) sample_rasterizer
    browser_headers "http://localhost:8501" preflight_chat (proc0 token_env) eq_refl) "POST" eq_refl eq_refl))).
Defined.
