(* ===== verification/Ui.v ===== *)
(** * The chat UIs (app.py, streamlit_app.py)

    Streamlit reruns the script on every interaction and keeps
    [st.session_state] between runs: [backend_up] (app.py only) and the
    list of chat turns [messages].  [app_rerun] is one run of app.py:
    - the back end is checked once per session ([GET /health] with
      main.py's [handle]);
    - the history is rendered ([render_history]), decoding every stored
      plot outside any [try];
    - then, if the user typed a question, a user turn is appended;
    - the answer is fetched, through [POST /chat] in API mode or through
      [ask] in Local mode;
    - inside the [try], the entry is built and its plot decoded
      ([answer_entry]); the assistant turn is appended when this does not
      raise.
    In API mode the question travels as the text requests renders, and
    the answer as the text Starlette renders, parsed by [resp.json()].
    [api_url] is [API_URL] of the UI process ([Config.API_URL]).
    [st_rerun] is one run of streamlit_app.py, which always asks locally.
    [AppSys] pairs the session with the agent state the answers come
    from: the server's in API mode, the imported module's in Local mode.
    What happens to an HTTP exchange is a [Transport] outcome.
    The theorems cover:
    - the refinement of Local mode by API mode;
    - the session invariants by induction on [reachable];
    - the exact outcome of a Local-mode run with a question, on each
      outcome of [ask] (its answer stored; an [Exception], [savefig]'s
      included, shown and the question left unanswered);
    - in API mode with the server down, a question is never answered
      ([eventually] over the omni step [ask_step], in which the network
      picks the outcome).
    Rendering (st.markdown, st.image, st.error) is not modelled beyond
    the decoding of [st.image]'s argument. *)

From stdpp Require Import base strings list gmap.
From Stdlib Require Import String Ascii Lia.
From S2P Require Import Prelude PyStr Extract Base64 Plot Dataset Executor Model Config Agent JsonText Server.
From stdpp Require Import pretty.

(** [{"role": ..., "content": ..., "plot": ...}] *)
Record Turn := mkTurn {
  turn_role : string;
  turn_content : string;
  turn_plot : option string
}.

Record Session := mkSession {
  backend_up : option bool;     (** absent until the first run *)
  messages : list Turn
}.

Record AppSys := mkApp {
  sess : Session;
  agent : Proc
}.

Inductive Transport :=
| Delivered    (** the server answers in time *)
| Refused      (** nothing listens: [requests.exceptions.ConnectionError] *)
| TimedOut.    (** the server handles the request, the answer comes too late *)

Definition ConnectionError : PyExc :=
  mkExc "ConnectionError" "Failed to establish a new connection" true.
Definition ReadTimeout : PyExc := mkExc "ReadTimeout" "Read timed out. (read timeout=120)" true.

(** The reason phrase the server sends with the statuses it uses. *)
Definition reason_phrase (status : nat) : string :=
  if Nat.eqb status 404 then "Not Found"
  else if Nat.eqb status 405 then "Method Not Allowed"
  else if Nat.eqb status 422 then "Unprocessable Entity"
  else if Nat.eqb status 500 then "Internal Server Error"
  else "".

(** [resp.raise_for_status()]: a 4xx or 5xx status raises [HTTPError]
    with the message requests formats. *)
Definition raises_for_status (status : nat) : bool := (400 <=? status) && (status <? 600).

Definition HTTPError (status : nat) (url : string) : PyExc :=
  mkExc "HTTPError"
    (pretty status +:+ (if status <? 500 then " Client Error: " else " Server Error: ")
       +:+ reason_phrase status +:+ " for url: " +:+ url) true.

(** app.py:42-46: [requests.post(f"{API_URL}/chat", json={"question": question})]. *)
Definition chat_post (q : string) : HttpRequest :=
  mkHttpReq POST "/chat" (Some (dumps requests_style (JObj [("question", JStr q)]))).

(** [resp.json()] on a body that is not JSON. *)
Definition JSONDecodeError : PyExc := mkExc "JSONDecodeError" "Expecting value: line 1 column 1 (char 0)" true.

(** [result.get(k, default)] for a string field. *)
Definition get_str (k default : string) (j : Json) : string :=
  match j with
  | JObj fs => match json_field k fs with Some (JStr s) => s | _ => default end
  | _ => default
  end.

(** [result["plot"] if result.get("plot") else absent] *)
Definition get_plot (j : Json) : option string :=
  match j with
  | JObj fs => match json_field "plot" fs with
               | Some (JStr s) => if str_truthy s then Some s else None
               | _ => None
               end
  | _ => None
  end.

(** [if msg.get("plot"): st.image(base64.b64decode(msg["plot"]))]
    (app.py:72-73, streamlit_app.py:30-31).  Of [st.image] only the
    decoding of its argument is modelled: the only part that can raise on
    the text. *)
Definition show_plot (plot : option string) : PyResult unit :=
  match plot with
  | Some img => if str_truthy img then (_ <- b64decode img ;; POk tt)%py else POk tt
  | None => POk tt
  end.

(** The history rendered before the input is read (app.py:69-73,
    streamlit_app.py:33-35), outside any [try]. *)
Fixpoint render_history (ms : list Turn) : PyResult unit :=
  match ms with
  | [] => POk tt
  | t :: ms' => (_ <- show_plot (turn_plot t) ;; render_history ms')%py
  end.

(** app.py:87-94 (streamlit_app.py:46-53 with [""] as the default), the
    body of the [try] once the result is in: [result.get] on the result,
    the entry, and [st.image(base64.b64decode(result["plot"]))] before
    [entry["plot"]] is set.  [result.get] raises on a result that is not a
    dictionary, and [b64decode] raises [TypeError] on a truthy plot that
    is not a string. *)
Definition answer_entry (default : string) (j : Json) : PyResult Turn :=
  match j with
  | JObj fs =>
      let content := get_str "answer" default j in
      match json_field "plot" fs with
      | Some (JStr img) =>
          if str_truthy img
          then (_ <- b64decode img ;; POk (mkTurn "assistant" content (Some img)))%py
          else POk (mkTurn "assistant" content None)
      | Some (JObj (_ :: _)) =>
          PRaise (TypeError "argument should be a bytes-like object or ASCII string, not 'dict'")
      | _ => POk (mkTurn "assistant" content None)
      end
  | JStr _ => PRaise (AttributeError "'str' object has no attribute 'get'")
  | JNull => PRaise (AttributeError "'NoneType' object has no attribute 'get'")
  end.

Section Runs.
Context {svc : ChatService} {comp : PyCompiler} {rast : Rasterizer}.

(** [API_URL] of the UI process (app.py:20). *)
Context (api_url : string).

(** app.py:23-28 *)
Definition check_backend (t : Transport) (p : Proc) : bool :=
  match t with
  | Delivered => Nat.eqb (resp_status (snd (handle (mkHttpReq GET "/health" None) p))) 200
  | Refused | TimedOut => false
  end.

(** app.py:40-50 *)
Definition get_response (t : Transport) (q : string) (up : bool) (p : Proc) : Proc * PyResult Json :=
  if up then
    match t with
    | Refused => (p, PRaise ConnectionError)
    | TimedOut => (fst (handle (chat_post q) p), PRaise ReadTimeout)
    | Delivered =>
        let '(p', resp) := handle (chat_post q) p in
        if raises_for_status (resp_status resp)
        then (p', PRaise (HTTPError (resp_status resp) (api_url +:+ "/chat")))
        else match loads (dumps starlette_style (resp_json resp)) with
             | Some j => (p', POk j)
             | None => (p', PRaise JSONDecodeError)
             end
    end
  else
    let '(p', r) := ask q p in
    (p', match r with POk res => POk (result_json res) | PRaise e => PRaise e end).

(** The turn [answer_entry] stores when it does not raise. *)
Definition assistant_turn (default : string) (j : Json) : Turn :=
  mkTurn "assistant" (get_str "answer" default j) (get_plot j).

(** One run of app.py (lines 31-102) with the user's input, if any. *)
Definition app_rerun (health chat : Transport) (prompt : option string) (s : AppSys)
    : AppSys * PyResult unit :=
  let up := match backend_up (sess s) with
            | Some b => b
            | None => check_backend health (agent s)
            end in
  let msgs := messages (sess s) in
  match render_history msgs with
  | PRaise e => (mkApp (mkSession (Some up) msgs) (agent s), PRaise e)
  | POk _ =>
      match prompt with
      | None => (mkApp (mkSession (Some up) msgs) (agent s), POk tt)
      | Some q =>
          let msgs1 := msgs ++ [mkTurn "user" q None] in
          let '(p', r) := get_response chat q up (agent s) in
          match (j <- r ;; answer_entry "No answer returned." j)%py with
          | POk t => (mkApp (mkSession (Some up) (msgs1 ++ [t])) p', POk tt)
          | PRaise e =>
              if exc_is_Exception e then (mkApp (mkSession (Some up) msgs1) p', POk tt)
              else (mkApp (mkSession (Some up) msgs1) p', PRaise e)
          end
      end
  end.

(** One run of streamlit_app.py (lines 22-56). *)
Definition st_rerun (prompt : option string) (s : AppSys) : AppSys * PyResult unit :=
  let msgs := messages (sess s) in
  match render_history msgs with
  | PRaise e => (s, PRaise e)
  | POk _ =>
      match prompt with
      | None => (s, POk tt)
      | Some q =>
          let msgs1 := msgs ++ [mkTurn "user" q None] in
          let '(p', r) := ask q (agent s) in
          match (res <- r ;; answer_entry "" (result_json res))%py with
          | POk t => (mkApp (mkSession (backend_up (sess s)) (msgs1 ++ [t])) p', POk tt)
          | PRaise e =>
              if exc_is_Exception e then (mkApp (mkSession (backend_up (sess s)) msgs1) p', POk tt)
              else (mkApp (mkSession (backend_up (sess s)) msgs1) p', PRaise e)
          end
      end
  end.

End Runs.

(** ** Sessions reachable by reruns *)

Definition is_assistant (t : Turn) : bool := String.eqb (turn_role t) "assistant".

(** Every assistant turn directly follows a user turn; [prev_user] says
    whether the turn before the list is a user turn. *)
Fixpoint answers_follow (prev_user : bool) (ms : list Turn) : bool :=
  match ms with
  | [] => true
  | t :: ms' => (negb (is_assistant t) || prev_user) && answers_follow (negb (is_assistant t)) ms'
  end.

(** Only assistant turns carry a plot, and a stored plot decodes to a PNG. *)
Definition plot_ok (t : Turn) : Prop :=
  forall img, turn_plot t = Some img ->
    is_assistant t = true /\ exists body, b64decode img = POk (png_signature ++ body).

(** The [Json] of an answer of [ask]. *)
Definition asked {svc : ChatService} {comp : PyCompiler} {rast : Rasterizer} (j : Json) : Prop :=
  exists q p r, snd (ask q p) = POk r /\ j = result_json r.

Section Sessions.
Context {svc : ChatService} {comp : PyCompiler} {rast : Rasterizer}.
Context (api_url : string).

(** The sessions of app.py: a fresh session beside an agent in state
    [p0], then any sequence of reruns, each with its own transport
    outcomes and input. *)
Inductive reachable (p0 : Proc) : AppSys -> Prop :=
| reach_init : reachable p0 (mkApp (mkSession None []) p0)
| reach_rerun (health chat : Transport) (prompt : option string) (s : AppSys) :
    reachable p0 s -> reachable p0 (fst (app_rerun api_url health chat prompt s)).

(** One run in which the user submits [q], whatever the network does:
    [next] must hold of the session for every pair of transport
    outcomes. *)
Definition ask_step (q : string) (s : AppSys) (next : AppSys -> Prop) : Prop :=
  forall health chat, next (fst (app_rerun api_url health chat (Some q) s)).

End Sessions.

(** [P] holds after finitely many steps, whichever successor each step
    picks (an omni step: the environment chooses). *)
Inductive eventually (step : AppSys -> (AppSys -> Prop) -> Prop) (P : AppSys -> Prop) : AppSys -> Prop :=
| eventually_done (s : AppSys) : P s -> eventually step P s
| eventually_step (s : AppSys) (next : AppSys -> Prop) :
    step s next -> (forall s', next s' -> eventually step P s') -> eventually step P s.

(** The history ends with the question [q] and an answer to it. *)
Definition answered (q : string) (s : AppSys) : Prop :=
  exists msgs a, messages (sess s) = msgs ++ [mkTurn "user" q None; a] /\ is_assistant a = true.

(** A checked session with one earlier question. *)
Definition sys1 : AppSys :=
  mkApp (mkSession (Some true) [mkTurn "user" "hi" None]) (proc0 token_env).

(** ** Theorems *)

Lemma png_payload_truthy (img : string) (body : list Z) :
  b64decode img = POk (png_signature ++ body) -> str_truthy img = true.
Proof. by destruct img. Qed.

(** The turn [answer_entry] stores is [assistant_turn]. *)
Lemma answer_entry_ok (d : string) (j : Json) (t : Turn) :
  answer_entry d j = POk t -> t = assistant_turn d j.
Proof.
  destruct j as [|?|fs]; [done|done|]. unfold answer_entry, assistant_turn, get_plot.
  destruct (json_field "plot" fs) as [[|img|[|kv fs']]|]; try (intros [= <-]; done).
  destruct (str_truthy img); [|intros [= <-]; done].
  destruct (b64decode img); [intros [= <-]; done | done].
Qed.

(** A history whose plots decode renders without raising. *)
Lemma render_history_ok (ms : list Turn) :
  Forall plot_ok ms -> render_history ms = POk tt.
Proof.
  induction 1 as [|t ms Ht _ IH]; [done|]. cbn [render_history].
  assert (show_plot (turn_plot t) = POk tt) as ->; [|exact IH].
  destruct (turn_plot t) as [img|] eqn:E; [|done]. cbn [show_plot].
  destruct (str_truthy img); [|done]. by destruct (Ht img E) as [_ [body ->]].
Qed.

Section RunFacts.
Context {svc : ChatService} {comp : PyCompiler} {rast : Rasterizer}.
Context (api_url : string).

(** The server reads the question back from the body requests sends. *)
Lemma parse_chat_post (q : string) : parse_chat_request (req_body (chat_post q)) = Some q.
Proof. unfold parse_chat_request. cbn [req_body chat_post mbind option_bind]. by rewrite loads_dumps. Qed.

(** The dictionaries [ask] returns have distinct keys. *)
Lemma result_json_wf (r : AskResult) : json_wf (result_json r) = true.
Proof. by destruct r as [a [img|]]. Qed.

(** [POST /chat] with the question answers with [ask]'s result, or 500. *)
Lemma handle_chat_post (q : string) (p : Proc) :
  handle (chat_post q) p =
    let '(p', r) := ask q p in
    match r with
    | POk res => (p', mkHttpResp 200 (result_json res))
    | PRaise _ => (p', internal_error)
    end.
Proof.
  unfold handle, route. cbv zeta. cbn [req_method req_path chat_post]. rewrite parse_chat_post.
  unfold chat. by destruct (ask q p) as [p' [res|e]].
Qed.

(** A delivered exchange in API mode gives [ask]'s dictionary back, or
    the [HTTPError] of the 500. *)
Lemma get_response_delivered (q : string) (p : Proc) :
  get_response api_url Delivered q true p =
    let '(p', r) := ask q p in
    match r with
    | POk res => (p', POk (result_json res))
    | PRaise _ => (p', PRaise (HTTPError 500 (api_url +:+ "/chat")))
    end.
Proof.
  unfold get_response. rewrite handle_chat_post.
  destruct (ask q p) as [p' [res|e]]; [|reflexivity].
  cbn -[dumps loads result_json]. by rewrite loads_dumps by apply result_json_wf.
Qed.

(** The entry of an answer of [ask] is stored: its plot decodes. *)
Lemma answer_entry_asked (d q : string) (p : Proc) (r : AskResult) :
  snd (ask q p) = POk r -> answer_entry d (result_json r) = POk (assistant_turn d (result_json r)).
Proof.
  intros Ha. destruct r as [a [img|]]; [|done].
  destruct (ask_plot_png q p _ img Ha eq_refl) as [body Hb].
  unfold answer_entry, assistant_turn, get_plot. cbn -[b64decode str_truthy get_str].
  by rewrite (png_payload_truthy _ _ Hb), Hb.
Qed.

(** An answer whose plot does not decode is shown ([st.markdown(answer)]
    runs first) but not stored: [b64decode] raises inside the [try]
    before [st.session_state.messages.append(entry)], the [except
    Exception] clause swallows it, and only the question stays in the
    history. *)
Lemma app_rerun_plot_undecodable (h c : Transport) (q : string) (b : bool) (msgs : list Turn)
    (p : Proc) (j : Json) (img : string) (e : PyExc) :
  render_history msgs = POk tt -> snd (get_response api_url c q b p) = POk j ->
  get_plot j = Some img -> b64decode img = PRaise e ->
  app_rerun api_url h c (Some q) (mkApp (mkSession (Some b) msgs) p) =
    (mkApp (mkSession (Some b) (msgs ++ [mkTurn "user" q None])) (fst (get_response api_url c q b p)), POk tt).
Proof.
  intros Hr Hj Hg He. unfold app_rerun. cbn [sess messages backend_up agent]. rewrite Hr.
  destruct (get_response api_url c q b p) as [p' r]. cbn in Hj. subst r. cbn [py_bind fst].
  destruct j as [| |fs]; try done. unfold get_plot in Hg. unfold answer_entry.
  destruct (json_field "plot" fs) as [[|s|?]|]; try done.
  destruct (str_truthy s) eqn:T; [|done]. injection Hg as <-.
  rewrite He. cbn [py_bind]. by rewrite (b64decode_raises_Exception _ _ He).
Qed.

(** C26: API mode refines Local mode: with the server running main.py
    on the same agent state, a question leaves the same chat history and
    the same agent state whether it goes through [POST /chat] or through
    the imported [ask] (the HTTP 500 of a failing [ask] and the
    exception itself both leave the user turn unanswered). *)
Theorem app_api_matches_local (h1 h2 c2 : Transport) (q : string) (msgs : list Turn) (p : Proc) :
  messages (sess (fst (app_rerun api_url h1 Delivered (Some q) (mkApp (mkSession (Some true) msgs) p)))) =
  messages (sess (fst (app_rerun api_url h2 c2 (Some q) (mkApp (mkSession (Some false) msgs) p)))) /\
  agent (fst (app_rerun api_url h1 Delivered (Some q) (mkApp (mkSession (Some true) msgs) p))) =
  agent (fst (app_rerun api_url h2 c2 (Some q) (mkApp (mkSession (Some false) msgs) p))).
Proof.
  unfold app_rerun. cbn [sess agent backend_up messages].
  destruct (render_history msgs); [|done]. rewrite get_response_delivered.
  unfold get_response. destruct (ask q p) as [p' [res|e]]; cbn [py_bind];
    [destruct (answer_entry _ _) as [t|e]; [done|] |];
    by destruct (exc_is_Exception e).
Qed.

(** C27: streamlit_app.py behaves as app.py in Local mode: same history,
    same agent state, same outcome of the run. *)
Theorem st_matches_app_local (h c : Transport) (prompt : option string) (s : AppSys) :
  backend_up (sess s) = Some false ->
  st_rerun prompt s = app_rerun api_url h c prompt s.
Proof.
  intros Hup. destruct s as [[up msgs] p]. simpl in Hup. subst up.
  unfold st_rerun, app_rerun, get_response. simpl.
  destruct (render_history msgs); [|done]. destruct prompt as [q|]; [|done].
  destruct (ask q p) as [p' [res|e]]; [reflexivity|]. by destruct (exc_is_Exception e).
Qed.

(** C28: the back end is checked once per session: after the first run
    the health outcome no longer matters, the mode never changes, and the
    history only grows. *)
Theorem app_rerun_checked_once (h1 h2 c : Transport) (prompt : option string) (s : AppSys) (b : bool) :
  backend_up (sess s) = Some b ->
  app_rerun api_url h1 c prompt s = app_rerun api_url h2 c prompt s /\
  backend_up (sess (fst (app_rerun api_url h1 c prompt s))) = Some b /\
  exists added, messages (sess (fst (app_rerun api_url h1 c prompt s))) = messages (sess s) ++ added.
Proof.
  intros Hup. unfold app_rerun. rewrite Hup. split; [done|].
  destruct (render_history (messages (sess s))); [|split; [done | exists []; by rewrite app_nil_r]].
  destruct prompt as [q|]; [|split; [done | exists []; by rewrite app_nil_r]].
  destruct (get_response api_url c q b (agent s)) as [p' r].
  destruct (py_bind r _) as [t|e]; simpl.
  - split; [done|]. eexists. by rewrite <- app_assoc.
  - destruct (exc_is_Exception e); (split; [done | by eexists]).
Qed.

(** C29: when the back end cannot be reached, the question stays in the
    history without an answer and the agent is untouched. *)
Theorem app_rerun_refused (h : Transport) (q : string) (msgs : list Turn) (p : Proc) :
  render_history msgs = POk tt ->
  app_rerun api_url h Refused (Some q) (mkApp (mkSession (Some true) msgs) p) =
    (mkApp (mkSession (Some true) (msgs ++ [mkTurn "user" q None])) p, POk tt).
Proof. intros Hr. unfold app_rerun. cbn [sess messages backend_up]. by rewrite Hr. Qed.

(** C30: when the answer arrives after the timeout, the server has still
    run the whole request (the model was called, the snippet executed),
    but the history records the question without its answer. *)
Theorem app_rerun_timed_out (h : Transport) (q : string) (msgs : list Turn) (p : Proc) :
  render_history msgs = POk tt ->
  app_rerun api_url h TimedOut (Some q) (mkApp (mkSession (Some true) msgs) p) =
    (mkApp (mkSession (Some true) (msgs ++ [mkTurn "user" q None])) (fst (ask q p)), POk tt).
Proof.
  intros Hr. unfold app_rerun, get_response. cbn [sess messages backend_up]. rewrite Hr.
  simpl. rewrite handle_chat_post.
  by destruct (ask q p) as [p' [res|e]].
Qed.

End RunFacts.

Section Reach.
Context {svc : ChatService} {comp : PyCompiler} {rast : Rasterizer}.
Context (api_url : string).

Lemma answers_follow_app (b : bool) (ms1 ms2 : list Turn) :
  answers_follow b (ms1 ++ ms2) =
    answers_follow b ms1 && answers_follow (foldl (fun _ t => negb (is_assistant t)) b ms1) ms2.
Proof.
  revert b. induction ms1 as [|t ms1 IH]; intros b; [done|].
  simpl. rewrite IH. by rewrite andb_assoc.
Qed.

Lemma get_plot_result_json (r : AskResult) (img : string) :
  get_plot (result_json r) = Some img -> plot r = Some img.
Proof.
  destruct r as [a [s|]]; simpl; [|done].
  by destruct (str_truthy s); intros [= ->].
Qed.

(** What one rerun adds to the history: nothing, an unanswered question,
    or a question and the answer of some [ask]. *)
Lemma app_rerun_added (health chat : Transport) (prompt : option string) (s : AppSys) :
  exists added, messages (sess (fst (app_rerun api_url health chat prompt s))) = messages (sess s) ++ added /\
    (added = [] \/
     exists q, added = [mkTurn "user" q None] \/
       exists j, added = [mkTurn "user" q None; assistant_turn "No answer returned." j] /\ asked j).
Proof.
  unfold app_rerun.
  destruct (render_history (messages (sess s))); [|exists []; rewrite app_nil_r; by split; [|left]].
  destruct prompt as [q|]; [|exists []; rewrite app_nil_r; by split; [|left]].
  set (up := match backend_up (sess s) with Some b => b | None => _ end).
  assert (Hget : forall p' j, get_response api_url chat q up (agent s) = (p', POk j) -> asked j).
  { intros p' j. destruct up; [destruct chat|].
    - rewrite get_response_delivered. destruct (ask q (agent s)) as [p1 [r|e]] eqn:Ha; [|done].
      intros [= _ <-]. exists q, (agent s), r. by rewrite Ha.
    - done.
    - unfold get_response. by destruct (handle _ _).
    - unfold get_response. destruct (ask q (agent s)) as [p1 [r|e]] eqn:Ha; [|done].
      intros [= _ <-]. exists q, (agent s), r. by rewrite Ha. }
  destruct (get_response api_url chat q up (agent s)) as [p' [j|e]] eqn:Hr; cbn [py_bind].
  - destruct (answer_entry "No answer returned." j) as [t|e] eqn:Ht.
    + apply answer_entry_ok in Ht as ->. eexists. split; [simpl; by rewrite <- app_assoc|].
      right. exists q. right. exists j. split; [done|]. by apply (Hget p').
    + exists [mkTurn "user" q None]. split; [by destruct (exc_is_Exception e)|]. right. exists q. by left.
  - exists [mkTurn "user" q None]. split; [by destruct (exc_is_Exception e)|]. right. exists q. by left.
Qed.

Lemma asked_plot_ok (j : Json) : asked j -> plot_ok (assistant_turn "No answer returned." j).
Proof.
  intros (q & p & r & Ha & ->) img Himg. split; [done|].
  apply (ask_plot_png q p r img Ha). by apply get_plot_result_json.
Qed.

End Reach.

Section ReachFacts.
Context {svc : ChatService} {comp : PyCompiler} {rast : Rasterizer}.
Context (api_url : string).

(** C31: in every session app.py can reach, each assistant turn answers
    the user turn just before it, user turns carry no plot, every stored
    plot decodes to the bytes of a PNG image, and so rendering the
    history (app.py:69-73, outside any [try]) never raises. *)
Theorem reachable_session_wf (p0 : Proc) (s : AppSys) :
  reachable api_url p0 s ->
  answers_follow false (messages (sess s)) = true /\ Forall plot_ok (messages (sess s)) /\
  render_history (messages (sess s)) = POk tt.
Proof.
  intros Hreach. cut (answers_follow false (messages (sess s)) = true /\ Forall plot_ok (messages (sess s))).
  { intros [Ha Hp]. split_and!; [done | done | by apply render_history_ok]. }
  induction Hreach as [|h c pr s _ [IHa IHp]]; [split; [done | constructor]|].
  destruct (app_rerun_added api_url h c pr s) as (added & -> & Hadd).
  rewrite answers_follow_app, IHa, Forall_app. split; [|split; [done|]].
  - destruct Hadd as [->|(q & [->|(j & -> & _)])]; simpl; [done | |];
      destruct (foldl (fun _ t => negb (is_assistant t)) false (messages (sess s))); reflexivity.
  - destruct Hadd as [->|(q & [->|(j & -> & Hj)])]; [by constructor | |];
      (constructor; [by intros img [=] |]); [by constructor|].
    constructor; [by apply asked_plot_ok | constructor].
Qed.

End ReachFacts.

Section Liveness.
Context {svc : ChatService} {comp : PyCompiler} {rast : Rasterizer}.
Context (api_url : string).

(** A history ending with a user turn does not end with an answer. *)
Lemma user_last_not_answered (q q' : string) (msgs : list Turn) (s : AppSys) :
  messages (sess s) = msgs ++ [mkTurn "user" q' None] -> ~ answered q s.
Proof.
  intros Hm (msgs' & a & Ha & Hasst). rewrite Hm in Ha.
  replace (msgs' ++ [mkTurn "user" q None; a]) with ((msgs' ++ [mkTurn "user" q None]) ++ [a]) in Ha
    by (by rewrite <- app_assoc).
  apply app_inj_tail in Ha as [_ <-]. done.
Qed.

(** The turn stored for a result of [ask]: its answer and its plot,
    since every plot [ask] returns is a non-empty payload. *)
Lemma assistant_turn_ask (d q : string) (p : Proc) (r : AskResult) :
  snd (ask q p) = POk r -> assistant_turn d (result_json r) = mkTurn "assistant" (answer r) (plot r).
Proof.
  intros Ha. destruct r as [a [img|]]; [|done].
  destruct (ask_plot_png q p _ img Ha eq_refl) as [body Hb].
  unfold assistant_turn, get_plot. cbn -[str_truthy]. by rewrite (png_payload_truthy _ _ Hb).
Qed.

(** C38: one run of app.py in Local mode with a question [q], whatever
    the network would do (it is not used): the question is stored, and
    the agent is the one [ask] left.  When [ask] returns, its answer and
    plot are stored right after the question and the run ends normally.
    When [ask] raises an [Exception] (the [savefig] error of [grab_plot]
    included), [st.error] shows it and the question stays unanswered; any
    other exception propagates out of the run. *)
Theorem local_rerun_outcome (q : string) (s : AppSys) (h c : Transport) :
  backend_up (sess s) = Some false -> render_history (messages (sess s)) = POk tt ->
  app_rerun api_url h c (Some q) s =
    match snd (ask q (agent s)) with
    | POk res =>
        (mkApp (mkSession (Some false) (messages (sess s) ++
                  [mkTurn "user" q None; mkTurn "assistant" (answer res) (plot res)]))
               (fst (ask q (agent s))), POk tt)
    | PRaise e =>
        (mkApp (mkSession (Some false) (messages (sess s) ++ [mkTurn "user" q None]))
               (fst (ask q (agent s))), if exc_is_Exception e then POk tt else PRaise e)
    end.
Proof.
  intros Hup Hr. unfold app_rerun, get_response. rewrite Hup, Hr.
  destruct (ask q (agent s)) as [p' [res|e]] eqn:Ea; cbn [py_bind fst snd].
  - rewrite (answer_entry_asked _ q (agent s) res), (assistant_turn_ask _ q (agent s) res)
      by (by rewrite Ea).
    by rewrite <- app_assoc.
  - by destruct (exc_is_Exception e).
Qed.

(** In API mode the question may never be answered: when the server
    stays unreachable, every run leaves it unanswered (no fallback to the
    local agent after the first check). *)
Lemma api_unreachable_never_answered (q : string) (s : AppSys) :
  backend_up (sess s) = Some true -> ~ answered q s -> ~ eventually (ask_step api_url q) (answered q) s.
Proof.
  intros Hup Hna Hev. revert Hup Hna.
  induction Hev as [s Hp | s next Hstep _ IH]; intros Hup Hna; [done|].
  apply (IH (fst (app_rerun api_url Delivered Refused (Some q) s))); [apply Hstep | |];
    unfold app_rerun; rewrite Hup; destruct (render_history (messages (sess s))); try done.
  by apply (user_last_not_answered q q (messages (sess s))).
Qed.

End Liveness.

(** ** Concrete runs *)

Lemma st_matches_app_local_witness :
  backend_up (sess (mkApp (mkSession (Some false) []) (proc0 token_env))) = Some false /\
  @st_rerun (replying (Some "42")) (knowing "" []) sample_rasterizer (Some "q")
    (mkApp (mkSession (Some false) []) (proc0 token_env)) =
  @app_rerun (replying (Some "42")) (knowing "" []) sample_rasterizer (API_URL ∅) Refused Delivered (Some "q")
    (mkApp (mkSession (Some false) []) (proc0 token_env)).
Proof. split; [reflexivity | apply st_matches_app_local; reflexivity]. Defined.

Lemma app_rerun_checked_once_witness :
  backend_up (sess sys1) = Some true /\
  (@app_rerun (replying (Some "42")) (knowing "" []) sample_rasterizer (API_URL ∅) Refused Delivered (Some "q") sys1 =
   @app_rerun (replying (Some "42")) (knowing "" []) sample_rasterizer (API_URL ∅) Delivered Delivered (Some "q") sys1 /\
   backend_up (sess (fst (@app_rerun (replying (Some "42")) (knowing "" []) sample_rasterizer (API_URL ∅)
                            Refused Delivered (Some "q") sys1))) = Some true /\
   exists added, messages (sess (fst (@app_rerun (replying (Some "42")) (knowing "" []) sample_rasterizer (API_URL ∅)
                            Refused Delivered (Some "q") sys1))) = messages (sess sys1) ++ added).
Proof. split; [reflexivity | apply app_rerun_checked_once; reflexivity]. Defined.

Lemma reachable_session_wf_witness :
  let s := fst (@app_rerun (replying (Some "42")) (knowing "" []) sample_rasterizer (API_URL ∅) Delivered Delivered
                  (Some "q") (mkApp (mkSession None []) (proc0 token_env))) in
  @reachable (replying (Some "42")) (knowing "" []) sample_rasterizer (API_URL ∅) (proc0 token_env) s /\
  (answers_follow false (messages (sess s)) = true /\ Forall plot_ok (messages (sess s)) /\
   render_history (messages (sess s)) = POk tt).
Proof.
  cbv zeta.
  assert (H : @reachable (replying (Some "42")) (knowing "" []) sample_rasterizer (API_URL ∅) (proc0 token_env)
    (fst (@app_rerun (replying (Some "42")) (knowing "" []) sample_rasterizer (API_URL ∅) Delivered Delivered
           (Some "q") (mkApp (mkSession None []) (proc0 token_env)))))
    by (apply reach_rerun, reach_init).
  split; [exact H | exact (reachable_session_wf _ _ _ H)].
Defined.

Lemma app_rerun_refused_witness :
  render_history [] = POk tt /\
  @app_rerun (replying (Some "42")) (knowing "" []) sample_rasterizer (API_URL ∅) Delivered Refused (Some "q")
    (mkApp (mkSession (Some true) []) (proc0 token_env)) =
    (mkApp (mkSession (Some true) ([] ++ [mkTurn "user" "q" None])) (proc0 token_env), POk tt).
Proof. split; [reflexivity | apply app_rerun_refused; reflexivity]. Defined.

Lemma app_rerun_timed_out_witness :
  render_history [] = POk tt /\
  @app_rerun (replying (Some "42")) (knowing "" []) sample_rasterizer (API_URL ∅) Delivered TimedOut (Some "q")
    (mkApp (mkSession (Some true) []) (proc0 token_env)) =
    (mkApp (mkSession (Some true) ([] ++ [mkTurn "user" "q" None]))
       (fst (@ask (replying (Some "42")) (knowing "" []) sample_rasterizer "q" (proc0 token_env))), POk tt).
Proof. split; [reflexivity | apply app_rerun_timed_out; reflexivity]. Defined.

(** ** The answer on the wire *)

Section Wire.
Context {svc : ChatService} {comp : PyCompiler} {rast : Rasterizer}.
Context (api_url : string).

(** C32: the dictionary [ask] returns survives the trip through
    [POST /chat] and both texts on the wire: main.py reads the question
    from the body requests renders and answers 200; app.py parses the
    body Starlette renders ([resp.json()]) and reads back exactly the
    answer and the plot of [ask] ([result.get("answer", ...)] and
    [result.get("plot")]). *)
Theorem chat_post_roundtrip (q : string) (p : Proc) (r : AskResult) :
  snd (ask q p) = POk r ->
  resp_status (snd (handle (chat_post q) p)) = 200 /\
  exists j, loads (dumps starlette_style (resp_json (snd (handle (chat_post q) p)))) = Some j /\
    get_str "answer" "No answer returned." j = answer r /\ get_plot j = plot r.
Proof.
  intros Ha. rewrite handle_chat_post. destruct (ask q p) as [p' r'] eqn:E.
  simpl in Ha. subst r'. split; [done|]. exists (result_json r).
  split; [by apply loads_dumps, result_json_wf|]. split; [done|].
  destruct r as [a [img|]]; [|done]. cbn.
  destruct (ask_plot_png q p (mkAsk a (Some img)) img) as [body Hb]; [by rewrite E | done |].
  by rewrite (png_payload_truthy img body Hb).
Qed.

End Wire.

Lemma chat_post_roundtrip_witness :
  snd (@ask (replying (Some "42")) (knowing "" []) sample_rasterizer "q" (proc0 token_env)) =
    POk (mkAsk "42" None) /\
  (resp_status (snd (@handle (replying (Some "42")) (knowing "" []) sample_rasterizer
                       (chat_post "q") (proc0 token_env))) = 200 /\
   exists j, loads (dumps starlette_style (resp_json (snd (@handle (replying (Some "42")) (knowing "" [])
                       sample_rasterizer (chat_post "q") (proc0 token_env))))) = Some j /\
     get_str "answer" "No answer returned." j = "42" /\ get_plot j = None).
Proof.
  assert (H : snd (@ask (replying (Some "42")) (knowing "" []) sample_rasterizer "q" (proc0 token_env)) =
    POk (mkAsk "42" None)) by reflexivity.
  split; [exact H | exact (chat_post_roundtrip "q" (proc0 token_env) (mkAsk "42" None) H)].
Defined.

(** A chart titled with an unbalanced [$] in Local mode: [savefig]
    raises [ValueError] inside [ask], [st.error] shows it, and the
    question stays in the history without an answer. *)
Lemma local_rerun_outcome_witness :
  let svc := replying (Some reply42) in
  let comp := knowing "print(42)" [SFigure; SDraw "title $x"] in
  let s := mkApp (mkSession (Some false) []) (proc0 token_env) in
  backend_up (sess s) = Some false /\
  render_history (messages (sess s)) = POk tt /\
  snd (@ask svc comp mathtext_rasterizer "q" (agent s)) = PRaise (ValueError "unbalanced mathtext delimiter") /\
  @app_rerun svc comp mathtext_rasterizer (API_URL ∅) Delivered Delivered (Some "q") s =
    (mkApp (mkSession (Some false) [mkTurn "user" "q" None])
           (fst (@ask svc comp mathtext_rasterizer "q" (agent s))), POk tt).
Proof.
  cbv zeta. split_and!; [reflexivity | reflexivity | reflexivity |].
  rewrite (@local_rerun_outcome (replying (Some reply42)) (knowing "print(42)" [SFigure; SDraw "title $x"])
             mathtext_rasterizer (API_URL ∅) "q" (mkApp (mkSession (Some false) []) (proc0 token_env))
             Delivered Delivered eq_refl eq_refl).
  reflexivity.
Defined.
